(** * Pause detection on a GPS track: a model of [BreakDetection.py]

    The Python module is embedded function by function.  Python floats are
    read as real numbers ([R]), so rounding is not modelled: in binary64 the
    quantity [a] of [haversine] can round above 1 for a point and its
    antipode, where the code raises [ValueError]; timestamps ([datetime] values, which have
    microsecond resolution, all timezone-aware) are integers counting
    microseconds; the time windows of the configuration are whole seconds;
    list indices are Python integers ([Z]) with Python's negative-index
    convention.  A Python exception is an explicit error result, so "does
    not raise" is a statement about the value a function returns.  The
    [print] calls of [detect_pauses] and the parsing of the GPX file are not
    part of the model: [detect_pauses] starts from the list that
    [extract_gpx_points] returns. *)

From Stdlib Require Import Reals Lra Lia ZArith List Bool.
From Stdlib Require String DecimalString.
Import ListNotations.
Import String.StringSyntax.
Delimit Scope string_scope with string.

Open Scope Z_scope.
Open Scope R_scope.

(** ** Python results: a value or a raised exception *)

Inductive exn : Set :=
| IndexError
| TypeError
| ValueError
| ZeroDivisionError.

Definition py (A : Type) : Type := (exn + A)%type.

Definition ret {A : Type} (x : A) : py A := inr x.

Definition raise {A : Type} (e : exn) : py A := inl e.

Definition bind {A B : Type} (c : py A) (k : A -> py B) : py B :=
  match c with
  | inl e => inl e
  | inr x => k x
  end.

Notation "x <- c ;; k" := (bind c (fun x => k))
  (at level 61, c at next level, right associativity).

Notation "' pat <- c ;; k" := (bind c (fun x => match x with pat => k end))
  (at level 61, pat pattern, c at next level, right associativity).

(** Boolean views of the comparisons on floats. *)

Definition fltb (x y : R) : bool := if Rlt_dec x y then true else false.

Definition feqb (x y : R) : bool := if Req_dec_T x y then true else false.

(** [x / y] on floats raises [ZeroDivisionError] when [y] is zero. *)

Definition truediv (x y : R) : py R :=
  if feqb y 0 then raise ZeroDivisionError else ret (x / y).

(** ** The [math] module *)

Module math.

Definition radians (x : R) : R := x * (PI / 180).

(** [math.sqrt] raises [ValueError] on a negative argument. *)
Definition sqrt (x : R) : py R :=
  if fltb x 0 then raise ValueError else ret (R_sqrt.sqrt x).

(** [math.atan2 y x]: the angle of the point [(x, y)], in [(-PI, PI]]. *)
Definition atan2 (y x : R) : R :=
  if fltb 0 x then atan (y / x)
  else if fltb x 0 then
    (if fltb y 0 then atan (y / x) - PI else atan (y / x) + PI)
  else if fltb 0 y then PI / 2
  else if fltb y 0 then - (PI / 2)
  else 0.

End math.

(** ** [haversine] *)

(** The quantity [a] of the haversine formula, on radians. *)
Definition haversine_a (lat1_rad lon1_rad lat2_rad lon2_rad : R) : R :=
  let dlat := lat2_rad - lat1_rad in
  let dlon := lon2_rad - lon1_rad in
  sin (dlat / 2) ^ 2 + cos lat1_rad * cos lat2_rad * sin (dlon / 2) ^ 2.

Definition haversine (lat1 lon1 lat2 lon2 : R) : py R :=
  let R_earth := 6371000 in
  let lat1_rad := math.radians lat1 in
  let lon1_rad := math.radians lon1 in
  let lat2_rad := math.radians lat2 in
  let lon2_rad := math.radians lon2 in
  let a := haversine_a lat1_rad lon1_rad lat2_rad lon2_rad in
  sa <- math.sqrt a ;;
  sb <- math.sqrt (1 - a) ;;
  let c := 2 * math.atan2 sa sb in
  let distance := R_earth * c in
  ret distance.

(** The number [haversine] returns, once it is known not to raise. *)
Definition great_circle (lat1 lon1 lat2 lon2 : R) : R :=
  let a := haversine_a (math.radians lat1) (math.radians lon1)
                       (math.radians lat2) (math.radians lon2) in
  6371000 * (2 * math.atan2 (R_sqrt.sqrt a) (R_sqrt.sqrt (1 - a))).

(** ** Python lists and ranges *)

Definition len {A : Type} (l : list A) : Z := Z.of_nat (length l).

(** [l[i]]: a negative index counts from the end; an index outside the list
    raises [IndexError]. *)
Definition getitem {A : Type} (l : list A) (i : Z) : py A :=
  let j := if (i <? 0)%Z then (i + len l)%Z else i in
  if (j <? 0)%Z then raise IndexError
  else match nth_error l (Z.to_nat j) with
       | Some x => ret x
       | None => raise IndexError
       end.

(** [range(a, b)] *)
Definition range (a b : Z) : list Z :=
  map (fun k : nat => (a + Z.of_nat k)%Z) (seq 0 (Z.to_nat (b - a))).

(** [range(a, -1, -1)] *)
Definition range_down (a : Z) : list Z :=
  map (fun k : nat => (a - Z.of_nat k)%Z) (seq 0 (Z.to_nat (a + 1))).

(** [sum(l)] *)
Definition sum (l : list R) : R := fold_left Rplus l 0.

(** [x[...]] where [x] may be [None]: subscripting [None] raises [TypeError]. *)
Definition not_none {A : Type} (o : option A) : py A :=
  match o with
  | Some x => ret x
  | None => raise TypeError
  end.

(** ** Fixes and time *)

(** A point [(lat, lon, timestamp)]; the timestamp is in microseconds. *)
Record Fix : Set := mkFix { lat : R; lon : R; ts : Z }.

(** [timedelta(seconds=s)], in microseconds. *)
Definition timedelta (seconds : Z) : Z := (seconds * 1000000)%Z.

(** [d.total_seconds()] of a difference [d] of two timestamps. *)
Definition total_seconds (d : Z) : R := IZR d / 1000000.

(** ** [calculate_max_distance_window] *)

(** The loop collecting the points of the window; it stops at the first
    point later than [end_time]. *)
Fixpoint window_scan (points : list Fix) (end_time : Z) (idxs : list Z)
    (window_points : list Fix) : py (list Fix) :=
  match idxs with
  | [] => ret window_points
  | i :: rest =>
      p <- getitem points i ;;
      if (ts p <=? end_time)%Z
      then window_scan points end_time rest (window_points ++ [p])
      else ret window_points
  end.

(** The inner loop, over [window_points[i+1:]]. *)
Fixpoint max_inner (lat1 lon1 : R) (others : list Fix) (max_distance : R) : py R :=
  match others with
  | [] => ret max_distance
  | p2 :: rest =>
      distance <- haversine lat1 lon1 (lat p2) (lon p2) ;;
      max_inner lat1 lon1 rest
        (if fltb max_distance distance then distance else max_distance)
  end.

(** The outer loop, over [enumerate(window_points)]. *)
Fixpoint max_pairs (window_points : list Fix) (max_distance : R) : py R :=
  match window_points with
  | [] => ret max_distance
  | p1 :: rest =>
      m <- max_inner (lat p1) (lon p1) rest max_distance ;;
      max_pairs rest m
  end.

Definition calculate_max_distance_window (points : list Fix) (start_index : Z)
    (duration_seconds : Z) : py R :=
  start_point <- getitem points start_index ;;
  let start_time := ts start_point in
  let end_time := (start_time + timedelta duration_seconds)%Z in
  window_points <-
    window_scan points end_time (range (start_index + 1) (len points)) [start_point] ;;
  max_pairs window_points 0.

(** ** [calculate_average_pace_last_points] *)

Fixpoint pace_totals (points : list Fix) (idxs : list Z)
    (total_distance total_time : R) : py (R * R) :=
  match idxs with
  | [] => ret (total_distance, total_time)
  | i :: rest =>
      p1 <- getitem points i ;;
      p2 <- getitem points (i + 1) ;;
      d <- haversine (lat p1) (lon p1) (lat p2) (lon p2) ;;
      pace_totals points rest (total_distance + d)
        (total_time + total_seconds (ts p2 - ts p1))
  end.

Definition calculate_average_pace_last_points (points : list Fix) (index : Z)
    (nb_points : Z) : py (option R) :=
  let start_index := if (index <? nb_points)%Z then 0%Z else (index - nb_points)%Z in
  if (index <=? start_index)%Z then ret None
  else
    ' (total_distance, total_time) <-
      pace_totals points (range start_index index) 0 0 ;;
    if feqb total_distance 0 || feqb total_time 0 then ret None
    else
      q <- truediv total_time total_distance ;;
      let pace := q * 1000 / 60 in
      ret (Some pace).

(** ** [calculate_point_density_last_seconds] *)

(** The backward counting loop; it stops at the first point earlier than
    [start_time]. *)
Fixpoint density_count (points : list Fix) (start_time : Z) (idxs : list Z)
    (nb_window_points : Z) : py Z :=
  match idxs with
  | [] => ret nb_window_points
  | i :: rest =>
      p <- getitem points i ;;
      if (start_time <=? ts p)%Z
      then density_count points start_time rest (nb_window_points + 1)%Z
      else ret nb_window_points
  end.

Definition calculate_point_density_last_seconds (points : list Fix) (index : Z)
    (duration_seconds : Z) : py (option R) :=
  if (index =? 0)%Z then ret None
  else
    cur <- getitem points index ;;
    let current_time := ts cur in
    let start_time := (current_time - timedelta duration_seconds)%Z in
    nb_window_points <- density_count points start_time (range_down index) 0%Z ;;
    if (nb_window_points <? 2)%Z then ret None
    else
      p_last <- getitem points index ;;
      p_first <- getitem points (index - nb_window_points + 1) ;;
      let actual_time := total_seconds (ts p_last - ts p_first) in
      if feqb actual_time 0 then ret None
      else
        density <- truediv (IZR nb_window_points) actual_time ;;
        ret (Some density).

(** ** [detect_pauses] *)

(** The keyword parameters of [detect_pauses]. *)
Record config : Type := mkConfig {
  threshold_start : R;
  threshold_end : R;
  time_window : Z;
  pace_threshold : R;
  nb_points_pace : Z;
  density_threshold : R;
  density_window : Z;
  time_window_end : Z;
  pace_threshold_end : R;
  nb_points_pace_end : Z
}.

Definition default_config : config :=
  {| threshold_start := 30;
     threshold_end := 30;
     time_window := 45;
     pace_threshold := 15;
     nb_points_pace := 10;
     density_threshold := 1;
     density_window := 30;
     time_window_end := 30;
     pace_threshold_end := 20;
     nb_points_pace_end := 7 |}.

(** The dictionary [pause_info]; the key ['end'] is the field [end_]. *)
Module pause_info.
Record t : Type := mk {
  start : Z;
  end_ : Z;
  duration_seconds : R;
  time_from_start_seconds : R;
  start_coords : R * R;
  end_coords : R * R;
  distance_meters : R;
  start_index : Z;
  end_index : Z;
  distance_start_km : R;
  distance_end_km : R;
  nb_points : Z
}.
End pause_info.

(** The local variables of the scan that live across iterations. *)
Record scan_state : Type := mkState {
  pauses : list pause_info.t;
  in_pause : bool;
  pause_start : option Fix;
  pause_start_index : option Z;
  pause_start_distance : option R
}.

Definition initial_state : scan_state :=
  {| pauses := []; in_pause := false; pause_start := None;
     pause_start_index := None; pause_start_distance := None |}.

(** The loop filling [cumulative_distances]. *)
Fixpoint cumulative_loop (points : list Fix) (idxs : list Z)
    (cumulative_distances : list R) : py (list R) :=
  match idxs with
  | [] => ret cumulative_distances
  | i :: rest =>
      p1 <- getitem points i ;;
      p2 <- getitem points (i + 1) ;;
      last_distance <- getitem cumulative_distances (-1) ;;
      d <- haversine (lat p1) (lon p1) (lat p2) (lon p2) ;;
      cumulative_loop points rest (cumulative_distances ++ [last_distance + d])
  end.

(** The loop summing the distance travelled during a pause. *)
Fixpoint distance_loop (points : list Fix) (idxs : list Z)
    (distance_during_pause : R) : py R :=
  match idxs with
  | [] => ret distance_during_pause
  | j :: rest =>
      p1 <- getitem points j ;;
      p2 <- getitem points (j + 1) ;;
      d <- haversine (lat p1) (lon p1) (lat p2) (lon p2) ;;
      distance_loop points rest (distance_during_pause + d)
  end.

(** The three criteria that start a pause, and the two that end one. *)
Definition start_criteria (cfg : config) (max_distance : R)
    (avg_pace point_density : option R) : bool :=
  let distance_criterion := fltb max_distance (threshold_start cfg) in
  let pace_criterion :=
    match avg_pace with
    | None => true
    | Some v => fltb (pace_threshold cfg) v
    end in
  let density_criterion :=
    match point_density with
    | None => true
    | Some v => fltb v (density_threshold cfg)
    end in
  distance_criterion && pace_criterion && density_criterion.

Definition end_criteria (cfg : config) (max_distance : R) (avg_pace : option R) : bool :=
  let distance_criterion := fltb (threshold_end cfg) max_distance in
  let pace_criterion :=
    match avg_pace with
    | None => false
    | Some v => fltb v (pace_threshold_end cfg)
    end in
  distance_criterion && pace_criterion.

(** One iteration of the [while] loop, at index [i]. *)
Definition loop_body (points : list Fix) (cfg : config) (activity_start_time : Z)
    (cumulative_distances : list R) (i : Z) (st : scan_state) : py scan_state :=
  current_point <- getitem points i ;;
  if negb (in_pause st) then
    max_distance <- calculate_max_distance_window points i (time_window cfg) ;;
    avg_pace <- calculate_average_pace_last_points points i (nb_points_pace cfg) ;;
    point_density <-
      calculate_point_density_last_seconds points i (density_window cfg) ;;
    if start_criteria cfg max_distance avg_pace point_density then
      d <- getitem cumulative_distances i ;;
      ret {| pauses := pauses st;
             in_pause := true;
             pause_start := Some current_point;
             pause_start_index := Some i;
             pause_start_distance := Some d |}
    else ret st
  else
    max_distance <- calculate_max_distance_window points i (time_window_end cfg) ;;
    avg_pace <- calculate_average_pace_last_points points i (nb_points_pace_end cfg) ;;
    if end_criteria cfg max_distance avg_pace then
      let pause_end := current_point in
      let pause_end_index := i in
      pause_end_distance <- getitem cumulative_distances i ;;
      start_fix <- not_none (pause_start st) ;;
      let duration := total_seconds (ts pause_end - ts start_fix) in
      start_idx <- not_none (pause_start_index st) ;;
      distance_during_pause <-
        distance_loop points (range start_idx pause_end_index) 0 ;;
      let time_from_start := total_seconds (ts start_fix - activity_start_time) in
      start_distance <- not_none (pause_start_distance st) ;;
      let info :=
        {| pause_info.start := ts start_fix;
           pause_info.end_ := ts pause_end;
           pause_info.duration_seconds := duration;
           pause_info.time_from_start_seconds := time_from_start;
           pause_info.start_coords := (lat start_fix, lon start_fix);
           pause_info.end_coords := (lat pause_end, lon pause_end);
           pause_info.distance_meters := distance_during_pause;
           pause_info.start_index := start_idx;
           pause_info.end_index := pause_end_index;
           pause_info.distance_start_km := start_distance / 1000;
           pause_info.distance_end_km := pause_end_distance / 1000;
           pause_info.nb_points := (pause_end_index - start_idx + 1)%Z |} in
      ret {| pauses := pauses st ++ [info];
             in_pause := false;
             pause_start := None;
             pause_start_index := None;
             pause_start_distance := None |}
    else ret st.

(** The [while i < len(points)] loop: its last statement is [i += 1], so it
    runs the body at the indices of [idxs = range(0, len(points))] in turn. *)
Fixpoint scan (points : list Fix) (cfg : config) (activity_start_time : Z)
    (cumulative_distances : list R) (idxs : list Z) (st : scan_state)
    : py scan_state :=
  match idxs with
  | [] => ret st
  | i :: rest =>
      st' <- loop_body points cfg activity_start_time cumulative_distances i st ;;
      scan points cfg activity_start_time cumulative_distances rest st'
  end.

(** The code after the loop: a pause still open is closed at the last point. *)
Definition end_of_track (points : list Fix) (activity_start_time : Z)
    (cumulative_distances : list R) (st : scan_state) : py (list pause_info.t) :=
  if in_pause st then
    pause_end <- getitem points (-1) ;;
    let pause_end_index := (len points - 1)%Z in
    pause_end_distance <- getitem cumulative_distances pause_end_index ;;
    start_fix <- not_none (pause_start st) ;;
    let duration := total_seconds (ts pause_end - ts start_fix) in
    start_idx <- not_none (pause_start_index st) ;;
    distance_during_pause <-
      distance_loop points (range start_idx pause_end_index) 0 ;;
    let time_from_start := total_seconds (ts start_fix - activity_start_time) in
    start_distance <- not_none (pause_start_distance st) ;;
    let info :=
      {| pause_info.start := ts start_fix;
         pause_info.end_ := ts pause_end;
         pause_info.duration_seconds := duration;
         pause_info.time_from_start_seconds := time_from_start;
         pause_info.start_coords := (lat start_fix, lon start_fix);
         pause_info.end_coords := (lat pause_end, lon pause_end);
         pause_info.distance_meters := distance_during_pause;
         pause_info.start_index := start_idx;
         pause_info.end_index := pause_end_index;
         pause_info.distance_start_km := start_distance / 1000;
         pause_info.distance_end_km := pause_end_distance / 1000;
         pause_info.nb_points := (pause_end_index - start_idx + 1)%Z |} in
    ret (pauses st ++ [info])
  else ret (pauses st).

(** The state in which the [while] loop of [detect_pauses] ends. *)
Definition run_scan (points : list Fix) (cfg : config) : py scan_state :=
  first <- getitem points 0 ;;
  let activity_start_time := ts first in
  cumulative_distances <- cumulative_loop points (range 0 (len points - 1)) [0] ;;
  scan points cfg activity_start_time cumulative_distances
    (range 0 (len points)) initial_state.

(** [detect_pauses], from the points that [extract_gpx_points] returned. *)
Definition detect_pauses (points : list Fix) (cfg : config)
    : py (list pause_info.t * list Fix) :=
  if (len points <? 2)%Z then ret ([], points)
  else
    first <- getitem points 0 ;;
    let activity_start_time := ts first in
    cumulative_distances <- cumulative_loop points (range 0 (len points - 1)) [0] ;;
    st <- scan points cfg activity_start_time cumulative_distances
            (range 0 (len points)) initial_state ;;
    result <- end_of_track points activity_start_time cumulative_distances st ;;
    ret (result, points).

(** ** [calculate_average_pace_during_pause] *)

Fixpoint instantaneous_loop (points : list Fix) (idxs : list Z)
    (instantaneous_paces : list R) : py (list R) :=
  match idxs with
  | [] => ret instantaneous_paces
  | i :: rest =>
      p1 <- getitem points i ;;
      p2 <- getitem points (i + 1) ;;
      distance_meters <- haversine (lat p1) (lon p1) (lat p2) (lon p2) ;;
      let duration_seconds := total_seconds (ts p2 - ts p1) in
      if fltb 0 distance_meters && fltb 0 duration_seconds then
        q <- truediv duration_seconds distance_meters ;;
        let pace_segment := q * 1000 / 60 in
        instantaneous_loop points rest (instantaneous_paces ++ [pace_segment])
      else instantaneous_loop points rest instantaneous_paces
  end.

Definition calculate_average_pace_during_pause (points : list Fix)
    (start_index end_index : Z) : py (option R) :=
  if (len points =? 0)%Z || (end_index <=? start_index)%Z then ret None
  else
    instantaneous_paces <-
      instantaneous_loop points (range start_index end_index) [] ;;
    if (len instantaneous_paces =? 0)%Z then ret None
    else
      average_pace <- truediv (sum instantaneous_paces) (IZR (len instantaneous_paces)) ;;
      ret (Some average_pace).

(** ** Mathematical descriptions used in the statements

    These definitions do not come from the code: they say, with sums and
    indices, what the statements below compare the code with. *)

Definition origin : Fix := mkFix 0 0 0.

(** The fix at position [k], for [0 <= k < len points]. *)
Definition fix_at (points : list Fix) (k : Z) : Fix := nth (Z.to_nat k) points origin.

Definition geodesic (a b : Fix) : R := great_circle (lat a) (lon a) (lat b) (lon b).

(** Length and elapsed time of the segment from fix [k] to fix [k + 1]. *)
Definition segment_meters (points : list Fix) (k : Z) : R :=
  geodesic (fix_at points k) (fix_at points (k + 1)).

Definition segment_seconds (points : list Fix) (k : Z) : R :=
  total_seconds (ts (fix_at points (k + 1)) - ts (fix_at points k)).

Definition sum_over (f : Z -> R) (idxs : list Z) : R :=
  fold_right (fun k acc => f k + acc) 0 idxs.

(** Totals over the segments [a, a+1, ..., b-1]. *)
Definition total_meters (points : list Fix) (a b : Z) : R :=
  sum_over (segment_meters points) (range a b).

Definition total_elapsed (points : list Fix) (a b : Z) : R :=
  sum_over (segment_seconds points) (range a b).

(** The cumulative distance track: entry [k] is the distance from the first
    fix to fix [k]. *)
Definition cumulative (points : list Fix) : list R :=
  map (total_meters points 0) (range 0 (len points)).

(** The record of a pause that started at fix [si] and ends at fix [i]. *)
Definition closure_info (points : list Fix) (si i : Z) : pause_info.t :=
  {| pause_info.start := ts (fix_at points si);
     pause_info.end_ := ts (fix_at points i);
     pause_info.duration_seconds :=
       total_seconds (ts (fix_at points i) - ts (fix_at points si));
     pause_info.time_from_start_seconds :=
       total_seconds (ts (fix_at points si) - ts (fix_at points 0));
     pause_info.start_coords := (lat (fix_at points si), lon (fix_at points si));
     pause_info.end_coords := (lat (fix_at points i), lon (fix_at points i));
     pause_info.distance_meters := total_meters points si i;
     pause_info.start_index := si;
     pause_info.end_index := i;
     pause_info.distance_start_km := total_meters points 0 si / 1000;
     pause_info.distance_end_km := total_meters points 0 i / 1000;
     pause_info.nb_points := (i - si + 1)%Z |}.

(** A paused state whose pause started at fix [si]. *)
Definition paused_since (points : list Fix) (si : Z) (st : scan_state) : Prop :=
  in_pause st = true /\
  pause_start st = Some (fix_at points si) /\
  pause_start_index st = Some si /\
  pause_start_distance st = Some (total_meters points 0 si).

(** [chain lo ps]: every pause of [ps] starts after index [lo], does not end
    before it starts, and starts after the pause before it has ended. *)
Fixpoint chain (lo : Z) (ps : list pause_info.t) : Prop :=
  match ps with
  | [] => True
  | p :: rest =>
      (lo < pause_info.start_index p)%Z /\
      (pause_info.start_index p <= pause_info.end_index p)%Z /\
      chain (pause_info.end_index p) rest
  end.

Fixpoint chain_end (lo : Z) (ps : list pause_info.t) : Z :=
  match ps with
  | [] => lo
  | p :: rest => chain_end (pause_info.end_index p) rest
  end.

(** The state after a pause starts at fix [i], and after the pause that
    started at fix [si] is closed at fix [i]. *)
Definition started_at (points : list Fix) (i : Z) (st : scan_state) : scan_state :=
  {| pauses := pauses st;
     in_pause := true;
     pause_start := Some (fix_at points i);
     pause_start_index := Some i;
     pause_start_distance := Some (total_meters points 0 i) |}.

Definition closed_at (points : list Fix) (si i : Z) (st : scan_state) : scan_state :=
  {| pauses := pauses st ++ [closure_info points si i];
     in_pause := false;
     pause_start := None;
     pause_start_index := None;
     pause_start_distance := None |}.

(** The record added after the loop: none unless the state is paused. *)
Definition open_tail (points : list Fix) (st : scan_state) : list pause_info.t :=
  match in_pause st, pause_start_index st with
  | true, Some si => [closure_info points si (len points - 1)]
  | _, _ => []
  end.

(** What the scan finds on a track of two fixes with the default
    parameters: a pause from the first fix when the two fixes are more than
    45 s apart or less than 30 m apart; else a pause at the last fix when no
    time elapsed or the pace is above 15 min/km; else nothing. *)
Definition two_fix_pauses (p0 p1 : Fix) : list pause_info.t :=
  let d := geodesic p0 p1 in
  let dt := total_seconds (ts p1 - ts p0) in
  if (ts p0 + timedelta 45 <? ts p1)%Z || fltb d 30
  then [closure_info [p0; p1] 0 1]
  else if feqb dt 0 || fltb 15 (dt / d * 1000 / 60)
  then [closure_info [p0; p1] 1 1]
  else [].

(** What the scan maintains before it looks at index [i]. *)
Record scan_inv (points : list Fix) (i : Z) (st : scan_state) : Prop := {
  inv_chain : chain (-1) (pauses st);
  inv_end : (chain_end (-1) (pauses st) < i)%Z;
  inv_closed :
    Forall (fun p =>
      (pause_info.start_index p < pause_info.end_index p)%Z /\
      pause_info.nb_points p =
        (pause_info.end_index p - pause_info.start_index p + 1)%Z) (pauses st);
  inv_open :
    in_pause st = true ->
    exists si, (chain_end (-1) (pauses st) < si < i)%Z /\ paused_since points si st
}.

(** ** [calculate_total_distance]

    From the points that [extract_gpx_points] returned.  The loop has the
    statements of the loop that sums the distance during a pause, so it is
    [distance_loop] over [range(len(points) - 1)]. *)

Definition calculate_total_distance (points : list Fix) : py R :=
  if (len points <? 2)%Z then ret 0
  else distance_loop points (range 0 (len points - 1)) 0.

(** ** [format_pace] and [format_time] *)

(** [int(x)] on a float: truncation toward zero. *)
Definition py_int (x : R) : Z :=
  if fltb x 0 then (- Int_part (- x))%Z else Int_part x.

(** [x // y] and [x % y] on floats. *)
Definition floordiv (x y : R) : py R :=
  if feqb y 0 then raise ZeroDivisionError else ret (IZR (Int_part (x / y))).

Definition pymod (x y : R) : py R :=
  if feqb y 0 then raise ZeroDivisionError else ret (x - y * IZR (Int_part (x / y))).

(** [str(z)] and the format [{z:02d}] of an integer. *)
Definition str (z : Z) : String.string :=
  DecimalString.NilZero.string_of_int (Z.to_int z).

Definition format_02d (z : Z) : String.string :=
  if (0 <=? z)%Z && (z <? 10)%Z then String.append "0" (str z) else str z.

Definition format_pace (pace_min_per_km : R) : String.string :=
  let minutes := py_int pace_min_per_km in
  let seconds := py_int ((pace_min_per_km - IZR minutes) * 60) in
  String.append (str minutes) (String.append ":" (format_02d seconds)).

Definition format_time (seconds : R) : py String.string :=
  q <- floordiv seconds 3600 ;;
  let hours := py_int q in
  r <- pymod seconds 3600 ;;
  q' <- floordiv r 60 ;;
  let minutes := py_int q' in
  r' <- pymod seconds 60 ;;
  let secs := py_int r' in
  if (0 <? hours)%Z then
    ret (String.append (str hours)
           (String.append "h"
              (String.append (format_02d minutes)
                 (String.append ":" (format_02d secs)))))
  else
    ret (String.append (str minutes) (String.append ":" (format_02d secs))).

(** ** More descriptions used in the statements *)

(** The timestamps never decrease along the track. *)
Fixpoint nondecreasing (l : list Z) : bool :=
  match l with
  | [] => true
  | a :: rest =>
      match rest with
      | [] => true
      | b :: _ => (a <=? b)%Z && nondecreasing rest
      end
  end.

Definition sorted_track (points : list Fix) : Prop :=
  nondecreasing (map ts points) = true.

(** The pace of the segment from fix [k] to fix [k + 1], in min/km. *)
Definition segment_pace (points : list Fix) (k : Z) : R :=
  segment_seconds points k / segment_meters points k * 1000 / 60.

(** The segments of [idxs] that have a positive length and a positive
    elapsed time. *)
Definition moving_segments (points : list Fix) (idxs : list Z) : list Z :=
  filter (fun k => fltb 0 (segment_meters points k) && fltb 0 (segment_seconds points k))
    idxs.

(** [p] is the record of a pause between two fixes of the track. *)
Definition is_record (points : list Fix) (p : pause_info.t) : Prop :=
  exists si ei : Z,
    (0 <= si <= ei)%Z /\ (ei <= len points - 1)%Z /\ p = closure_info points si ei.

(** The text [h], [m] and [s] are printed as by [format_time]. *)
Definition clock_text (h m s : Z) : String.string :=
  if (0 <? h)%Z then
    String.append (str h)
      (String.append "h" (String.append (format_02d m) (String.append ":" (format_02d s))))
  else String.append (str m) (String.append ":" (format_02d s)).

(** ** Facts about [haversine] *)

Lemma fltb_true (x y : R) : x < y -> fltb x y = true.
Proof. intros H. unfold fltb. destruct (Rlt_dec x y); [reflexivity | contradiction]. Qed.

Lemma fltb_false (x y : R) : y <= x -> fltb x y = false.
Proof. intros H. unfold fltb. destruct (Rlt_dec x y); [lra | reflexivity]. Qed.

Lemma fltb_iff (x y : R) : fltb x y = true <-> x < y.
Proof.
  unfold fltb. destruct (Rlt_dec x y); split; intros; try easy.
Qed.

Lemma feqb_true (x y : R) : x = y -> feqb x y = true.
Proof. intros H. unfold feqb. destruct (Req_dec_T x y); [reflexivity | contradiction]. Qed.

Lemma feqb_false (x y : R) : x <> y -> feqb x y = false.
Proof. intros H. unfold feqb. destruct (Req_dec_T x y); [contradiction | reflexivity]. Qed.

Lemma feqb_iff (x y : R) : feqb x y = true <-> x = y.
Proof.
  unfold feqb. destruct (Req_dec_T x y); split; intros; try easy.
Qed.

Lemma sin_half_sq (x y : R) :
  sin ((y - x) / 2) ^ 2 = (1 - (cos y * cos x + sin y * sin x)) / 2.
Proof.
  rewrite <- cos_minus.
  replace (y - x) with (2 * ((y - x) / 2)) at 2 by lra.
  rewrite cos_2a_sin. lra.
Qed.

Lemma sin_sq_bound (x : R) : 0 <= sin x ^ 2 <= 1.
Proof.
  pose proof (sin2_cos2 x) as H. unfold Rsqr in H.
  pose proof (pow2_ge_0 (sin x)). pose proof (pow2_ge_0 (cos x)).
  split; [assumption | nra].
Qed.

(** Over the reals the argument of both square roots stays in [[0, 1]]. *)
Lemma haversine_a_bounds (x1 l1 x2 l2 : R) :
  0 <= haversine_a x1 l1 x2 l2 <= 1.
Proof.
  unfold haversine_a. cbv zeta.
  rewrite sin_half_sq.
  pose proof (sin_sq_bound ((l2 - l1) / 2)) as [Hs0 Hs1].
  set (s := sin ((l2 - l1) / 2) ^ 2) in *.
  pose proof (sin2_cos2 x1) as H1. pose proof (sin2_cos2 x2) as H2.
  unfold Rsqr in H1, H2.
  set (cx := cos x1) in *. set (sx := sin x1) in *.
  set (cy := cos x2) in *. set (sy := sin x2) in *.
  assert (Hp : 0 <= s * (cx + cy) ^ 2) by (apply Rmult_le_pos; [lra | apply pow2_ge_0]).
  assert (Hm : 0 <= s * (cx - cy) ^ 2) by (apply Rmult_le_pos; [lra | apply pow2_ge_0]).
  assert (Hp' : 0 <= (1 - s) * (cx + cy) ^ 2) by (apply Rmult_le_pos; [lra | apply pow2_ge_0]).
  assert (Hm' : 0 <= (1 - s) * (cx - cy) ^ 2) by (apply Rmult_le_pos; [lra | apply pow2_ge_0]).
  pose proof (pow2_ge_0 (sx + sy)). pose proof (pow2_ge_0 (sx - sy)).
  split; nra.
Qed.

Lemma haversine_returns (lat1 lon1 lat2 lon2 : R) :
  haversine lat1 lon1 lat2 lon2 = ret (great_circle lat1 lon1 lat2 lon2).
Proof.
  unfold haversine, great_circle. cbv zeta.
  pose proof (haversine_a_bounds (math.radians lat1) (math.radians lon1)
                (math.radians lat2) (math.radians lon2)) as [H0 H1].
  unfold math.sqrt.
  rewrite (fltb_false _ 0) by lra. cbn [bind ret].
  rewrite (fltb_false _ 0) by lra. reflexivity.
Qed.

Lemma haversine_a_sym (x1 l1 x2 l2 : R) :
  haversine_a x1 l1 x2 l2 = haversine_a x2 l2 x1 l1.
Proof.
  unfold haversine_a. cbv zeta.
  replace ((x1 - x2) / 2) with (- ((x2 - x1) / 2)) by lra.
  replace ((l1 - l2) / 2) with (- ((l2 - l1) / 2)) by lra.
  rewrite !sin_neg. ring.
Qed.

Lemma haversine_a_same (x l : R) : haversine_a x l x l = 0.
Proof.
  unfold haversine_a. cbv zeta.
  replace ((x - x) / 2) with 0 by lra.
  replace ((l - l) / 2) with 0 by lra.
  rewrite sin_0. ring.
Qed.

Lemma great_circle_sym (lat1 lon1 lat2 lon2 : R) :
  great_circle lat1 lon1 lat2 lon2 = great_circle lat2 lon2 lat1 lon1.
Proof.
  unfold great_circle. cbv zeta.
  rewrite (haversine_a_sym (math.radians lat1)). reflexivity.
Qed.

Lemma great_circle_same (lat1 lon1 : R) : great_circle lat1 lon1 lat1 lon1 = 0.
Proof.
  unfold great_circle. cbv zeta.
  rewrite haversine_a_same, Rminus_0_r, sqrt_0, sqrt_1.
  unfold math.atan2. rewrite (fltb_true 0 1) by lra.
  replace (0 / 1) with 0 by lra. rewrite atan_0. ring.
Qed.

Lemma atan2_nonneg (y x : R) : 0 <= y -> 0 <= x -> 0 <= math.atan2 y x.
Proof.
  intros Hy Hx. unfold math.atan2.
  pose proof PI_RGT_0 as Hpi.
  destruct (Rlt_dec 0 x) as [Hx0 | Hx0].
  - rewrite (fltb_true 0 x) by assumption.
    destruct (Req_dec_T y 0) as [-> | Hne].
    + replace (0 / x) with 0 by (field; lra). rewrite atan_0. lra.
    + rewrite <- atan_0. left. apply atan_increasing.
      apply Rdiv_lt_0_compat; lra.
  - rewrite (fltb_false 0 x) by lra. rewrite (fltb_false x 0) by lra.
    destruct (Rlt_dec 0 y).
    + rewrite (fltb_true 0 y) by assumption. lra.
    + rewrite (fltb_false 0 y) by lra. rewrite (fltb_false y 0) by lra. lra.
Qed.

Lemma great_circle_nonneg (lat1 lon1 lat2 lon2 : R) :
  0 <= great_circle lat1 lon1 lat2 lon2.
Proof.
  unfold great_circle. cbv zeta.
  pose proof (atan2_nonneg _ _ (sqrt_pos (haversine_a (math.radians lat1) (math.radians lon1)
      (math.radians lat2) (math.radians lon2)))
      (sqrt_pos (1 - haversine_a (math.radians lat1) (math.radians lon1)
      (math.radians lat2) (math.radians lon2)))).
  lra.
Qed.

Lemma haversine_a_antipodes (x l : R) : haversine_a x l (- x) (l + PI) = 1.
Proof.
  unfold haversine_a. cbv zeta.
  replace ((- x - x) / 2) with (- x) by lra.
  replace ((l + PI - l) / 2) with (PI / 2) by lra.
  rewrite sin_neg, cos_neg, sin_PI2.
  pose proof (sin2_cos2 x) as H. unfold Rsqr in H. nra.
Qed.

(** Claim C8.  The distance from a point to itself is 0 and the result is the
    same in both directions.  The function is not free of error conditions:
    [math.sqrt] raises [ValueError] below 0, and for a point and its antipode,
    such as (-87.5, 0) and (87.5, 180), the quantity [a] is exactly 1, so
    [math.sqrt (1 - a)] is taken at 0, the edge of its domain, where a value
    of [a] rounded above 1 makes the call raise. *)
Theorem haversine_identity_symmetry_domain_edge :
  (forall lat1 lon1 : R, haversine lat1 lon1 lat1 lon1 = ret 0) /\
  (forall lat1 lon1 lat2 lon2 : R,
     haversine lat1 lon1 lat2 lon2 = haversine lat2 lon2 lat1 lon1) /\
  (forall x : R, x < 0 -> math.sqrt x = raise ValueError) /\
  (forall lat1 lon1 : R,
     1 - haversine_a (math.radians lat1) (math.radians lon1)
           (math.radians (- lat1)) (math.radians (lon1 + 180)) = 0) /\
  1 - haversine_a (math.radians (- (175 / 2))) (math.radians 0)
        (math.radians (175 / 2)) (math.radians 180) = 0.
Proof.
  assert (Hanti : forall lat1 lon1 : R,
             1 - haversine_a (math.radians lat1) (math.radians lon1)
                   (math.radians (- lat1)) (math.radians (lon1 + 180)) = 0).
  { intros lat1 lon1. unfold math.radians.
    replace (- lat1 * (PI / 180)) with (- (lat1 * (PI / 180))) by lra.
    replace ((lon1 + 180) * (PI / 180)) with (lon1 * (PI / 180) + PI) by lra.
    rewrite haversine_a_antipodes. lra. }
  split; [| split; [| split; [| split]]].
  - intros. rewrite haversine_returns, great_circle_same. reflexivity.
  - intros. rewrite !haversine_returns, great_circle_sym. reflexivity.
  - intros x Hx. unfold math.sqrt. rewrite (fltb_true x 0 Hx). reflexivity.
  - exact Hanti.
  - specialize (Hanti (- (175 / 2)) 0).
    replace (- - (175 / 2)) with (175 / 2) in Hanti by lra.
    replace (0 + 180) with 180 in Hanti by lra. exact Hanti.
Qed.

(** ** Lists, indices and ranges *)

Lemma getitem_nth {A : Type} (l : list A) (i : Z) (d : A) :
  (0 <= i < len l)%Z -> getitem l i = ret (nth (Z.to_nat i) l d).
Proof.
  intros [H0 H1]. unfold getitem, len in *.
  destruct (Z.ltb_spec i 0); [lia |].
  destruct (Z.ltb_spec i 0); [lia |].
  destruct (nth_error l (Z.to_nat i)) eqn:E.
  - rewrite (nth_error_nth _ _ d E). reflexivity.
  - apply nth_error_None in E. lia.
Qed.

Lemma getitem_fix (points : list Fix) (i : Z) :
  (0 <= i < len points)%Z -> getitem points i = ret (fix_at points i).
Proof. intros H. apply getitem_nth. exact H. Qed.

Lemma getitem_minus_one {A : Type} (l : list A) (d : A) :
  (0 < len l)%Z -> getitem l (-1) = ret (nth (Z.to_nat (len l - 1)) l d).
Proof.
  intros H. unfold getitem. cbn [Z.ltb Z.compare].
  unfold len in *.
  destruct (Z.ltb_spec (-1 + Z.of_nat (length l)) 0); [lia |].
  replace (-1 + Z.of_nat (length l))%Z with (Z.of_nat (length l) - 1)%Z by lia.
  destruct (nth_error l (Z.to_nat (Z.of_nat (length l) - 1))) eqn:E.
  - rewrite (nth_error_nth _ _ d E). reflexivity.
  - apply nth_error_None in E. lia.
Qed.

Lemma range_nil (a b : Z) : (b <= a)%Z -> range a b = [].
Proof.
  intros H. unfold range. replace (Z.to_nat (b - a)) with 0%nat by lia. reflexivity.
Qed.

Lemma range_cons (a b : Z) : (a < b)%Z -> range a b = a :: range (a + 1) b.
Proof.
  intros H. unfold range.
  replace (Z.to_nat (b - a)) with (S (Z.to_nat (b - (a + 1)))) by lia.
  cbn [seq map]. f_equal; [lia |].
  rewrite <- seq_shift, map_map. apply map_ext. intros k. lia.
Qed.

Lemma range_snoc (a b : Z) : (a <= b)%Z -> range a (b + 1) = range a b ++ [b].
Proof.
  intros H. unfold range.
  replace (Z.to_nat (b + 1 - a)) with (Z.to_nat (b - a) + 1)%nat by lia.
  rewrite seq_app, map_app. cbn [seq map Nat.add]. do 2 f_equal. lia.
Qed.

Lemma range_In (a b k : Z) : In k (range a b) <-> (a <= k < b)%Z.
Proof.
  unfold range. rewrite in_map_iff. split.
  - intros [j [<- Hj]]. apply in_seq in Hj. lia.
  - intros H. exists (Z.to_nat (k - a)). split; [lia |]. apply in_seq. lia.
Qed.

Lemma range_down_nil (a : Z) : (a < 0)%Z -> range_down a = [].
Proof.
  intros H. unfold range_down. replace (Z.to_nat (a + 1)) with 0%nat by lia. reflexivity.
Qed.

Lemma range_down_cons (a : Z) : (0 <= a)%Z -> range_down a = a :: range_down (a - 1).
Proof.
  intros H. unfold range_down.
  replace (Z.to_nat (a + 1)) with (S (Z.to_nat (a - 1 + 1))) by lia.
  cbn [seq map]. f_equal; [lia |].
  rewrite <- seq_shift, map_map. apply map_ext. intros k. lia.
Qed.

Lemma sum_over_app (f : Z -> R) (l1 l2 : list Z) :
  sum_over f (l1 ++ l2) = sum_over f l1 + sum_over f l2.
Proof.
  unfold sum_over. induction l1 as [| x l1 IH]; cbn [app fold_right].
  - lra.
  - rewrite IH. lra.
Qed.

Lemma total_meters_empty (points : list Fix) (a b : Z) :
  (b <= a)%Z -> total_meters points a b = 0.
Proof. intros H. unfold total_meters. rewrite range_nil by assumption. reflexivity. Qed.

Lemma total_meters_snoc (points : list Fix) (a b : Z) :
  (a <= b)%Z ->
  total_meters points a (b + 1) = total_meters points a b + segment_meters points b.
Proof.
  intros H. unfold total_meters. rewrite range_snoc by assumption.
  rewrite sum_over_app. cbn [sum_over fold_right]. lra.
Qed.

(** ** The windowed queries return *)

Lemma max_inner_returns (lat1 lon1 : R) (others : list Fix) (m : R) :
  exists m', max_inner lat1 lon1 others m = ret m'.
Proof.
  revert m. induction others as [| p2 rest IH]; intros m; cbn [max_inner].
  - eexists. reflexivity.
  - rewrite haversine_returns. cbn [bind ret]. apply IH.
Qed.

Lemma max_pairs_returns (w : list Fix) (m : R) : exists m', max_pairs w m = ret m'.
Proof.
  revert m. induction w as [| p1 rest IH]; intros m; cbn [max_pairs].
  - eexists. reflexivity.
  - destruct (max_inner_returns (lat p1) (lon p1) rest m) as [m1 ->].
    cbn [bind ret]. apply IH.
Qed.

Lemma window_scan_returns (points : list Fix) (e : Z) (idxs : list Z) (w : list Fix) :
  (forall k, In k idxs -> (0 <= k < len points)%Z) ->
  exists w', window_scan points e idxs w = ret w'.
Proof.
  revert w. induction idxs as [| i rest IH]; intros w H; cbn [window_scan].
  - eexists. reflexivity.
  - rewrite getitem_fix by (apply H; left; reflexivity). cbn [bind ret].
    destruct (ts (fix_at points i) <=? e)%Z.
    + apply IH. intros k Hk. apply H. right. exact Hk.
    + eexists. reflexivity.
Qed.

Lemma max_distance_window_returns (points : list Fix) (i d : Z) :
  (0 <= i < len points)%Z ->
  exists m, calculate_max_distance_window points i d = ret m.
Proof.
  intros H. unfold calculate_max_distance_window.
  rewrite getitem_fix by assumption. cbn [bind ret].
  destruct (window_scan_returns points (ts (fix_at points i) + timedelta d)
              (range (i + 1) (len points)) [fix_at points i]) as [w ->].
  { intros k Hk. apply range_In in Hk. lia. }
  cbn [bind ret]. apply max_pairs_returns.
Qed.

Lemma pace_totals_value (points : list Fix) (idxs : list Z) (d0 t0 : R) :
  (forall k, In k idxs -> (0 <= k /\ k + 1 < len points)%Z) ->
  pace_totals points idxs d0 t0 =
  ret (d0 + sum_over (segment_meters points) idxs,
       t0 + sum_over (segment_seconds points) idxs).
Proof.
  revert d0 t0. induction idxs as [| i rest IH]; intros d0 t0 H.
  - cbn [pace_totals sum_over fold_right]. rewrite !Rplus_0_r. reflexivity.
  - cbn [pace_totals].
    assert (Hi : (0 <= i /\ i + 1 < len points)%Z) by (apply H; left; reflexivity).
    rewrite (getitem_fix points i) by lia. cbn [bind ret].
    rewrite (getitem_fix points (i + 1)) by lia. cbn [bind ret].
    rewrite haversine_returns. cbn [bind ret].
    rewrite IH by (intros k Hk; apply H; right; exact Hk).
    unfold ret. f_equal. unfold sum_over. cbn [fold_right].
    unfold segment_meters, segment_seconds, geodesic. f_equal; lra.
Qed.

Lemma average_pace_value (points : list Fix) (i n : Z) :
  (i < len points)%Z ->
  let start_index := if (i <? n)%Z then 0%Z else (i - n)%Z in
  calculate_average_pace_last_points points i n =
  ret (if (i <=? start_index)%Z then None
       else if feqb (total_meters points start_index i) 0
               || feqb (total_elapsed points start_index i) 0 then None
       else Some (total_elapsed points start_index i /
                  total_meters points start_index i * 1000 / 60)).
Proof.
  intros H. cbv zeta. unfold calculate_average_pace_last_points.
  set (s := if (i <? n)%Z then 0%Z else (i - n)%Z).
  assert (Hs : (0 <= s)%Z) by (subst s; destruct (Z.ltb_spec i n); lia).
  destruct (Z.leb_spec i s); [reflexivity |].
  rewrite pace_totals_value by (intros k Hk; apply range_In in Hk; lia).
  cbn [bind ret]. rewrite !Rplus_0_l.
  fold (total_meters points s i). fold (total_elapsed points s i).
  destruct (feqb (total_meters points s i) 0) eqn:Ed; [reflexivity |].
  destruct (feqb (total_elapsed points s i) 0) eqn:Et; [reflexivity |].
  cbn [orb]. unfold truediv. rewrite Ed. reflexivity.
Qed.

(** Claim C5.  For a point count [n >= 1] and an index [i] of the sequence, the
    average-pace query returns "no data" exactly when [max 0 (i - n) >= i], or
    the total distance from fix [max 0 (i - n)] to fix [i] is 0, or the total
    elapsed time is 0; otherwise it returns total seconds / total meters *
    1000 / 60. *)
Theorem average_pace_no_data_iff (points : list Fix) (i n : Z) :
  (i < len points)%Z -> (1 <= n)%Z ->
  let start := Z.max 0 (i - n) in
  let meters := total_meters points start i in
  let seconds := total_elapsed points start i in
  exists r : option R,
    calculate_average_pace_last_points points i n = ret r /\
    (r = None <-> (start >= i)%Z \/ meters = 0 \/ seconds = 0) /\
    (r <> None -> r = Some (seconds / meters * 1000 / 60)).
Proof.
  intros Hi Hn. cbv zeta.
  rewrite average_pace_value by assumption. cbv zeta.
  replace (if (i <? n)%Z then 0%Z else (i - n)%Z) with (Z.max 0 (i - n))
    by (destruct (Z.ltb_spec i n); lia).
  set (s := Z.max 0 (i - n)).
  eexists. split; [reflexivity |].
  destruct (Z.leb_spec i s) as [Hle | Hlt].
  { split; [| congruence]. split; [intros _; left; lia | reflexivity]. }
  destruct (feqb (total_meters points s i) 0) eqn:Ed.
  { apply feqb_iff in Ed. cbn [orb].
    split; [| congruence]. split; [intros _; right; left; exact Ed | reflexivity]. }
  destruct (feqb (total_elapsed points s i) 0) eqn:Et.
  { apply feqb_iff in Et. cbn [orb].
    split; [| congruence]. split; [intros _; right; right; exact Et | reflexivity]. }
  cbn [orb]. split; [| reflexivity].
  split; [discriminate |].
  intros [H | [H | H]].
  - lia.
  - apply feqb_true in H. congruence.
  - apply feqb_true in H. congruence.
Qed.

Lemma average_pace_no_data_iff_witness :
  exists r : option R,
    calculate_average_pace_last_points [mkFix 0 0 0; mkFix 0 0 1000000] 1 10 = ret r /\
    (r = None <->
       (Z.max 0 (1 - 10) >= 1)%Z \/
       total_meters [mkFix 0 0 0; mkFix 0 0 1000000] (Z.max 0 (1 - 10)) 1 = 0 \/
       total_elapsed [mkFix 0 0 0; mkFix 0 0 1000000] (Z.max 0 (1 - 10)) 1 = 0) /\
    (r <> None ->
       r = Some (total_elapsed [mkFix 0 0 0; mkFix 0 0 1000000] (Z.max 0 (1 - 10)) 1 /
                 total_meters [mkFix 0 0 0; mkFix 0 0 1000000] (Z.max 0 (1 - 10)) 1 *
                 1000 / 60)).
Proof.
  apply (average_pace_no_data_iff [mkFix 0 0 0; mkFix 0 0 1000000] 1 10).
  - vm_compute. reflexivity.
  - lia.
Defined.

(** ** The sample-density query *)

Lemma density_count_spec (points : list Fix) (bound : Z) (m : nat) :
  forall (i acc : Z),
    Z.to_nat (i + 1) = m -> (-1 <= i < len points)%Z ->
    exists c : Z,
      (0 <= c <= i + 1)%Z /\
      density_count points bound (range_down i) acc = ret (acc + c)%Z /\
      (forall k, (i - c < k <= i)%Z -> (bound <= ts (fix_at points k))%Z) /\
      ((c <= i)%Z -> (ts (fix_at points (i - c)) < bound)%Z).
Proof.
  induction m as [| m IH]; intros i acc Hm Hi.
  - assert (i = -1)%Z by lia. subst i.
    exists 0%Z. rewrite range_down_nil by lia. cbn [density_count].
    rewrite Z.add_0_r. repeat split; try lia.
  - rewrite range_down_cons by lia. cbn [density_count].
    rewrite getitem_fix by lia. cbn [bind ret].
    destruct (Z.leb_spec bound (ts (fix_at points i))) as [Hin | Hout].
    + destruct (IH (i - 1)%Z (acc + 1)%Z) as [c [Hc [Hrun [Hall Hstop]]]]; [lia | lia |].
      exists (c + 1)%Z. repeat split; try lia.
      * rewrite Hrun. f_equal. lia.
      * intros k Hk. destruct (Z.eq_dec k i) as [-> | Hne]; [exact Hin |].
        apply Hall. lia.
      * intros Hle. replace (i - (c + 1))%Z with (i - 1 - c)%Z by lia.
        apply Hstop. lia.
    + exists 0%Z. rewrite Z.add_0_r. repeat split; try lia.
      intros _. rewrite Z.sub_0_r. exact Hout.
Qed.

(** Claim C6.  At an index [i] of the sequence the density query counts the
    fixes from [i] backward, [i] included, up to the first one earlier than
    [Fix[i].timestamp - durationSeconds]; it returns "no data" when [i = 0], when
    fewer than 2 fixes are counted or when no time elapsed between the earliest
    counted fix and fix [i], and the count divided by that time otherwise. *)
Theorem density_query_counts_backward (points : list Fix) (i duration_seconds : Z) :
  (0 <= i < len points)%Z ->
  let bound := (ts (fix_at points i) - timedelta duration_seconds)%Z in
  exists count : Z,
    (0 <= count <= i + 1)%Z /\
    (forall k, (i - count < k <= i)%Z -> (bound <= ts (fix_at points k))%Z) /\
    ((count <= i)%Z -> (ts (fix_at points (i - count)) < bound)%Z) /\
    let elapsed :=
      total_seconds (ts (fix_at points i) - ts (fix_at points (i - count + 1))) in
    calculate_point_density_last_seconds points i duration_seconds =
    ret (if (i =? 0)%Z then None
         else if (count <? 2)%Z then None
         else if feqb elapsed 0 then None
         else Some (IZR count / elapsed)).
Proof.
  intros Hi. cbv zeta.
  destruct (density_count_spec points
              (ts (fix_at points i) - timedelta duration_seconds)%Z
              (Z.to_nat (i + 1)) i 0%Z eq_refl) as [c [Hc [Hrun [Hall Hstop]]]]; [lia |].
  exists c. repeat split; try lia; try assumption.
  unfold calculate_point_density_last_seconds.
  destruct (Z.eqb_spec i 0) as [-> | Hne]; [reflexivity |].
  rewrite getitem_fix by lia. cbn [bind ret].
  rewrite Hrun. cbn [bind ret]. rewrite Z.add_0_l.
  destruct (Z.ltb_spec c 2); [reflexivity |].
  rewrite (getitem_fix points (i - c + 1)) by lia. cbn [bind ret].
  destruct (feqb _ 0) eqn:E; [reflexivity |].
  unfold truediv. rewrite E. reflexivity.
Qed.

Lemma density_query_counts_backward_witness :
  let points := [mkFix 0 0 0; mkFix 0 0 1000000] in
  let bound := (ts (fix_at points 1) - timedelta 30)%Z in
  exists count : Z,
    (0 <= count <= 1 + 1)%Z /\
    (forall k, (1 - count < k <= 1)%Z -> (bound <= ts (fix_at points k))%Z) /\
    ((count <= 1)%Z -> (ts (fix_at points (1 - count)) < bound)%Z) /\
    let elapsed :=
      total_seconds (ts (fix_at points 1) - ts (fix_at points (1 - count + 1))) in
    calculate_point_density_last_seconds points 1 30 =
    ret (if (1 =? 0)%Z then None
         else if (count <? 2)%Z then None
         else if feqb elapsed 0 then None
         else Some (IZR count / elapsed)).
Proof.
  apply (density_query_counts_backward [mkFix 0 0 0; mkFix 0 0 1000000] 1 30).
  vm_compute. split; [discriminate | reflexivity].
Defined.

(** ** The average pace during a pause *)

Lemma instantaneous_loop_spec (points : list Fix) (idxs : list Z) :
  forall acc : list R,
    (forall k, In k idxs -> (0 <= k /\ k + 1 < len points)%Z) ->
    exists paces : list R,
      instantaneous_loop points idxs acc = ret (acc ++ paces) /\
      (paces = [] <->
       forall k, In k idxs ->
         ~ (0 < segment_meters points k /\ 0 < segment_seconds points k)).
Proof.
  induction idxs as [| i rest IH]; intros acc H.
  - exists []. cbn [instantaneous_loop]. rewrite app_nil_r.
    split; [reflexivity |]. split; [intros _ k [] | reflexivity].
  - cbn [instantaneous_loop].
    assert (Hi : (0 <= i /\ i + 1 < len points)%Z) by (apply H; left; reflexivity).
    rewrite (getitem_fix points i) by lia. cbn [bind ret].
    rewrite (getitem_fix points (i + 1)) by lia. cbn [bind ret].
    rewrite haversine_returns. cbn [bind ret].
    fold (geodesic (fix_at points i) (fix_at points (i + 1))).
    fold (segment_meters points i). fold (segment_seconds points i).
    assert (Hrest : forall k, In k rest -> (0 <= k /\ k + 1 < len points)%Z)
      by (intros k Hk; apply H; right; exact Hk).
    destruct (Rlt_dec 0 (segment_meters points i)) as [Hd | Hd];
      [destruct (Rlt_dec 0 (segment_seconds points i)) as [Ht | Ht] |].
    + rewrite (fltb_true _ _ Hd), (fltb_true _ _ Ht). cbn [andb].
      unfold truediv. rewrite feqb_false by lra. cbn [bind ret].
      destruct (IH (acc ++ [segment_seconds points i / segment_meters points i * 1000 / 60])
                  Hrest) as [paces [Hrun _]].
      exists ((segment_seconds points i / segment_meters points i * 1000 / 60) :: paces).
      split.
      * rewrite Hrun, <- app_assoc. reflexivity.
      * split; [discriminate |].
        intros Hnone. exfalso. apply (Hnone i); [left; reflexivity | split; assumption].
    + rewrite (fltb_true _ _ Hd), (fltb_false 0 (segment_seconds points i)) by lra.
      cbn [andb].
      destruct (IH acc Hrest) as [paces [Hrun Hiff]].
      exists paces. split; [exact Hrun |].
      rewrite Hiff. split.
      * intros Hall k [<- | Hk]; [intros [_ Hc]; contradiction | apply Hall; exact Hk].
      * intros Hall k Hk. apply Hall. right. exact Hk.
    + rewrite (fltb_false 0 (segment_meters points i)) by lra. cbn [andb].
      destruct (IH acc Hrest) as [paces [Hrun Hiff]].
      exists paces. split; [exact Hrun |].
      rewrite Hiff. split.
      * intros Hall k [<- | Hk]; [intros [Hc _]; contradiction | apply Hall; exact Hk].
      * intros Hall k Hk. apply Hall. right. exact Hk.
Qed.

(** Claim C10.  The average pace during a pause returns "no data" without
    raising when the list is empty or [start_index >= end_index]; for indices
    [0 <= start_index < end_index < len points] it returns without raising, and
    returns "no data" exactly when no segment of the range has both a positive
    length and a positive elapsed time. *)
Theorem pause_pace_no_data (points : list Fix) (start_index end_index : Z) :
  (len points = 0%Z \/ (end_index <= start_index)%Z ->
   calculate_average_pace_during_pause points start_index end_index = ret None) /\
  ((0 <= start_index < end_index)%Z /\ (end_index < len points)%Z ->
   exists r : option R,
     calculate_average_pace_during_pause points start_index end_index = ret r /\
     (r = None <->
      forall k, (start_index <= k < end_index)%Z ->
        ~ (0 < segment_meters points k /\ 0 < segment_seconds points k))).
Proof.
  unfold calculate_average_pace_during_pause. split.
  - intros [H | H].
    + rewrite H. reflexivity.
    + destruct (Z.leb_spec end_index start_index); [| lia].
      rewrite orb_true_r. reflexivity.
  - intros [Hs He].
    destruct (Z.eqb_spec (len points) 0); [lia |].
    destruct (Z.leb_spec end_index start_index); [lia |]. cbn [orb].
    destruct (instantaneous_loop_spec points (range start_index end_index) [])
      as [paces [Hrun Hiff]].
    { intros k Hk. apply range_In in Hk. lia. }
    rewrite Hrun. cbn [app bind ret].
    assert (Hrange : (forall k, In k (range start_index end_index) ->
                ~ (0 < segment_meters points k /\ 0 < segment_seconds points k)) <->
            (forall k, (start_index <= k < end_index)%Z ->
                ~ (0 < segment_meters points k /\ 0 < segment_seconds points k))).
    { split; intros Hall k Hk; apply Hall; apply range_In; exact Hk. }
    destruct paces as [| q paces].
    + exists None. split; [reflexivity |].
      split; [intros _; apply Hrange, Hiff; reflexivity | reflexivity].
    + unfold truediv.
      rewrite feqb_false.
      2:{ unfold len. cbn [length]. apply not_0_IZR. lia. }
      cbn [Z.eqb len length Z.of_nat]. cbn [bind ret].
      eexists. split; [reflexivity |].
      split; [discriminate |].
      intros Hall. pose proof (proj2 Hiff (proj2 Hrange Hall)) as Hnil. discriminate.
Qed.

Lemma pause_pace_no_data_witness :
  calculate_average_pace_during_pause [mkFix 0 0 0; mkFix 0 0 1000000] 1 1 = ret None /\
  exists r : option R,
    calculate_average_pace_during_pause [mkFix 0 0 0; mkFix 0 0 1000000] 0 1 = ret r /\
    (r = None <->
     forall k, (0 <= k < 1)%Z ->
       ~ (0 < segment_meters [mkFix 0 0 0; mkFix 0 0 1000000] k /\
          0 < segment_seconds [mkFix 0 0 0; mkFix 0 0 1000000] k)).
Proof.
  split.
  - apply (pause_pace_no_data [mkFix 0 0 0; mkFix 0 0 1000000] 1 1). right. lia.
  - apply (pause_pace_no_data [mkFix 0 0 0; mkFix 0 0 1000000] 0 1).
    vm_compute. repeat split; discriminate.
Defined.

(** ** The cumulative distance track and the distance during a pause *)

Lemma len_map_range (f : Z -> R) (a b : Z) :
  (a <= b)%Z -> len (map f (range a b)) = (b - a)%Z.
Proof.
  intros H. unfold len, range. rewrite !length_map, length_seq. lia.
Qed.

Lemma nth_map_range (f : Z -> R) (n k : Z) (d : R) :
  (0 <= k < n)%Z -> nth (Z.to_nat k) (map f (range 0 n)) d = f k.
Proof.
  intros H. unfold range. rewrite map_map.
  rewrite (nth_indep _ d (f (0 + Z.of_nat 0)%Z))
    by (rewrite length_map, length_seq; lia).
  rewrite (map_nth (fun k0 : nat => f (0 + Z.of_nat k0)%Z) _ 0%nat).
  rewrite seq_nth by lia. f_equal. lia.
Qed.

Lemma getitem_cumulative (points : list Fix) (i : Z) :
  (0 <= i < len points)%Z ->
  getitem (cumulative points) i = ret (total_meters points 0 i).
Proof.
  intros H. unfold cumulative.
  rewrite (getitem_nth _ i 0) by (rewrite len_map_range; lia).
  rewrite nth_map_range by lia. reflexivity.
Qed.

Lemma cumulative_loop_value (points : list Fix) (m : nat) :
  forall j : Z,
    (0 <= j)%Z -> (j + Z.of_nat m = len points - 1)%Z ->
    cumulative_loop points (range j (len points - 1))
      (map (total_meters points 0) (range 0 (j + 1))) = ret (cumulative points).
Proof.
  induction m as [| m IH]; intros j Hj Hm.
  - rewrite range_nil by lia. cbn [cumulative_loop]. unfold cumulative.
    replace (j + 1)%Z with (len points) by lia. reflexivity.
  - rewrite range_cons by lia. cbn [cumulative_loop].
    rewrite (getitem_fix points j) by lia. cbn [bind ret].
    rewrite (getitem_fix points (j + 1)) by lia. cbn [bind ret].
    rewrite (getitem_minus_one _ 0) by (rewrite len_map_range; lia).
    rewrite len_map_range by lia.
    replace (j + 1 - 0 - 1)%Z with j by lia.
    rewrite nth_map_range by lia. cbn [bind ret].
    rewrite haversine_returns. cbn [bind ret].
    fold (geodesic (fix_at points j) (fix_at points (j + 1))).
    fold (segment_meters points j).
    rewrite <- total_meters_snoc by lia.
    replace (map (total_meters points 0) (range 0 (j + 1)) ++ [total_meters points 0 (j + 1)])
      with (map (total_meters points 0) (range 0 (j + 1 + 1))).
    + apply IH; lia.
    + rewrite (range_snoc 0 (j + 1)) by lia. rewrite map_app. reflexivity.
Qed.

Lemma cumulative_loop_all (points : list Fix) :
  (1 <= len points)%Z ->
  cumulative_loop points (range 0 (len points - 1)) [0] = ret (cumulative points).
Proof.
  intros H.
  apply (cumulative_loop_value points (Z.to_nat (len points - 1)) 0%Z); lia.
Qed.

Lemma distance_loop_value (points : list Fix) (idxs : list Z) (acc : R) :
  (forall k, In k idxs -> (0 <= k /\ k + 1 < len points)%Z) ->
  distance_loop points idxs acc = ret (acc + sum_over (segment_meters points) idxs).
Proof.
  revert acc. induction idxs as [| j rest IH]; intros acc H.
  - cbn [distance_loop sum_over fold_right]. rewrite Rplus_0_r. reflexivity.
  - cbn [distance_loop].
    assert (Hj : (0 <= j /\ j + 1 < len points)%Z) by (apply H; left; reflexivity).
    rewrite (getitem_fix points j) by lia. cbn [bind ret].
    rewrite (getitem_fix points (j + 1)) by lia. cbn [bind ret].
    rewrite haversine_returns. cbn [bind ret].
    rewrite IH by (intros k Hk; apply H; right; exact Hk).
    unfold ret. f_equal. unfold sum_over. cbn [fold_right].
    unfold segment_meters, geodesic. lra.
Qed.

Lemma distance_during_pause_value (points : list Fix) (si i : Z) :
  (0 <= si)%Z -> (i < len points)%Z ->
  distance_loop points (range si i) 0 = ret (total_meters points si i).
Proof.
  intros Hs Hi. rewrite distance_loop_value.
  - rewrite Rplus_0_l. reflexivity.
  - intros k Hk. apply range_In in Hk. lia.
Qed.

Lemma density_returns (points : list Fix) (i d : Z) :
  (0 <= i < len points)%Z ->
  exists r, calculate_point_density_last_seconds points i d = ret r.
Proof.
  intros Hi. unfold calculate_point_density_last_seconds.
  destruct (i =? 0)%Z; [eexists; reflexivity |].
  rewrite getitem_fix by lia. cbn [bind ret].
  destruct (density_count_spec points (ts (fix_at points i) - timedelta d)%Z
              (Z.to_nat (i + 1)) i 0%Z eq_refl) as [c [Hc [Hrun _]]]; [lia |].
  rewrite Hrun. cbn [bind ret]. rewrite Z.add_0_l.
  destruct (Z.ltb_spec c 2); [eexists; reflexivity |].
  rewrite (getitem_fix points (i - c + 1)) by lia. cbn [bind ret].
  destruct (feqb _ 0) eqn:E; [eexists; reflexivity |].
  unfold truediv. rewrite E. eexists. reflexivity.
Qed.

Lemma average_pace_returns (points : list Fix) (i n : Z) :
  (i < len points)%Z ->
  exists r, calculate_average_pace_last_points points i n = ret r.
Proof.
  intros Hi. eexists. apply (average_pace_value points i n Hi).
Qed.

(** ** One iteration of the scan *)

Lemma start_criteria_iff (cfg : config) (md : R) (ap pd : option R) :
  start_criteria cfg md ap pd = true <->
  md < threshold_start cfg /\
  (ap = None \/ exists v, ap = Some v /\ v > pace_threshold cfg) /\
  (pd = None \/ exists v, pd = Some v /\ v < density_threshold cfg).
Proof.
  unfold start_criteria. cbv zeta. rewrite !andb_true_iff, fltb_iff.
  split.
  - intros [[H1 H2] H3]. split; [exact H1 |]. split.
    + destruct ap as [v |]; [right | left; reflexivity].
      exists v. split; [reflexivity | apply fltb_iff in H2; lra].
    + destruct pd as [v |]; [right | left; reflexivity].
      exists v. split; [reflexivity | apply fltb_iff in H3; lra].
  - intros [H1 [H2 H3]]. repeat split.
    + exact H1.
    + destruct H2 as [-> | [v [-> Hv]]]; [reflexivity | apply fltb_iff; lra].
    + destruct H3 as [-> | [v [-> Hv]]]; [reflexivity | apply fltb_iff; lra].
Qed.

Lemma end_criteria_iff (cfg : config) (md : R) (ap : option R) :
  end_criteria cfg md ap = true <->
  md > threshold_end cfg /\ exists v, ap = Some v /\ v < pace_threshold_end cfg.
Proof.
  unfold end_criteria. cbv zeta. rewrite andb_true_iff, fltb_iff.
  split.
  - intros [H1 H2]. split; [lra |].
    destruct ap as [v |]; [| discriminate].
    exists v. split; [reflexivity | apply fltb_iff; exact H2].
  - intros [H1 [v [-> Hv]]]. split; [lra | apply fltb_iff; exact Hv].
Qed.

Lemma loop_body_idle (points : list Fix) (cfg : config) (ast i : Z) (st : scan_state)
    (md : R) (ap pd : option R) :
  (0 <= i < len points)%Z -> in_pause st = false ->
  calculate_max_distance_window points i (time_window cfg) = ret md ->
  calculate_average_pace_last_points points i (nb_points_pace cfg) = ret ap ->
  calculate_point_density_last_seconds points i (density_window cfg) = ret pd ->
  loop_body points cfg ast (cumulative points) i st =
  ret (if start_criteria cfg md ap pd then started_at points i st else st).
Proof.
  intros Hi Hp Hmd Hap Hpd. unfold loop_body.
  rewrite getitem_fix by assumption. cbn [bind ret].
  rewrite Hp. cbn [negb]. rewrite Hmd, Hap, Hpd. cbn [bind ret].
  destruct (start_criteria cfg md ap pd); [| reflexivity].
  rewrite getitem_cumulative by assumption. reflexivity.
Qed.

Lemma loop_body_paused (points : list Fix) (cfg : config) (i si : Z) (st : scan_state)
    (md : R) (ap : option R) :
  (0 <= si <= i)%Z -> (i < len points)%Z -> paused_since points si st ->
  calculate_max_distance_window points i (time_window_end cfg) = ret md ->
  calculate_average_pace_last_points points i (nb_points_pace_end cfg) = ret ap ->
  loop_body points cfg (ts (fix_at points 0)) (cumulative points) i st =
  ret (if end_criteria cfg md ap then closed_at points si i st else st).
Proof.
  intros Hs Hi [Hp [Hf [Hsi Hd]]] Hmd Hap. unfold loop_body.
  rewrite getitem_fix by lia. cbn [bind ret].
  rewrite Hp. cbn [negb]. rewrite Hmd, Hap. cbn [bind ret].
  destruct (end_criteria cfg md ap); [| reflexivity].
  rewrite getitem_cumulative by lia. cbn [bind ret].
  rewrite Hf, Hsi, Hd. cbn [not_none bind ret].
  rewrite distance_during_pause_value by lia. reflexivity.
Qed.

(** Claim C1.  At an index [i] looked at while not paused, the scan becomes
    paused exactly when the maximum displacement over the start window is
    below the start threshold, the pace query returns "no data" or a value
    above the pace threshold, and the density query returns "no data" or a
    value below the density threshold; it then records fix [i], the index [i]
    and the cumulative distance at [i].  Otherwise the state is unchanged. *)
Theorem start_transition (points : list Fix) (cfg : config) (ast i : Z)
    (st : scan_state) :
  (0 <= i < len points)%Z -> in_pause st = false ->
  exists (max_distance : R) (avg_pace point_density : option R) (st' : scan_state),
    cumulative_loop points (range 0 (len points - 1)) [0] = ret (cumulative points) /\
    calculate_max_distance_window points i (time_window cfg) = ret max_distance /\
    calculate_average_pace_last_points points i (nb_points_pace cfg) = ret avg_pace /\
    calculate_point_density_last_seconds points i (density_window cfg) = ret point_density /\
    loop_body points cfg ast (cumulative points) i st = ret st' /\
    (in_pause st' = true <->
     max_distance < threshold_start cfg /\
     (avg_pace = None \/ exists v, avg_pace = Some v /\ v > pace_threshold cfg) /\
     (point_density = None \/
      exists v, point_density = Some v /\ v < density_threshold cfg)) /\
    (in_pause st' = true ->
     pause_start st' = Some (fix_at points i) /\
     pause_start_index st' = Some i /\
     pause_start_distance st' = Some (total_meters points 0 i) /\
     pauses st' = pauses st) /\
    (in_pause st' = false -> st' = st).
Proof.
  intros Hi Hp.
  destruct (max_distance_window_returns points i (time_window cfg) Hi) as [md Hmd].
  destruct (average_pace_returns points i (nb_points_pace cfg) (proj2 Hi)) as [ap Hap].
  destruct (density_returns points i (density_window cfg) Hi) as [pd Hpd].
  exists md, ap, pd.
  rewrite (loop_body_idle points cfg ast i st md ap pd Hi Hp Hmd Hap Hpd).
  eexists. split; [apply cumulative_loop_all; lia |].
  repeat (split; [first [assumption | reflexivity] |]).
  rewrite <- start_criteria_iff.
  destruct (start_criteria cfg md ap pd); cbn [started_at in_pause pause_start
    pause_start_index pause_start_distance pauses].
  - repeat split; try reflexivity. discriminate.
  - rewrite Hp. repeat split; try discriminate; try reflexivity.
Qed.

Lemma start_transition_witness :
  exists (max_distance : R) (avg_pace point_density : option R) (st' : scan_state),
    cumulative_loop [mkFix 0 0 0; mkFix 0 0 1000000]
      (range 0 (len [mkFix 0 0 0; mkFix 0 0 1000000] - 1)) [0] =
      ret (cumulative [mkFix 0 0 0; mkFix 0 0 1000000]) /\
    calculate_max_distance_window [mkFix 0 0 0; mkFix 0 0 1000000] 0
      (time_window default_config) = ret max_distance /\
    calculate_average_pace_last_points [mkFix 0 0 0; mkFix 0 0 1000000] 0
      (nb_points_pace default_config) = ret avg_pace /\
    calculate_point_density_last_seconds [mkFix 0 0 0; mkFix 0 0 1000000] 0
      (density_window default_config) = ret point_density /\
    loop_body [mkFix 0 0 0; mkFix 0 0 1000000] default_config 0
      (cumulative [mkFix 0 0 0; mkFix 0 0 1000000]) 0 initial_state = ret st' /\
    (in_pause st' = true <->
     max_distance < threshold_start default_config /\
     (avg_pace = None \/ exists v, avg_pace = Some v /\ v > pace_threshold default_config) /\
     (point_density = None \/
      exists v, point_density = Some v /\ v < density_threshold default_config)) /\
    (in_pause st' = true ->
     pause_start st' = Some (fix_at [mkFix 0 0 0; mkFix 0 0 1000000] 0) /\
     pause_start_index st' = Some 0%Z /\
     pause_start_distance st' =
       Some (total_meters [mkFix 0 0 0; mkFix 0 0 1000000] 0 0) /\
     pauses st' = pauses initial_state) /\
    (in_pause st' = false -> st' = initial_state).
Proof.
  apply (start_transition [mkFix 0 0 0; mkFix 0 0 1000000] default_config 0 0 initial_state).
  - vm_compute. split; [discriminate | reflexivity].
  - reflexivity.
Defined.

(** Claim C2.  At an index [i] looked at while paused, the scan closes the
    pause exactly when the maximum displacement over the end window exceeds the
    end threshold and the pace query returns a value, and that value is below
    the end pace threshold; "no data" never closes a pause.  On closing, the
    record of the pause ending at fix [i] is appended to the result list and
    the state is not paused; otherwise the state is unchanged. *)
Theorem end_transition (points : list Fix) (cfg : config) (i si : Z) (st : scan_state) :
  (0 <= si <= i)%Z -> (i < len points)%Z -> paused_since points si st ->
  exists (max_distance : R) (avg_pace : option R) (st' : scan_state),
    cumulative_loop points (range 0 (len points - 1)) [0] = ret (cumulative points) /\
    calculate_max_distance_window points i (time_window_end cfg) = ret max_distance /\
    calculate_average_pace_last_points points i (nb_points_pace_end cfg) = ret avg_pace /\
    loop_body points cfg (ts (fix_at points 0)) (cumulative points) i st = ret st' /\
    (in_pause st' = false <->
     max_distance > threshold_end cfg /\
     exists v, avg_pace = Some v /\ v < pace_threshold_end cfg) /\
    (avg_pace = None -> st' = st) /\
    (in_pause st' = false ->
     pauses st' = pauses st ++ [closure_info points si i] /\
     pause_info.end_ (closure_info points si i) = ts (fix_at points i) /\
     pause_start st' = None /\ pause_start_index st' = None /\
     pause_start_distance st' = None) /\
    (in_pause st' = true -> st' = st).
Proof.
  intros Hs Hi Hps.
  assert (Hi' : (0 <= i < len points)%Z) by lia.
  destruct (max_distance_window_returns points i (time_window_end cfg) Hi') as [md Hmd].
  destruct (average_pace_returns points i (nb_points_pace_end cfg) Hi) as [ap Hap].
  exists md, ap.
  rewrite (loop_body_paused points cfg i si st md ap Hs Hi Hps Hmd Hap).
  eexists. split; [apply cumulative_loop_all; lia |].
  repeat (split; [first [assumption | reflexivity] |]).
  rewrite <- end_criteria_iff.
  destruct Hps as [Hp _].
  destruct (end_criteria cfg md ap) eqn:E; cbn [closed_at in_pause pause_start
    pause_start_index pause_start_distance pauses].
  - repeat split; try reflexivity; try discriminate.
    intros ->. unfold end_criteria in E. cbv zeta in E.
    rewrite andb_false_r in E. discriminate.
  - rewrite Hp. repeat split; try discriminate; try reflexivity.
Qed.

Lemma end_transition_witness :
  let points := [mkFix 0 0 0; mkFix 0 0 1000000] in
  let st := started_at points 0 initial_state in
  exists (max_distance : R) (avg_pace : option R) (st' : scan_state),
    cumulative_loop points (range 0 (len points - 1)) [0] = ret (cumulative points) /\
    calculate_max_distance_window points 1 (time_window_end default_config) =
      ret max_distance /\
    calculate_average_pace_last_points points 1 (nb_points_pace_end default_config) =
      ret avg_pace /\
    loop_body points default_config (ts (fix_at points 0)) (cumulative points) 1 st =
      ret st' /\
    (in_pause st' = false <->
     max_distance > threshold_end default_config /\
     exists v, avg_pace = Some v /\ v < pace_threshold_end default_config) /\
    (avg_pace = None -> st' = st) /\
    (in_pause st' = false ->
     pauses st' = pauses st ++ [closure_info points 0 1] /\
     pause_info.end_ (closure_info points 0 1) = ts (fix_at points 1) /\
     pause_start st' = None /\ pause_start_index st' = None /\
     pause_start_distance st' = None) /\
    (in_pause st' = true -> st' = st).
Proof.
  apply (end_transition [mkFix 0 0 0; mkFix 0 0 1000000] default_config 1 0
           (started_at [mkFix 0 0 0; mkFix 0 0 1000000] 0 initial_state)).
  - lia.
  - vm_compute. reflexivity.
  - repeat split; reflexivity.
Defined.

(** ** The invariant of the scan *)

Lemma chain_app (lo : Z) (ps : list pause_info.t) (p : pause_info.t) :
  chain lo (ps ++ [p]) <->
  chain lo ps /\
  (chain_end lo ps < pause_info.start_index p)%Z /\
  (pause_info.start_index p <= pause_info.end_index p)%Z.
Proof.
  revert lo. induction ps as [| q ps IH]; intros lo; cbn [app chain chain_end].
  - tauto.
  - rewrite IH. tauto.
Qed.

Lemma chain_end_app (lo : Z) (ps : list pause_info.t) (p : pause_info.t) :
  chain_end lo (ps ++ [p]) = pause_info.end_index p.
Proof.
  revert lo. induction ps as [| q ps IH]; intros lo; cbn [app chain_end].
  - reflexivity.
  - apply IH.
Qed.

Lemma chain_end_ge (lo : Z) (ps : list pause_info.t) :
  chain lo ps -> (lo <= chain_end lo ps)%Z.
Proof.
  revert lo. induction ps as [| q ps IH]; intros lo; cbn [chain chain_end].
  - lia.
  - intros [H1 [H2 H3]]. specialize (IH _ H3). lia.
Qed.

Lemma chain_weaken (lo lo' : Z) (ps : list pause_info.t) :
  (lo' <= lo)%Z -> chain lo ps -> chain lo' ps.
Proof.
  destruct ps as [| q ps]; cbn [chain]; [tauto |].
  intros H [H1 H2]. split; [lia | exact H2].
Qed.

Lemma chain_pairs (ps : list pause_info.t) :
  forall (lo : Z) (j k : nat) (pj pk : pause_info.t),
    chain lo ps ->
    nth_error ps j = Some pj -> nth_error ps k = Some pk -> (j < k)%nat ->
    (pause_info.start_index pj < pause_info.start_index pk)%Z /\
    (pause_info.end_index pj < pause_info.start_index pk)%Z.
Proof.
  induction ps as [| q ps IH]; intros lo j k pj pk Hc Hj Hk Hjk.
  - destruct j; discriminate.
  - cbn [chain] in Hc. destruct Hc as [H1 [H2 H3]].
    destruct k as [| k]; [lia |]. cbn [nth_error] in Hk.
    destruct j as [| j].
    + cbn [nth_error] in Hj. injection Hj as <-.
      assert (Hlo : forall (l : list pause_info.t) (b : Z) (n : nat) (x : pause_info.t),
                 chain b l -> nth_error l n = Some x -> (b < pause_info.start_index x)%Z).
      { clear. induction l as [| y l IHl]; intros b n x Hc Hn.
        - destruct n; discriminate.
        - cbn [chain] in Hc. destruct Hc as [A [B C]].
          destruct n as [| n]; cbn [nth_error] in Hn.
          + injection Hn as <-. exact A.
          + specialize (IHl _ _ _ C Hn). lia. }
      specialize (Hlo _ _ _ _ H3 Hk). lia.
    + cbn [nth_error] in Hj. apply (IH _ j k pj pk H3 Hj Hk). lia.
Qed.

Lemma scan_inv_initial (points : list Fix) : scan_inv points 0 initial_state.
Proof.
  constructor; cbn [initial_state pauses in_pause chain chain_end].
  - exact I.
  - lia.
  - constructor.
  - discriminate.
Qed.

Lemma loop_body_inv (points : list Fix) (cfg : config) (i : Z) (st : scan_state) :
  (0 <= i < len points)%Z -> scan_inv points i st ->
  exists st',
    loop_body points cfg (ts (fix_at points 0)) (cumulative points) i st = ret st' /\
    scan_inv points (i + 1) st'.
Proof.
  intros Hi [Hchain Hend Hclosed Hopen].
  destruct (in_pause st) eqn:Hp.
  - destruct (Hopen eq_refl) as [si [Hsi Hps]].
    pose proof (chain_end_ge _ _ Hchain) as Hge.
    destruct (max_distance_window_returns points i (time_window_end cfg) Hi) as [md Hmd].
    destruct (average_pace_returns points i (nb_points_pace_end cfg) (proj2 Hi))
      as [ap Hap].
    rewrite (loop_body_paused points cfg i si st md ap) by (try assumption; lia).
    eexists. split; [reflexivity |].
    destruct (end_criteria cfg md ap).
    + constructor; cbn [closed_at pauses in_pause].
      * apply chain_app. cbn [closure_info pause_info.start_index pause_info.end_index].
        repeat split; [assumption | lia | lia].
      * rewrite chain_end_app. cbn [closure_info pause_info.end_index]. lia.
      * apply Forall_app. split; [assumption |].
        constructor; [| constructor].
        cbn [closure_info pause_info.start_index pause_info.end_index pause_info.nb_points].
        split; [lia | reflexivity].
      * discriminate.
    + constructor; try assumption; [lia |].
      intros _. exists si. split; [lia | assumption].
  - destruct (max_distance_window_returns points i (time_window cfg) Hi) as [md Hmd].
    destruct (average_pace_returns points i (nb_points_pace cfg) (proj2 Hi)) as [ap Hap].
    destruct (density_returns points i (density_window cfg) Hi) as [pd Hpd].
    rewrite (loop_body_idle points cfg _ i st md ap pd Hi Hp Hmd Hap Hpd).
    eexists. split; [reflexivity |].
    destruct (start_criteria cfg md ap pd).
    + constructor; cbn [started_at pauses in_pause]; try assumption; [lia |].
      intros _. exists i. split; [lia |]. repeat split; reflexivity.
    + constructor; try assumption; [lia |].
      rewrite Hp. discriminate.
Qed.

Lemma scan_returns (points : list Fix) (cfg : config) (m : nat) :
  forall (i : Z) (st : scan_state),
    (0 <= i)%Z -> (i + Z.of_nat m = len points)%Z -> scan_inv points i st ->
    exists st',
      scan points cfg (ts (fix_at points 0)) (cumulative points)
        (range i (len points)) st = ret st' /\
      scan_inv points (len points) st'.
Proof.
  induction m as [| m IH]; intros i st Hi Hm Hinv.
  - rewrite range_nil by lia. cbn [scan]. exists st. split; [reflexivity |].
    replace (len points) with i by lia. exact Hinv.
  - rewrite range_cons by lia. cbn [scan].
    destruct (loop_body_inv points cfg i st) as [st1 [Hrun Hinv1]]; [lia | assumption |].
    rewrite Hrun. cbn [bind ret]. apply IH; [lia | lia | assumption].
Qed.

Lemma run_scan_returns (points : list Fix) (cfg : config) :
  (1 <= len points)%Z ->
  exists st, run_scan points cfg = ret st /\ scan_inv points (len points) st.
Proof.
  intros H. unfold run_scan.
  rewrite getitem_fix by lia. cbn [bind ret].
  rewrite cumulative_loop_all by assumption. cbn [bind ret].
  apply (scan_returns points cfg (Z.to_nat (len points)) 0%Z initial_state);
    [lia | lia | apply scan_inv_initial].
Qed.

Lemma end_of_track_value (points : list Fix) (st : scan_state) :
  (1 <= len points)%Z -> scan_inv points (len points) st ->
  end_of_track points (ts (fix_at points 0)) (cumulative points) st =
  ret (pauses st ++ open_tail points st).
Proof.
  intros Hn [Hchain Hend Hclosed Hopen]. unfold end_of_track, open_tail.
  destruct (in_pause st) eqn:Hp.
  - destruct (Hopen eq_refl) as [si [Hsi [_ [Hf [Hidx Hd]]]]].
    pose proof (chain_end_ge _ _ Hchain) as Hge.
    rewrite (getitem_minus_one points origin) by lia. cbn [bind ret].
    fold (fix_at points (len points - 1)).
    rewrite getitem_cumulative by lia. cbn [bind ret].
    rewrite Hf, Hidx, Hd. cbn [not_none bind ret].
    rewrite distance_during_pause_value by lia. reflexivity.
  - rewrite app_nil_r. reflexivity.
Qed.

Lemma detect_pauses_value (points : list Fix) (cfg : config) :
  (2 <= len points)%Z ->
  exists st,
    run_scan points cfg = ret st /\
    scan_inv points (len points) st /\
    detect_pauses points cfg = ret (pauses st ++ open_tail points st, points).
Proof.
  intros H.
  destruct (run_scan_returns points cfg) as [st [Hrun Hinv]]; [lia |].
  exists st. split; [exact Hrun |]. split; [exact Hinv |].
  unfold detect_pauses. unfold run_scan in Hrun.
  destruct (Z.ltb_spec (len points) 2); [lia |].
  rewrite getitem_fix in * by lia. cbn [bind ret] in *.
  rewrite cumulative_loop_all in * by lia. cbn [bind ret] in *.
  rewrite Hrun. cbn [bind ret].
  rewrite end_of_track_value by (try assumption; lia). reflexivity.
Qed.

Lemma detect_pauses_short (points : list Fix) (cfg : config) :
  (len points < 2)%Z -> detect_pauses points cfg = ret ([], points).
Proof.
  intros H. unfold detect_pauses. destruct (Z.ltb_spec (len points) 2); [reflexivity | lia].
Qed.

Lemma open_tail_cases (points : list Fix) (st : scan_state) :
  scan_inv points (len points) st ->
  (in_pause st = false /\ open_tail points st = []) \/
  (exists si,
     (chain_end (-1) (pauses st) < si < len points)%Z /\
     paused_since points si st /\
     open_tail points st = [closure_info points si (len points - 1)]).
Proof.
  intros [Hchain Hend Hclosed Hopen]. unfold open_tail.
  destruct (in_pause st) eqn:Hp.
  - right. destruct (Hopen eq_refl) as [si [Hsi Hps]].
    exists si. split; [exact Hsi |]. split; [exact Hps |].
    destruct Hps as [_ [_ [-> _]]]. reflexivity.
  - left. split; reflexivity.
Qed.

Lemma detect_pauses_chain (points : list Fix) (cfg : config) :
  exists ps, detect_pauses points cfg = ret (ps, points) /\ chain (-1) ps.
Proof.
  destruct (Z.ltb_spec (len points) 2) as [Hshort | Hlong].
  - exists []. split; [apply detect_pauses_short; assumption | exact I].
  - destruct (detect_pauses_value points cfg Hlong) as [st [_ [Hinv Hdet]]].
    eexists. split; [exact Hdet |].
    destruct (open_tail_cases points st Hinv) as [[_ ->] | [si [Hsi [_ ->]]]].
    + rewrite app_nil_r. apply (inv_chain _ _ _ Hinv).
    + apply chain_app. cbn [closure_info pause_info.start_index pause_info.end_index].
      split; [apply (inv_chain _ _ _ Hinv) | lia].
Qed.

(** ** Tracks of two fixes *)

Lemma geodesic_nonneg (a b : Fix) : 0 <= geodesic a b.
Proof. apply great_circle_nonneg. Qed.

Section TwoFixes.

Variables p0 p1 : Fix.

Lemma max_window_first (w : Z) :
  calculate_max_distance_window [p0; p1] 0 w =
  ret (if (ts p1 <=? ts p0 + timedelta w)%Z then geodesic p0 p1 else 0).
Proof.
  unfold calculate_max_distance_window.
  change (getitem [p0; p1] 0) with (ret p0). cbn [bind ret].
  change (range (0 + 1) (len [p0; p1])) with [1%Z]. cbn [window_scan].
  change (getitem [p0; p1] 1) with (ret p1). cbn [bind ret].
  destruct (ts p1 <=? ts p0 + timedelta w)%Z; cbn [app bind ret max_pairs max_inner].
  - rewrite haversine_returns. cbn [bind ret]. fold (geodesic p0 p1).
    pose proof (geodesic_nonneg p0 p1) as Hd.
    destruct (Rlt_dec 0 (geodesic p0 p1)) as [Hlt | Hge].
    + rewrite (fltb_true _ _ Hlt). reflexivity.
    + rewrite fltb_false by lra. unfold ret. f_equal. lra.
  - reflexivity.
Qed.

Lemma max_window_last (w : Z) :
  calculate_max_distance_window [p0; p1] 1 w = ret 0.
Proof.
  unfold calculate_max_distance_window.
  change (getitem [p0; p1] 1) with (ret p1). cbn [bind ret].
  change (range (1 + 1) (len [p0; p1])) with (@nil Z). reflexivity.
Qed.

Lemma pace_first (points : list Fix) (n : Z) :
  calculate_average_pace_last_points points 0 n = ret None.
Proof.
  unfold calculate_average_pace_last_points.
  destruct (Z.ltb_spec 0 n) as [H | H]; [reflexivity |].
  destruct (Z.leb_spec 0 (0 - n)); [reflexivity | lia].
Qed.

Lemma pace_last_two (n : Z) :
  (1 <= n)%Z ->
  calculate_average_pace_last_points [p0; p1] 1 n =
  ret (if feqb (geodesic p0 p1) 0 || feqb (total_seconds (ts p1 - ts p0)) 0 then None
       else Some (total_seconds (ts p1 - ts p0) / geodesic p0 p1 * 1000 / 60)).
Proof.
  intros Hn.
  rewrite average_pace_value by (unfold len; cbn [length]; lia). cbv zeta.
  replace (if (1 <? n)%Z then 0%Z else (1 - n)%Z) with 0%Z
    by (destruct (Z.ltb_spec 1 n); lia).
  change (1 <=? 0)%Z with false. cbv iota.
  assert (Hm : total_meters [p0; p1] 0 1 = geodesic p0 p1).
  { unfold total_meters. change (range 0 1) with [0%Z].
    unfold sum_over. cbn [fold_right]. unfold segment_meters.
    change (fix_at [p0; p1] 0) with p0. change (fix_at [p0; p1] (0 + 1)) with p1. lra. }
  assert (He : total_elapsed [p0; p1] 0 1 = total_seconds (ts p1 - ts p0)).
  { unfold total_elapsed. change (range 0 1) with [0%Z].
    unfold sum_over. cbn [fold_right]. unfold segment_seconds.
    change (fix_at [p0; p1] 0) with p0. change (fix_at [p0; p1] (0 + 1)) with p1. lra. }
  rewrite Hm, He. reflexivity.
Qed.

Lemma density_first (points : list Fix) (w : Z) :
  calculate_point_density_last_seconds points 0 w = ret None.
Proof. reflexivity. Qed.

Lemma density_last_two (w : Z) :
  (0 <= w)%Z ->
  calculate_point_density_last_seconds [p0; p1] 1 w =
  ret (if (ts p1 - timedelta w <=? ts p0)%Z
       then (if feqb (total_seconds (ts p1 - ts p0)) 0 then None
             else Some (2 / total_seconds (ts p1 - ts p0)))
       else None).
Proof.
  intros Hw. unfold calculate_point_density_last_seconds.
  change (1 =? 0)%Z with false. cbv iota.
  change (getitem [p0; p1] 1) with (ret p1). cbn [bind ret].
  change (range_down 1) with [1%Z; 0%Z]. cbn [density_count].
  change (getitem [p0; p1] 1) with (ret p1). cbn [bind ret].
  destruct (Z.leb_spec (ts p1 - timedelta w) (ts p1)) as [_ | Hbad];
    [| unfold timedelta in Hbad; lia].
  change (getitem [p0; p1] 0) with (ret p0). cbn [bind ret].
  destruct (ts p1 - timedelta w <=? ts p0)%Z; cbn [bind ret].
  - change (0 + 1 + 1 <? 2)%Z with false. cbv iota.
    change (getitem [p0; p1] (1 - (0 + 1 + 1) + 1)) with (ret p0). cbn [bind ret].
    destruct (feqb (total_seconds (ts p1 - ts p0)) 0) eqn:E; [reflexivity |].
    unfold truediv. rewrite E. reflexivity.
  - reflexivity.
Qed.

Lemma pace_above_gap (d dt : R) :
  30 <= d -> 15 < dt / d * 1000 / 60 -> 27 < dt.
Proof.
  intros Hd Hp.
  assert (Hq : 9 / 10 < dt / d) by lra.
  assert (Hdt : dt = dt / d * d) by (field; lra).
  rewrite Hdt. nra.
Qed.

Lemma start_at_last_two :
  30 <= geodesic p0 p1 ->
  start_criteria default_config 0
    (if feqb (geodesic p0 p1) 0 || feqb (total_seconds (ts p1 - ts p0)) 0 then None
     else Some (total_seconds (ts p1 - ts p0) / geodesic p0 p1 * 1000 / 60))
    (if (ts p1 - timedelta 30 <=? ts p0)%Z
     then (if feqb (total_seconds (ts p1 - ts p0)) 0 then None
           else Some (2 / total_seconds (ts p1 - ts p0)))
     else None) =
  feqb (total_seconds (ts p1 - ts p0)) 0
  || fltb 15 (total_seconds (ts p1 - ts p0) / geodesic p0 p1 * 1000 / 60).
Proof.
  intros Hd. set (d := geodesic p0 p1) in *. set (dt := total_seconds (ts p1 - ts p0)).
  unfold start_criteria. cbv zeta. cbn [threshold_start pace_threshold density_threshold
    default_config].
  rewrite (fltb_true 0 30) by lra. rewrite (feqb_false d 0) by lra. cbn [orb andb].
  destruct (feqb dt 0) eqn:Et.
  - cbn [orb]. destruct (ts p1 - timedelta 30 <=? ts p0)%Z; reflexivity.
  - cbn [orb]. destruct (fltb 15 (dt / d * 1000 / 60)) eqn:Ep; [| reflexivity].
    cbn [andb]. apply fltb_iff in Ep. pose proof (pace_above_gap d dt Hd Ep) as Hgap.
    destruct (ts p1 - timedelta 30 <=? ts p0)%Z; [| reflexivity].
    apply fltb_true. apply (Rmult_lt_reg_r dt); [lra |].
    replace (2 / dt * dt) with 2 by (field; lra). lra.
Qed.

Lemma detect_two_fixes :
  detect_pauses [p0; p1] default_config = ret (two_fix_pauses p0 p1, [p0; p1]).
Proof.
  unfold detect_pauses.
  change (len [p0; p1] <? 2)%Z with false. cbv iota.
  change (getitem [p0; p1] 0) with (ret p0). cbn [bind ret].
  rewrite cumulative_loop_all by (unfold len; cbn [length]; lia). cbn [bind ret].
  change (range 0 (len [p0; p1])) with [0%Z; 1%Z]. cbn [scan].
  assert (H0 : (0 <= 0 < len [p0; p1])%Z) by (unfold len; cbn [length]; lia).
  assert (H1 : (0 <= 1 < len [p0; p1])%Z) by (unfold len; cbn [length]; lia).
  rewrite (loop_body_idle [p0; p1] default_config (ts p0) 0 initial_state _ _ _ H0 eq_refl
             (max_window_first _) (pace_first _ _) (density_first _ _)).
  cbn [bind ret]. unfold two_fix_pauses. cbv zeta.
  set (d := geodesic p0 p1). set (dt := total_seconds (ts p1 - ts p0)).
  change (time_window default_config) with 45%Z.
  assert (Hc0 : start_criteria default_config
                  (if (ts p1 <=? ts p0 + timedelta 45)%Z then d else 0) None None =
                (ts p0 + timedelta 45 <? ts p1)%Z || fltb d 30).
  { unfold start_criteria. cbv zeta. cbn [threshold_start default_config].
    rewrite !andb_true_r.
    destruct (Z.leb_spec (ts p1) (ts p0 + timedelta 45));
      destruct (Z.ltb_spec (ts p0 + timedelta 45) (ts p1)); try lia.
    - reflexivity.
    - cbn [orb]. apply fltb_true. lra. }
  rewrite Hc0.
  destruct ((ts p0 + timedelta 45 <? ts p1)%Z || fltb d 30) eqn:Efirst.
  - change (ts p0) with (ts (fix_at [p0; p1] 0)) at 1.
    rewrite (loop_body_paused [p0; p1] default_config 1 0
               (started_at [p0; p1] 0 initial_state) 0 _ ltac:(lia) (proj2 H1)
               ltac:(repeat split; reflexivity)
               (max_window_last _)
               (pace_last_two (nb_points_pace_end default_config) ltac:(cbn; lia))).
    cbn [bind ret].
    assert (Hend : forall ap, end_criteria default_config 0 ap = false).
    { intros ap. unfold end_criteria. cbv zeta. cbn [threshold_end default_config].
      rewrite (fltb_false 30 0) by lra. reflexivity. }
    rewrite Hend.
    change (ts p0) with (ts (fix_at [p0; p1] 0)).
    rewrite end_of_track_value.
    + reflexivity.
    + unfold len. cbn [length]. lia.
    + constructor; cbn [started_at initial_state pauses in_pause chain chain_end].
      * exact I.
      * unfold len. cbn [length]. lia.
      * constructor.
      * intros _. exists 0%Z. split; [unfold len; cbn [length]; lia |].
        repeat split; reflexivity.
  - apply orb_false_iff in Efirst. destruct Efirst as [Ewin Edist].
    assert (Hd : 30 <= d).
    { unfold fltb in Edist. destruct (Rlt_dec d 30); [discriminate | lra]. }
    rewrite (loop_body_idle [p0; p1] default_config (ts p0) 1 initial_state _ _ _ H1 eq_refl
               (max_window_last _)
               (pace_last_two (nb_points_pace default_config) ltac:(cbn; lia))
               (density_last_two (density_window default_config) ltac:(cbn; lia))).
    cbn [bind ret].
    change (density_window default_config) with 30%Z.
    rewrite (start_at_last_two Hd). fold d. fold dt.
    change (ts p0) with (ts (fix_at [p0; p1] 0)).
    destruct (feqb dt 0 || fltb 15 (dt / d * 1000 / 60)).
    + rewrite end_of_track_value.
      * reflexivity.
      * unfold len. cbn [length]. lia.
      * constructor; cbn [started_at initial_state pauses in_pause chain chain_end].
        -- exact I.
        -- unfold len. cbn [length]. lia.
        -- constructor.
        -- intros _. exists 1%Z. split; [unfold len; cbn [length]; lia |].
           repeat split; reflexivity.
    + rewrite end_of_track_value.
      * reflexivity.
      * unfold len. cbn [length]. lia.
      * replace (len [p0; p1]) with (0 + 1 + 1)%Z by reflexivity.
        constructor; cbn [initial_state pauses in_pause chain chain_end].
        -- exact I.
        -- lia.
        -- constructor.
        -- discriminate.
Qed.

Lemma run_scan_two_near :
  geodesic p0 p1 < 30 ->
  run_scan [p0; p1] default_config = ret (started_at [p0; p1] 0 initial_state).
Proof.
  intros Hd. unfold run_scan.
  change (getitem [p0; p1] 0) with (ret p0). cbn [bind ret].
  rewrite cumulative_loop_all by (unfold len; cbn [length]; lia). cbn [bind ret].
  change (range 0 (len [p0; p1])) with [0%Z; 1%Z]. cbn [scan].
  assert (H0 : (0 <= 0 < len [p0; p1])%Z) by (unfold len; cbn [length]; lia).
  assert (H1 : (0 <= 1 < len [p0; p1])%Z) by (unfold len; cbn [length]; lia).
  rewrite (loop_body_idle [p0; p1] default_config (ts p0) 0 initial_state _ _ _ H0 eq_refl
             (max_window_first _) (pace_first _ _) (density_first _ _)).
  cbn [bind ret].
  assert (Hc0 : forall b : bool,
             start_criteria default_config (if b then geodesic p0 p1 else 0) None None = true).
  { intros b. unfold start_criteria. cbv zeta. cbn [threshold_start default_config].
    rewrite !andb_true_r. apply fltb_true. destruct b; lra. }
  rewrite Hc0.
  change (ts p0) with (ts (fix_at [p0; p1] 0)).
  rewrite (loop_body_paused [p0; p1] default_config 1 0
             (started_at [p0; p1] 0 initial_state) 0 _ ltac:(lia) (proj2 H1)
             ltac:(repeat split; reflexivity)
             (max_window_last _)
             (pace_last_two (nb_points_pace_end default_config) ltac:(cbn; lia))).
  cbn [bind ret].
  unfold end_criteria. cbv zeta. cbn [threshold_end default_config].
  rewrite (fltb_false 30 0) by lra. reflexivity.
Qed.

End TwoFixes.

Lemma geodesic_same_place (la lo : R) (t0 t1 : Z) :
  geodesic (mkFix la lo t0) (mkFix la lo t1) = 0.
Proof. unfold geodesic. cbn [lat lon]. apply great_circle_same. Qed.

Lemma geodesic_half_turn (t0 t1 : Z) :
  geodesic (mkFix 0 0 t0) (mkFix 0 180 t1) = 6371000 * PI.
Proof.
  unfold geodesic, great_circle. cbn [lat lon]. cbv zeta.
  unfold math.radians, haversine_a. cbv zeta.
  replace ((0 * (PI / 180) - 0 * (PI / 180)) / 2) with 0 by lra.
  replace ((180 * (PI / 180) - 0 * (PI / 180)) / 2) with (PI / 2) by lra.
  replace (0 * (PI / 180)) with 0 by lra.
  rewrite sin_0, cos_0, sin_PI2.
  replace (0 ^ 2 + 1 * 1 * 1 ^ 2) with 1 by ring.
  replace (1 - 1) with 0 by ring.
  rewrite sqrt_0, sqrt_1.
  unfold math.atan2.
  rewrite (fltb_false 0 0) by lra. rewrite (fltb_true 0 1) by lra.
  field.
Qed.

Lemma total_seconds_zero : total_seconds 0 = 0.
Proof. unfold total_seconds. lra. Qed.

Lemma total_seconds_nonneg (z : Z) : (0 <= z)%Z -> 0 <= total_seconds z.
Proof.
  intros H. unfold total_seconds. apply IZR_le in H.
  apply Rmult_le_pos; lra.
Qed.

Lemma total_seconds_le (z k : Z) :
  (z <= k * 1000000)%Z <-> total_seconds z <= IZR k.
Proof.
  unfold total_seconds. split; intros H.
  - apply IZR_le in H. rewrite mult_IZR in H. lra.
  - apply le_IZR. rewrite mult_IZR. lra.
Qed.

(** Claim C3.  When the loop ends in the paused state, [detect_pauses] returns
    the pauses of the loop followed by exactly one more record; that record
    ends at the last fix (its timestamp, index [len points - 1]) and is the
    record a normal closure of the same pause at that index appends. *)
Theorem end_of_sequence_pause (points : list Fix) (cfg : config) (st : scan_state) :
  (2 <= len points)%Z -> run_scan points cfg = ret st -> in_pause st = true ->
  exists si : Z,
    (0 <= si <= len points - 1)%Z /\
    paused_since points si st /\
    detect_pauses points cfg =
      ret (pauses st ++ [closure_info points si (len points - 1)], points) /\
    getitem points (-1) = ret (fix_at points (len points - 1)) /\
    pause_info.end_ (closure_info points si (len points - 1)) =
      ts (fix_at points (len points - 1)) /\
    pause_info.end_index (closure_info points si (len points - 1)) =
      (len points - 1)%Z /\
    (forall (md : R) (ap : option R),
       calculate_max_distance_window points (len points - 1) (time_window_end cfg) =
         ret md ->
       calculate_average_pace_last_points points (len points - 1)
         (nb_points_pace_end cfg) = ret ap ->
       end_criteria cfg md ap = true ->
       exists st',
         loop_body points cfg (ts (fix_at points 0)) (cumulative points)
           (len points - 1) st = ret st' /\
         pauses st' = pauses st ++ [closure_info points si (len points - 1)]).
Proof.
  intros Hn Hrun Hp.
  destruct (detect_pauses_value points cfg Hn) as [st0 [Hrun0 [Hinv Hdet]]].
  rewrite Hrun in Hrun0. injection Hrun0 as <-.
  destruct (open_tail_cases points st Hinv) as [[Hf _] | [si [Hsi [Hps Htail]]]];
    [congruence |].
  pose proof (chain_end_ge _ _ (inv_chain _ _ _ Hinv)) as Hge.
  exists si. split; [lia |]. split; [exact Hps |].
  split; [rewrite Hdet, Htail; reflexivity |].
  split; [apply (getitem_minus_one points origin); lia |].
  split; [reflexivity |]. split; [reflexivity |].
  intros md ap Hmd Hap Hend.
  rewrite (loop_body_paused points cfg (len points - 1) si st md ap)
    by (try assumption; lia).
  rewrite Hend. eexists. split; reflexivity.
Qed.

Lemma end_of_sequence_pause_witness :
  let points := [mkFix 0 0 0; mkFix 0 0 1000000] in
  let st := started_at points 0 initial_state in
  exists si : Z,
    (0 <= si <= len points - 1)%Z /\
    paused_since points si st /\
    detect_pauses points default_config =
      ret (pauses st ++ [closure_info points si (len points - 1)], points) /\
    getitem points (-1) = ret (fix_at points (len points - 1)) /\
    pause_info.end_ (closure_info points si (len points - 1)) =
      ts (fix_at points (len points - 1)) /\
    pause_info.end_index (closure_info points si (len points - 1)) =
      (len points - 1)%Z /\
    (forall (md : R) (ap : option R),
       calculate_max_distance_window points (len points - 1)
         (time_window_end default_config) = ret md ->
       calculate_average_pace_last_points points (len points - 1)
         (nb_points_pace_end default_config) = ret ap ->
       end_criteria default_config md ap = true ->
       exists st',
         loop_body points default_config (ts (fix_at points 0)) (cumulative points)
           (len points - 1) st = ret st' /\
         pauses st' = pauses st ++ [closure_info points si (len points - 1)]).
Proof.
  apply (end_of_sequence_pause [mkFix 0 0 0; mkFix 0 0 1000000] default_config
           (started_at [mkFix 0 0 0; mkFix 0 0 1000000] 0 initial_state)).
  - vm_compute. discriminate.
  - apply run_scan_two_near. rewrite geodesic_same_place. lra.
  - reflexivity.
Defined.

(** Claim C4, counterexample.  Two fixes at the same place, one second apart:
    with the default parameters [detect_pauses] returns one pause, from the
    first fix to the last, and not the empty list. *)
Lemma two_fixes_same_place_pause :
  detect_pauses [mkFix 0 0 0; mkFix 0 0 1000000] default_config =
    ret ([closure_info [mkFix 0 0 0; mkFix 0 0 1000000] 0 1],
         [mkFix 0 0 0; mkFix 0 0 1000000]) /\
  detect_pauses [mkFix 0 0 0; mkFix 0 0 1000000] default_config <>
    ret ([], [mkFix 0 0 0; mkFix 0 0 1000000]).
Proof.
  assert (H : detect_pauses [mkFix 0 0 0; mkFix 0 0 1000000] default_config =
              ret ([closure_info [mkFix 0 0 0; mkFix 0 0 1000000] 0 1],
                   [mkFix 0 0 0; mkFix 0 0 1000000])).
  { rewrite detect_two_fixes. unfold two_fix_pauses. cbv zeta.
    rewrite geodesic_same_place. rewrite (fltb_true 0 30) by lra.
    rewrite orb_true_r. reflexivity. }
  split; [exact H |]. rewrite H. discriminate.
Qed.

(** Claim C4, as amended.  On two fixes with non-decreasing timestamps and the
    default parameters, a result that [detect_pauses] returns holds at most one
    pause, which ends at the last fix; the list is empty exactly when the two
    fixes are at least 30 m apart, some time but at most 45 s elapsed between
    them, and the pace between them is at most 15 min/km.  Here [d] is the
    distance [haversine] returned for the two fixes. *)
Theorem two_fixes_at_most_one_pause (p0 p1 : Fix) (d : R)
    (ps : list pause_info.t) (pts : list Fix) :
  (ts p0 <= ts p1)%Z ->
  haversine (lat p0) (lon p0) (lat p1) (lon p1) = ret d ->
  detect_pauses [p0; p1] default_config = ret (ps, pts) ->
  let dt := total_seconds (ts p1 - ts p0) in
  pts = [p0; p1] /\
  (length ps <= 1)%nat /\
  (ps = [] <-> 30 <= d /\ 0 < dt <= 45 /\ dt / d * 1000 / 60 <= 15) /\
  (forall p, In p ps ->
     pause_info.end_index p = 1%Z /\ pause_info.end_ p = ts p1).
Proof.
  intros Hsorted Hd Hdet. cbv zeta.
  rewrite haversine_returns in Hd. injection Hd as <-.
  rewrite detect_two_fixes in Hdet. injection Hdet as <- <-.
  split; [reflexivity |].
  unfold two_fix_pauses. cbv zeta. fold (geodesic p0 p1).
  set (d := geodesic p0 p1). set (dt := total_seconds (ts p1 - ts p0)).
  assert (Hdt : 0 <= dt) by (apply total_seconds_nonneg; lia).
  assert (Hwin : (ts p0 + timedelta 45 <? ts p1)%Z = false <-> dt <= 45).
  { rewrite Z.ltb_ge. unfold dt. rewrite <- (total_seconds_le _ 45).
    unfold timedelta. lia. }
  destruct (ts p0 + timedelta 45 <? ts p1)%Z eqn:Ew.
  { cbn [orb]. split; [cbn [length]; lia |]. split.
    - split; [discriminate |]. intros [_ [[_ Hc] _]].
      apply Hwin in Hc. discriminate.
    - intros p [<- | []]. split; reflexivity. }
  pose proof (proj1 Hwin eq_refl) as Hle. cbn [orb].
  destruct (Rlt_dec d 30) as [Hnear | Hfar].
  { rewrite (fltb_true _ _ Hnear). split; [cbn [length]; lia |]. split.
    - split; [discriminate |]. intros [Hc _]. lra.
    - intros p [<- | []]. split; reflexivity. }
  rewrite (fltb_false d 30) by lra.
  destruct (Req_dec_T dt 0) as [Hz | Hnz].
  { rewrite (feqb_true _ _ Hz). cbn [orb]. split; [cbn [length]; lia |]. split.
    - split; [discriminate |]. intros [_ [[Hc _] _]]. lra.
    - intros p [<- | []]. split; reflexivity. }
  rewrite (feqb_false _ _ Hnz). cbn [orb].
  destruct (Rlt_dec 15 (dt / d * 1000 / 60)) as [Hslow | Hfast].
  { rewrite (fltb_true _ _ Hslow). split; [cbn [length]; lia |]. split.
    - split; [discriminate |]. intros [_ [_ Hc]]. lra.
    - intros p [<- | []]. split; reflexivity. }
  rewrite (fltb_false 15 _) by lra. split; [cbn [length]; lia |]. split.
  - split; [| reflexivity]. intros _. repeat split; lra.
  - intros p [].
Qed.

Lemma two_fixes_at_most_one_pause_witness :
  let p0 := mkFix 0 0 0 in
  let p1 := mkFix 0 0 1000000 in
  let ps := [closure_info [p0; p1] 0 1] in
  let dt := total_seconds (ts p1 - ts p0) in
  [p0; p1] = [p0; p1] /\
  (length ps <= 1)%nat /\
  (ps = [] <-> 30 <= 0 /\ 0 < dt <= 45 /\ dt / 0 * 1000 / 60 <= 15) /\
  (forall p, In p ps ->
     pause_info.end_index p = 1%Z /\ pause_info.end_ p = ts p1).
Proof.
  apply (two_fixes_at_most_one_pause (mkFix 0 0 0) (mkFix 0 0 1000000) 0
           [closure_info [mkFix 0 0 0; mkFix 0 0 1000000] 0 1]
           [mkFix 0 0 0; mkFix 0 0 1000000]).
  - vm_compute. discriminate.
  - cbn [lat lon]. rewrite haversine_returns, great_circle_same. reflexivity.
  - rewrite detect_two_fixes. unfold two_fix_pauses. cbv zeta.
    rewrite geodesic_same_place. rewrite (fltb_true 0 30) by lra.
    rewrite orb_true_r. reflexivity.
Defined.

(** Claim C7.  The pauses [detect_pauses] returns are in strictly increasing
    order of [start_index], and each starts strictly after every earlier one
    has ended. *)
Theorem pauses_increasing_disjoint (points : list Fix) (cfg : config) :
  exists ps : list pause_info.t,
    detect_pauses points cfg = ret (ps, points) /\
    forall (j k : nat) (pj pk : pause_info.t),
      nth_error ps j = Some pj -> nth_error ps k = Some pk -> (j < k)%nat ->
      (pause_info.start_index pj < pause_info.start_index pk)%Z /\
      (pause_info.end_index pj < pause_info.start_index pk)%Z.
Proof.
  destruct (detect_pauses_chain points cfg) as [ps [Hdet Hchain]].
  exists ps. split; [exact Hdet |].
  intros j k pj pk Hj Hk Hjk. exact (chain_pairs ps (-1) j k pj pk Hchain Hj Hk Hjk).
Qed.

(** Claim C9.  Every pause returned has [start_index <= end_index] and
    [nb_points = end_index - start_index + 1 >= 1]; the pauses closed inside the
    loop have [start_index < end_index]; and a pause added at the end of the
    track can have [end_index = start_index], one point and duration 0. *)
Theorem pause_index_bounds :
  (forall (points : list Fix) (cfg : config),
     exists ps : list pause_info.t,
       detect_pauses points cfg = ret (ps, points) /\
       Forall (fun p =>
         (pause_info.start_index p <= pause_info.end_index p)%Z /\
         pause_info.nb_points p =
           (pause_info.end_index p - pause_info.start_index p + 1)%Z /\
         (1 <= pause_info.nb_points p)%Z) ps) /\
  (forall (points : list Fix) (cfg : config),
     (2 <= len points)%Z ->
     exists (st : scan_state) (tail : list pause_info.t),
       run_scan points cfg = ret st /\
       Forall (fun p => (pause_info.start_index p < pause_info.end_index p)%Z)
         (pauses st) /\
       detect_pauses points cfg = ret (pauses st ++ tail, points) /\
       (length tail <= 1)%nat) /\
  (exists (points : list Fix) (p : pause_info.t),
     detect_pauses points default_config = ret ([p], points) /\
     pause_info.end_index p = pause_info.start_index p /\
     pause_info.nb_points p = 1%Z /\
     pause_info.duration_seconds p = 0).
Proof.
  split; [| split].
  - intros points cfg.
    destruct (Z.ltb_spec (len points) 2) as [Hshort | Hlong].
    + exists []. split; [apply detect_pauses_short; assumption | constructor].
    + destruct (detect_pauses_value points cfg Hlong) as [st [_ [Hinv Hdet]]].
      eexists. split; [exact Hdet |].
      apply Forall_app. split.
      * eapply Forall_impl; [| apply (inv_closed _ _ _ Hinv)].
        intros p [H1 H2]. cbv beta. lia.
      * destruct (open_tail_cases points st Hinv) as [[_ ->] | [si [Hsi [_ ->]]]];
          [constructor |].
        constructor; [| constructor].
        cbn [closure_info pause_info.start_index pause_info.end_index pause_info.nb_points].
        lia.
  - intros points cfg Hlong.
    destruct (detect_pauses_value points cfg Hlong) as [st [Hrun [Hinv Hdet]]].
    exists st, (open_tail points st). split; [exact Hrun |]. split; [| split].
    + eapply Forall_impl; [| apply (inv_closed _ _ _ Hinv)].
      intros p [H1 _]. exact H1.
    + exact Hdet.
    + destruct (open_tail_cases points st Hinv) as [[_ ->] | [si [_ [_ ->]]]];
        cbn [length]; lia.
  - exists [mkFix 0 0 0; mkFix 0 180 0], (closure_info [mkFix 0 0 0; mkFix 0 180 0] 1 1).
    split; [| split; [reflexivity | split; [reflexivity |]]].
    + rewrite detect_two_fixes. unfold two_fix_pauses. cbv zeta.
      rewrite geodesic_half_turn. cbn [ts].
      change (0 + timedelta 45 <? 0)%Z with false.
      pose proof PI2_3_2 as Hpi.
      rewrite (fltb_false (6371000 * PI) 30) by lra.
      change (0 - 0)%Z with 0%Z. rewrite total_seconds_zero.
      rewrite (feqb_true 0 0) by reflexivity. reflexivity.
    + cbn [closure_info pause_info.duration_seconds].
      rewrite Z.sub_diag. apply total_seconds_zero.
Qed.

Lemma pause_index_bounds_witness :
  exists (st : scan_state) (tail : list pause_info.t),
    run_scan [mkFix 0 0 0; mkFix 0 0 1000000] default_config = ret st /\
    Forall (fun p => (pause_info.start_index p < pause_info.end_index p)%Z)
      (pauses st) /\
    detect_pauses [mkFix 0 0 0; mkFix 0 0 1000000] default_config =
      ret (pauses st ++ tail, [mkFix 0 0 0; mkFix 0 0 1000000]) /\
    (length tail <= 1)%nat.
Proof.
  apply (proj1 (proj2 pause_index_bounds) [mkFix 0 0 0; mkFix 0 0 1000000] default_config).
  vm_compute. discriminate.
Defined.

(** * Further properties of the module *)

(** ** [haversine]: range and distances along a great circle *)

Lemma atan2_quarter (y x : R) : 0 <= y -> 0 <= x -> math.atan2 y x <= PI / 2.
Proof.
  intros Hy Hx. unfold math.atan2. pose proof PI_RGT_0 as Hpi.
  destruct (Rlt_dec 0 x) as [Hx0 | Hx0].
  - rewrite (fltb_true 0 x) by assumption.
    pose proof (atan_bound (y / x)) as [_ Hb]. lra.
  - rewrite (fltb_false 0 x) by lra. rewrite (fltb_false x 0) by lra.
    destruct (Rlt_dec 0 y).
    + rewrite (fltb_true 0 y) by assumption. lra.
    + rewrite (fltb_false 0 y) by lra. rewrite (fltb_false y 0) by lra. lra.
Qed.

(** A distance that [haversine] returns is never negative and never more
    than half the circumference of the sphere. *)
Theorem haversine_range (lat1 lon1 lat2 lon2 d : R) :
  haversine lat1 lon1 lat2 lon2 = ret d -> 0 <= d <= 6371000 * PI.
Proof.
  rewrite haversine_returns. intros H. injection H as <-.
  split; [apply great_circle_nonneg |].
  unfold great_circle. cbv zeta.
  pose proof (atan2_quarter _ _
    (sqrt_pos (haversine_a (math.radians lat1) (math.radians lon1)
       (math.radians lat2) (math.radians lon2)))
    (sqrt_pos (1 - haversine_a (math.radians lat1) (math.radians lon1)
       (math.radians lat2) (math.radians lon2)))).
  lra.
Qed.

Lemma haversine_range_witness : 0 <= 0 <= 6371000 * PI.
Proof.
  apply (haversine_range 0 0 0 0 0).
  rewrite haversine_returns, great_circle_same. reflexivity.
Defined.

Lemma atan2_sin_cos (v : R) :
  0 <= v <= PI / 2 -> math.atan2 (sin v) (cos v) = v.
Proof.
  intros [H0 H1]. unfold math.atan2. pose proof PI_RGT_0 as Hpi.
  destruct (Req_dec_T v (PI / 2)) as [-> | Hne].
  - rewrite cos_PI2, sin_PI2.
    rewrite (fltb_false 0 0) by lra. rewrite (fltb_true 0 1) by lra. reflexivity.
  - assert (Hc : 0 < cos v) by (apply cos_gt_0; lra).
    rewrite (fltb_true _ _ Hc).
    change (sin v / cos v) with (tan v). apply atan_tan. lra.
Qed.

Lemma half_angle_arc (a v : R) :
  0 <= v <= PI / 2 -> a = sin v ^ 2 ->
  2 * math.atan2 (R_sqrt.sqrt a) (R_sqrt.sqrt (1 - a)) = 2 * v.
Proof.
  intros Hv ->. pose proof PI_RGT_0 as Hpi.
  assert (Hs : 0 <= sin v) by (apply sin_ge_0; lra).
  assert (Hc : 0 <= cos v) by (apply cos_ge_0; lra).
  rewrite sqrt_pow2 by assumption.
  replace (1 - sin v ^ 2) with (cos v ^ 2).
  - rewrite sqrt_pow2 by assumption. rewrite atan2_sin_cos by assumption. reflexivity.
  - pose proof (sin2_cos2 v) as H. unfold Rsqr in H. lra.
Qed.

Lemma sin_abs_sq (u : R) : sin u ^ 2 = sin (Rabs u) ^ 2.
Proof.
  unfold Rabs. destruct (Rcase_abs u); [| reflexivity].
  rewrite sin_neg. ring.
Qed.

(** Along a meridian, and along the equator, the distance is the radius
    times the angle between the two points, for angles up to 180 degrees. *)
Theorem haversine_meridian_equator (x1 x2 l : R) :
  Rabs (x2 - x1) <= 180 ->
  haversine x1 l x2 l = ret (6371000 * (Rabs (x2 - x1) * (PI / 180))) /\
  haversine 0 x1 0 x2 = ret (6371000 * (Rabs (x2 - x1) * (PI / 180))).
Proof.
  intros Hx. pose proof PI_RGT_0 as Hpi.
  pose proof (Rabs_pos (x2 - x1)) as Hpos.
  assert (Hv : 0 <= Rabs (x2 - x1) * (PI / 180) / 2 <= PI / 2).
  { split; [apply Rmult_le_pos; [apply Rmult_le_pos |]; lra |].
    replace (PI / 2) with (180 * (PI / 180) / 2) by lra.
    apply Rmult_le_compat_r; [lra |]. apply Rmult_le_compat_r; lra. }
  assert (Habs : Rabs ((x2 * (PI / 180) - x1 * (PI / 180)) / 2) =
                 Rabs (x2 - x1) * (PI / 180) / 2).
  { replace ((x2 * (PI / 180) - x1 * (PI / 180)) / 2)
      with ((x2 - x1) * (PI / 180 / 2)) by lra.
    rewrite Rabs_mult. rewrite (Rabs_pos_eq (PI / 180 / 2)) by lra. lra. }
  split; rewrite haversine_returns; unfold ret; f_equal;
    unfold great_circle; cbv zeta; unfold math.radians.
  - rewrite (half_angle_arc _ (Rabs (x2 - x1) * (PI / 180) / 2) Hv); [lra |].
    unfold haversine_a. cbv zeta.
    replace ((l * (PI / 180) - l * (PI / 180)) / 2) with 0 by lra.
    rewrite sin_0, sin_abs_sq, Habs. ring.
  - rewrite (half_angle_arc _ (Rabs (x2 - x1) * (PI / 180) / 2) Hv); [lra |].
    unfold haversine_a. cbv zeta.
    replace ((0 * (PI / 180) - 0 * (PI / 180)) / 2) with 0 by lra.
    replace (0 * (PI / 180)) with 0 by lra.
    rewrite sin_0, cos_0, (sin_abs_sq ((x2 * (PI / 180) - x1 * (PI / 180)) / 2)), Habs.
    ring.
Qed.

Lemma haversine_meridian_equator_witness :
  haversine 10 5 11 5 = ret (6371000 * (Rabs (11 - 10) * (PI / 180))) /\
  haversine 0 10 0 11 = ret (6371000 * (Rabs (11 - 10) * (PI / 180))).
Proof.
  apply (haversine_meridian_equator 10 11 5).
  replace (11 - 10) with 1 by lra. rewrite Rabs_R1. lra.
Defined.

(** ** [calculate_max_distance_window]: the maximum over the window *)

Lemma window_scan_spec (points : list Fix) (e : Z) (m : nat) :
  forall (j : Z) (acc : list Fix),
    (0 <= j)%Z -> (j + Z.of_nat m = len points)%Z ->
    exists c : Z,
      (0 <= c <= len points - j)%Z /\
      window_scan points e (range j (len points)) acc =
        ret (acc ++ map (fix_at points) (range j (j + c))) /\
      (forall k, (j <= k < j + c)%Z -> (ts (fix_at points k) <= e)%Z) /\
      ((j + c < len points)%Z -> (e < ts (fix_at points (j + c)))%Z).
Proof.
  induction m as [| m IH]; intros j acc Hj Hm.
  - exists 0%Z. rewrite range_nil by lia. rewrite range_nil by lia.
    cbn [window_scan map]. rewrite app_nil_r. repeat split; try lia.
  - rewrite range_cons by lia. cbn [window_scan].
    rewrite getitem_fix by lia. cbn [bind ret].
    destruct (Z.leb_spec (ts (fix_at points j)) e) as [Hin | Hout].
    + destruct (IH (j + 1)%Z (acc ++ [fix_at points j])) as [c [Hc [Hrun [Hall Hstop]]]];
        [lia | lia |].
      exists (c + 1)%Z. repeat split; try lia.
      * rewrite Hrun. rewrite (range_cons j (j + (c + 1))) by lia.
        cbn [map]. rewrite <- app_assoc. cbn [app].
        replace (j + 1 + c)%Z with (j + (c + 1))%Z by lia. reflexivity.
      * intros k Hk. destruct (Z.eq_dec k j) as [-> | Hne]; [exact Hin |].
        apply Hall. lia.
      * intros Hlt. replace (j + (c + 1))%Z with (j + 1 + c)%Z by lia.
        apply Hstop. lia.
    + exists 0%Z. rewrite (range_nil j (j + 0)) by lia. cbn [map].
      rewrite app_nil_r. repeat split; try lia.
      intros _. rewrite Z.add_0_r. exact Hout.
Qed.

Lemma max_inner_spec (p : Fix) (others : list Fix) :
  forall m0 : R,
    exists m : R,
      max_inner (lat p) (lon p) others m0 = ret m /\
      m0 <= m /\
      (forall q, In q others -> geodesic p q <= m) /\
      (m = m0 \/ exists q, In q others /\ m = geodesic p q).
Proof.
  induction others as [| q rest IH]; intros m0; cbn [max_inner].
  - exists m0. split; [reflexivity |]. split; [lra |].
    split; [intros q [] | left; reflexivity].
  - rewrite haversine_returns. cbn [bind ret]. fold (geodesic p q).
    destruct (Rlt_dec m0 (geodesic p q)) as [Hlt | Hge].
    + rewrite (fltb_true _ _ Hlt).
      destruct (IH (geodesic p q)) as [m [Hrun [Hle [Hall Hatt]]]].
      exists m. split; [exact Hrun |]. split; [lra |]. split.
      * intros q' [<- | Hq']; [exact Hle | apply Hall; exact Hq'].
      * right. destruct Hatt as [-> | [q' [Hq' ->]]].
        -- exists q. split; [left; reflexivity | reflexivity].
        -- exists q'. split; [right; exact Hq' | reflexivity].
    + rewrite (fltb_false m0 _) by lra.
      destruct (IH m0) as [m [Hrun [Hle [Hall Hatt]]]].
      exists m. split; [exact Hrun |]. split; [exact Hle |]. split.
      * intros q' [<- | Hq']; [lra | apply Hall; exact Hq'].
      * destruct Hatt as [-> | [q' [Hq' ->]]]; [left; reflexivity |].
        right. exists q'. split; [right; exact Hq' | reflexivity].
Qed.

Lemma max_pairs_spec (w : list Fix) :
  forall m0 : R,
    exists m : R,
      max_pairs w m0 = ret m /\
      m0 <= m /\
      (forall (a b : nat) (pa pb : Fix),
         nth_error w a = Some pa -> nth_error w b = Some pb -> (a < b)%nat ->
         geodesic pa pb <= m) /\
      (m = m0 \/
       exists (a b : nat) (pa pb : Fix),
         nth_error w a = Some pa /\ nth_error w b = Some pb /\ (a < b)%nat /\
         m = geodesic pa pb).
Proof.
  induction w as [| p rest IH]; intros m0; cbn [max_pairs].
  - exists m0. split; [reflexivity |]. split; [lra |]. split.
    + intros a b pa pb Ha. destruct a; discriminate.
    + left. reflexivity.
  - destruct (max_inner_spec p rest m0) as [m1 [Hrun1 [Hle1 [Hall1 Hatt1]]]].
    rewrite Hrun1. cbn [bind ret].
    destruct (IH m1) as [m [Hrun [Hle [Hall Hatt]]]].
    exists m. split; [exact Hrun |]. split; [lra |]. split.
    + intros a b pa pb Ha Hb Hab.
      destruct b as [| b]; [lia |]. cbn [nth_error] in Hb.
      destruct a as [| a]; cbn [nth_error] in Ha.
      * injection Ha as <-. apply nth_error_In in Hb.
        specialize (Hall1 _ Hb). lra.
      * apply (Hall a b pa pb Ha Hb). lia.
    + destruct Hatt as [-> | [a [b [pa [pb [Ha [Hb [Hab ->]]]]]]]].
      * destruct Hatt1 as [-> | [q [Hq ->]]]; [left; reflexivity |].
        right. apply In_nth_error in Hq. destruct Hq as [b Hb].
        exists 0%nat, (S b), p, q. repeat split; [exact Hb | lia].
      * right. exists (S a), (S b), pa, pb. repeat split; [exact Ha | exact Hb | lia].
Qed.

Lemma nth_map_seq {A : Type} (f : nat -> A) (n a : nat) (d : A) :
  (a < n)%nat -> nth a (map f (seq 0 n)) d = f a.
Proof.
  intros H. rewrite (nth_indep _ d (f 0%nat)) by (rewrite length_map, length_seq; lia).
  rewrite map_nth, seq_nth by lia. reflexivity.
Qed.

Lemma nth_error_fix_range (points : list Fix) (i k : Z) (a : nat) (p : Fix) :
  (0 <= k)%Z ->
  nth_error (map (fix_at points) (range i (i + k))) a = Some p ->
  (Z.of_nat a < k)%Z /\ p = fix_at points (i + Z.of_nat a).
Proof.
  intros Hk H.
  assert (Hlen : (a < length (map (fix_at points) (range i (i + k))))%nat)
    by (apply nth_error_Some; congruence).
  unfold range in *. rewrite !length_map, length_seq in Hlen.
  split; [lia |].
  rewrite map_map in H.
  rewrite (nth_error_nth' _ origin) in H by (rewrite length_map, length_seq; lia).
  injection H as <-.
  rewrite nth_map_seq by lia. reflexivity.
Qed.

Lemma max_distance_window_value (points : list Fix) (i duration_seconds : Z) :
  (0 <= i < len points)%Z ->
  let bound := (ts (fix_at points i) + timedelta duration_seconds)%Z in
  exists (k : Z) (m : R),
    (1 <= k <= len points - i)%Z /\
    (forall j, (i < j < i + k)%Z -> (ts (fix_at points j) <= bound)%Z) /\
    ((i + k < len points)%Z -> (bound < ts (fix_at points (i + k)))%Z) /\
    calculate_max_distance_window points i duration_seconds = ret m /\
    0 <= m /\
    (forall a b, (i <= a < b)%Z -> (b < i + k)%Z ->
       geodesic (fix_at points a) (fix_at points b) <= m) /\
    (m = 0 \/
     exists a b, (i <= a < b)%Z /\ (b < i + k)%Z /\
       m = geodesic (fix_at points a) (fix_at points b)).
Proof.
  intros Hi. cbv zeta. unfold calculate_max_distance_window.
  rewrite getitem_fix by assumption. cbn [bind ret].
  destruct (window_scan_spec points (ts (fix_at points i) + timedelta duration_seconds)%Z
              (Z.to_nat (len points - (i + 1))) (i + 1)%Z [fix_at points i])
    as [c [Hc [Hrun [Hall Hstop]]]]; [lia | lia |].
  rewrite Hrun. cbn [bind ret].
  assert (Hw : [fix_at points i] ++ map (fix_at points) (range (i + 1) (i + 1 + c)) =
               map (fix_at points) (range i (i + (c + 1)))).
  { rewrite (range_cons i (i + (c + 1))) by lia. cbn [map app].
    replace (i + 1 + c)%Z with (i + (c + 1))%Z by lia. reflexivity. }
  rewrite Hw.
  destruct (max_pairs_spec (map (fix_at points) (range i (i + (c + 1)))) 0)
    as [m [Hm [Hge [Hpairs Hatt]]]].
  exists (c + 1)%Z, m. split; [lia |]. split; [intros j Hj; apply Hall; lia |].
  split; [intros Hlt; replace (i + (c + 1))%Z with (i + 1 + c)%Z by lia; apply Hstop; lia |].
  split; [exact Hm |]. split; [exact Hge |]. split.
  - intros a b Hab Hb.
    assert (Hnth : forall x, (i <= x < i + (c + 1))%Z ->
              nth_error (map (fix_at points) (range i (i + (c + 1)))) (Z.to_nat (x - i)) =
              Some (fix_at points x)).
    { intros x Hx. unfold range. rewrite map_map.
      rewrite (nth_error_nth' _ origin) by (rewrite length_map, length_seq; lia).
      rewrite nth_map_seq by lia. do 2 f_equal. lia. }
    apply (Hpairs (Z.to_nat (a - i)) (Z.to_nat (b - i))); [apply Hnth | apply Hnth |]; lia.
  - destruct Hatt as [-> | [a [b [pa [pb [Ha [Hb [Hab ->]]]]]]]]; [left; reflexivity |].
    right.
    destruct (nth_error_fix_range points i (c + 1) a pa ltac:(lia) Ha) as [Ha1 ->].
    destruct (nth_error_fix_range points i (c + 1) b pb ltac:(lia) Hb) as [Hb1 ->].
    exists (i + Z.of_nat a)%Z, (i + Z.of_nat b)%Z. repeat split; lia.
Qed.

(** At a valid index the query returns the largest distance between two
    fixes of the window: the window is the run of fixes from [i] whose
    timestamps are at most [Fix[i].timestamp + duration], cut at the first
    later fix; every pair of the window is within the result, and the result
    is 0 or the distance of some pair. *)
Theorem max_distance_window_is_maximum (points : list Fix) (i duration_seconds : Z) :
  (0 <= i < len points)%Z ->
  let bound := (ts (fix_at points i) + timedelta duration_seconds)%Z in
  exists (k : Z) (m : R),
    (1 <= k <= len points - i)%Z /\
    (forall j, (i < j < i + k)%Z -> (ts (fix_at points j) <= bound)%Z) /\
    ((i + k < len points)%Z -> (bound < ts (fix_at points (i + k)))%Z) /\
    calculate_max_distance_window points i duration_seconds = ret m /\
    0 <= m /\
    (forall a b, (i <= a < b)%Z -> (b < i + k)%Z ->
       geodesic (fix_at points a) (fix_at points b) <= m) /\
    (m = 0 \/
     exists a b, (i <= a < b)%Z /\ (b < i + k)%Z /\
       m = geodesic (fix_at points a) (fix_at points b)).
Proof. apply max_distance_window_value. Qed.

Lemma max_distance_window_is_maximum_witness :
  let points := [mkFix 0 0 0; mkFix 0 0 1000000] in
  let bound := (ts (fix_at points 0) + timedelta 45)%Z in
  exists (k : Z) (m : R),
    (1 <= k <= len points - 0)%Z /\
    (forall j, (0 < j < 0 + k)%Z -> (ts (fix_at points j) <= bound)%Z) /\
    ((0 + k < len points)%Z -> (bound < ts (fix_at points (0 + k)))%Z) /\
    calculate_max_distance_window points 0 45 = ret m /\
    0 <= m /\
    (forall a b, (0 <= a < b)%Z -> (b < 0 + k)%Z ->
       geodesic (fix_at points a) (fix_at points b) <= m) /\
    (m = 0 \/
     exists a b, (0 <= a < b)%Z /\ (b < 0 + k)%Z /\
       m = geodesic (fix_at points a) (fix_at points b)).
Proof.
  apply (max_distance_window_is_maximum [mkFix 0 0 0; mkFix 0 0 1000000] 0 45).
  vm_compute. split; [discriminate | reflexivity].
Defined.

(** ** Indices beyond the end of the track *)

Lemma getitem_beyond {A : Type} (l : list A) (i : Z) :
  (len l <= i)%Z -> getitem l i = raise IndexError.
Proof.
  intros H. unfold getitem, len in *.
  destruct (Z.ltb_spec i 0); [lia |].
  destruct (Z.ltb_spec i 0); [lia |].
  destruct (nth_error l (Z.to_nat i)) eqn:E; [| reflexivity].
  assert (Z.to_nat i < length l)%nat by (apply nth_error_Some; congruence). lia.
Qed.

Lemma pace_totals_beyond (points : list Fix) (i : Z) (m : nat) :
  forall (s : Z) (d t : R),
    (0 <= s < i)%Z -> (len points <= i)%Z -> Z.to_nat (i - s) = m ->
    pace_totals points (range s i) d t = raise IndexError.
Proof.
  induction m as [| m IH]; intros s d t Hs Hi Hm; [lia |].
  rewrite range_cons by lia. cbn [pace_totals].
  destruct (Z.le_gt_cases (len points) s) as [Hout | Hin].
  - rewrite getitem_beyond by assumption. reflexivity.
  - rewrite (getitem_fix points s) by lia. cbn [bind ret].
    destruct (Z.le_gt_cases (len points) (s + 1)) as [Hout1 | Hin1].
    + rewrite getitem_beyond by assumption. reflexivity.
    + rewrite (getitem_fix points (s + 1)) by lia. cbn [bind ret].
      rewrite haversine_returns. cbn [bind ret]. apply IH; lia.
Qed.

Lemma instantaneous_loop_beyond (points : list Fix) (e : Z) (m : nat) :
  forall (s : Z) (acc : list R),
    (0 <= s < e)%Z -> (len points <= e)%Z -> Z.to_nat (e - s) = m ->
    instantaneous_loop points (range s e) acc = raise IndexError.
Proof.
  induction m as [| m IH]; intros s acc Hs He Hm; [lia |].
  rewrite range_cons by lia. cbn [instantaneous_loop].
  destruct (Z.le_gt_cases (len points) s) as [Hout | Hin].
  - rewrite getitem_beyond by assumption. reflexivity.
  - rewrite (getitem_fix points s) by lia. cbn [bind ret].
    destruct (Z.le_gt_cases (len points) (s + 1)) as [Hout1 | Hin1].
    + rewrite getitem_beyond by assumption. reflexivity.
    + rewrite (getitem_fix points (s + 1)) by lia. cbn [bind ret].
      rewrite haversine_returns. cbn [bind ret].
      destruct (fltb 0 _ && fltb 0 _) eqn:E.
      * apply andb_true_iff in E. destruct E as [Ed _]. apply fltb_iff in Ed.
        unfold truediv. rewrite feqb_false by lra. cbn [bind ret]. apply IH; lia.
      * apply IH; lia.
Qed.

(** An index at or beyond the end of the track makes each query raise
    [IndexError] (index 0 on an empty track apart, where the pace and density
    queries return "no data" before they read a point). *)
Theorem index_beyond_track_raises (points : list Fix) (i : Z) :
  (len points <= i)%Z -> (0 < i)%Z ->
  (forall w, calculate_max_distance_window points i w = raise IndexError) /\
  (forall n, (1 <= n)%Z ->
     calculate_average_pace_last_points points i n = raise IndexError) /\
  (forall w, calculate_point_density_last_seconds points i w = raise IndexError) /\
  (forall s, (0 <= s < i)%Z -> (0 < len points)%Z ->
     calculate_average_pace_during_pause points s i = raise IndexError).
Proof.
  intros Hi Hpos. repeat split.
  - intros w. unfold calculate_max_distance_window.
    rewrite getitem_beyond by assumption. reflexivity.
  - intros n Hn. unfold calculate_average_pace_last_points.
    set (s := if (i <? n)%Z then 0%Z else (i - n)%Z).
    assert (Hs : (0 <= s < i)%Z) by (subst s; destruct (Z.ltb_spec i n); lia).
    destruct (Z.leb_spec i s); [lia |].
    rewrite (pace_totals_beyond points i (Z.to_nat (i - s))) by (try reflexivity; lia).
    reflexivity.
  - intros w. unfold calculate_point_density_last_seconds.
    destruct (Z.eqb_spec i 0); [lia |].
    rewrite getitem_beyond by assumption. reflexivity.
  - intros s Hs Hlen. unfold calculate_average_pace_during_pause.
    destruct (Z.eqb_spec (len points) 0); [lia |].
    destruct (Z.leb_spec i s); [lia |]. cbn [orb].
    rewrite (instantaneous_loop_beyond points i (Z.to_nat (i - s))) by (try reflexivity; lia).
    reflexivity.
Qed.

Lemma index_beyond_track_raises_witness :
  (forall w, calculate_max_distance_window [mkFix 0 0 0] 1 w = raise IndexError) /\
  (forall n, (1 <= n)%Z ->
     calculate_average_pace_last_points [mkFix 0 0 0] 1 n = raise IndexError) /\
  (forall w, calculate_point_density_last_seconds [mkFix 0 0 0] 1 w = raise IndexError) /\
  (forall s, (0 <= s < 1)%Z -> (0 < len [mkFix 0 0 0])%Z ->
     calculate_average_pace_during_pause [mkFix 0 0 0] s 1 = raise IndexError).
Proof.
  apply (index_beyond_track_raises [mkFix 0 0 0] 1).
  - vm_compute. discriminate.
  - lia.
Defined.

(** ** Sorted tracks *)

Lemma nondecreasing_nth (l : list Z) :
  nondecreasing l = true ->
  forall a b : nat, (a <= b)%nat -> (b < length l)%nat -> (nth a l 0 <= nth b l 0)%Z.
Proof.
  induction l as [| x rest IH]; intros Hs a b Hab Hb; [cbn in Hb; lia |].
  destruct b as [| b].
  - assert (a = 0%nat) by lia. subst a. lia.
  - cbn [length] in Hb.
    destruct rest as [| y rest']; [cbn in Hb; lia |].
    cbn [nondecreasing] in Hs. apply andb_true_iff in Hs. destruct Hs as [Hxy Hrest].
    apply Z.leb_le in Hxy.
    destruct a as [| a].
    + specialize (IH Hrest 0%nat b ltac:(lia) ltac:(lia)).
      cbn [nth] in *. lia.
    + cbn [nth]. apply (IH Hrest a b); lia.
Qed.

Lemma sorted_track_le (points : list Fix) (j k : Z) :
  sorted_track points -> (0 <= j <= k)%Z -> (k < len points)%Z ->
  (ts (fix_at points j) <= ts (fix_at points k))%Z.
Proof.
  intros Hs Hj Hk. unfold fix_at.
  rewrite <- !(map_nth ts). change (ts origin) with 0%Z.
  apply nondecreasing_nth; [exact Hs | lia |].
  rewrite length_map. unfold len in Hk. lia.
Qed.

Lemma total_seconds_plus (x y : Z) :
  total_seconds x + total_seconds y = total_seconds (x + y).
Proof. unfold total_seconds. rewrite plus_IZR. lra. Qed.

Lemma total_seconds_zero_iff (z : Z) : total_seconds z = 0 <-> z = 0%Z.
Proof.
  unfold total_seconds. split.
  - intros H. apply eq_IZR. lra.
  - intros ->. lra.
Qed.

Lemma total_seconds_pos (z : Z) : (0 < z)%Z -> 0 < total_seconds z.
Proof. intros H. unfold total_seconds. apply IZR_lt in H. lra. Qed.

Lemma total_elapsed_snoc (points : list Fix) (a b : Z) :
  (a <= b)%Z ->
  total_elapsed points a (b + 1) = total_elapsed points a b + segment_seconds points b.
Proof.
  intros H. unfold total_elapsed. rewrite range_snoc by assumption.
  rewrite sum_over_app. cbn [sum_over fold_right]. lra.
Qed.

Lemma total_elapsed_telescope (points : list Fix) (a : Z) (m : nat) :
  total_elapsed points a (a + Z.of_nat m) =
  total_seconds (ts (fix_at points (a + Z.of_nat m)) - ts (fix_at points a)).
Proof.
  induction m as [| m IH].
  - rewrite Z.add_0_r. unfold total_elapsed. rewrite range_nil by lia.
    rewrite Z.sub_diag. cbn [sum_over fold_right]. symmetry. apply total_seconds_zero.
  - replace (a + Z.of_nat (S m))%Z with (a + Z.of_nat m + 1)%Z by lia.
    rewrite total_elapsed_snoc by lia. rewrite IH.
    unfold segment_seconds. rewrite total_seconds_plus. f_equal. lia.
Qed.

Lemma total_meters_nonneg (points : list Fix) (a b : Z) : 0 <= total_meters points a b.
Proof.
  unfold total_meters, sum_over.
  induction (range a b) as [| k rest IH]; cbn [fold_right]; [lra |].
  pose proof (geodesic_nonneg (fix_at points k) (fix_at points (k + 1))) as H.
  fold (segment_meters points k) in H. lra.
Qed.

(** On a sorted track the time the pace query divides by is the time between
    the two end fixes of its range, so the query returns "no data" exactly
    when the path between them has length 0 or both carry the same timestamp;
    a pace it returns is positive. *)
Theorem average_pace_between_end_fixes (points : list Fix) (i n : Z) :
  sorted_track points ->
  (0 < i < len points)%Z -> (1 <= n)%Z ->
  let start := Z.max 0 (i - n) in
  let meters := total_meters points start i in
  let elapsed := total_seconds (ts (fix_at points i) - ts (fix_at points start)) in
  exists r : option R,
    calculate_average_pace_last_points points i n = ret r /\
    (r = None <-> meters = 0 \/ ts (fix_at points i) = ts (fix_at points start)) /\
    (forall v, r = Some v -> v = elapsed / meters * 1000 / 60 /\ 0 < v).
Proof.
  intros Hsorted Hi Hn. cbv zeta.
  rewrite average_pace_value by lia. cbv zeta.
  replace (if (i <? n)%Z then 0%Z else (i - n)%Z) with (Z.max 0 (i - n))
    by (destruct (Z.ltb_spec i n); lia).
  set (s := Z.max 0 (i - n)).
  assert (Hs : (0 <= s < i)%Z) by (subst s; lia).
  destruct (Z.leb_spec i s); [lia |].
  assert (Hel : total_elapsed points s i =
                total_seconds (ts (fix_at points i) - ts (fix_at points s))).
  { replace i with (s + Z.of_nat (Z.to_nat (i - s)))%Z at 1 2 by lia.
    apply total_elapsed_telescope. }
  rewrite Hel.
  pose proof (total_meters_nonneg points s i) as Hm.
  eexists. split; [reflexivity |].
  destruct (Req_dec_T (total_meters points s i) 0) as [Hz | Hnz].
  { rewrite (feqb_true _ _ Hz). cbn [orb]. split.
    - split; [intros _; left; exact Hz | reflexivity].
    - discriminate. }
  rewrite (feqb_false _ _ Hnz). cbn [orb].
  destruct (Req_dec_T (total_seconds (ts (fix_at points i) - ts (fix_at points s))) 0)
    as [Hz | Htnz].
  { rewrite (feqb_true _ _ Hz). split.
    - split; [| reflexivity]. intros _. right.
      apply total_seconds_zero_iff in Hz. lia.
    - discriminate. }
  rewrite (feqb_false _ _ Htnz). split.
  - split; [discriminate |]. intros [Hc | Hc]; [contradiction |].
    exfalso. apply Htnz. rewrite Hc, Z.sub_diag. apply total_seconds_zero.
  - intros v Hv. injection Hv as <-. split; [reflexivity |].
    pose proof (sorted_track_le points s i Hsorted ltac:(lia) ltac:(lia)) as Hle.
    assert (Hpos : 0 < total_seconds (ts (fix_at points i) - ts (fix_at points s))).
    { apply total_seconds_pos.
      assert (ts (fix_at points i) - ts (fix_at points s) <> 0)%Z
        by (intros E; apply Htnz; rewrite E; apply total_seconds_zero).
      lia. }
    assert (0 < total_seconds (ts (fix_at points i) - ts (fix_at points s)) /
                total_meters points s i) by (apply Rdiv_lt_0_compat; lra).
    lra.
Qed.

Lemma average_pace_between_end_fixes_witness :
  let points := [mkFix 0 0 0; mkFix 0 0 1000000] in
  let start := Z.max 0 (1 - 10) in
  let meters := total_meters points start 1 in
  let elapsed := total_seconds (ts (fix_at points 1) - ts (fix_at points start)) in
  exists r : option R,
    calculate_average_pace_last_points points 1 10 = ret r /\
    (r = None <-> meters = 0 \/ ts (fix_at points 1) = ts (fix_at points start)) /\
    (forall v, r = Some v -> v = elapsed / meters * 1000 / 60 /\ 0 < v).
Proof.
  apply (average_pace_between_end_fixes [mkFix 0 0 0; mkFix 0 0 1000000] 1 10).
  - reflexivity.
  - vm_compute. split; reflexivity.
  - lia.
Defined.

(** ** The density query on a sorted track *)

(** On a sorted track and for a window of non-negative length, the backward
    scan misses nothing: the fixes it counts are exactly the fixes up to [i]
    that are not older than the window.  A density it returns is positive
    and at least 2 fixes per window length. *)
Theorem density_on_sorted_track (points : list Fix) (i duration_seconds : Z) :
  sorted_track points -> (0 < i < len points)%Z -> (0 <= duration_seconds)%Z ->
  let bound := (ts (fix_at points i) - timedelta duration_seconds)%Z in
  exists (count : Z) (r : option R),
    (1 <= count <= i + 1)%Z /\
    (forall k, (0 <= k <= i)%Z ->
       ((bound <= ts (fix_at points k))%Z <-> (i - count < k)%Z)) /\
    calculate_point_density_last_seconds points i duration_seconds = ret r /\
    (r = None <->
     (count < 2)%Z \/ ts (fix_at points (i - count + 1)) = ts (fix_at points i)) /\
    (forall v, r = Some v -> 0 < v /\ 2 <= v * IZR duration_seconds).
Proof.
  intros Hsorted Hi Hdur. cbv zeta.
  destruct (density_count_spec points
              (ts (fix_at points i) - timedelta duration_seconds)%Z
              (Z.to_nat (i + 1)) i 0%Z eq_refl) as [c [Hc [Hrun [Hall Hstop]]]]; [lia |].
  assert (Hc1 : (1 <= c)%Z).
  { destruct (Z.le_gt_cases 1 c) as [H | H]; [exact H |].
    assert (c = 0)%Z by lia. subst c.
    specialize (Hstop ltac:(lia)). rewrite Z.sub_0_r in Hstop.
    unfold timedelta in Hstop. lia. }
  unfold calculate_point_density_last_seconds.
  destruct (Z.eqb_spec i 0); [lia |].
  rewrite getitem_fix by lia. cbn [bind ret].
  rewrite Hrun. cbn [bind ret]. rewrite Z.add_0_l.
  exists c.
  assert (Hiff : forall k, (0 <= k <= i)%Z ->
            ((ts (fix_at points i) - timedelta duration_seconds <= ts (fix_at points k))%Z <->
             (i - c < k)%Z)).
  { intros k Hk. split.
    - intros Hb. destruct (Z.le_gt_cases k (i - c)) as [Hle | Hgt]; [| lia].
      specialize (Hstop ltac:(lia)).
      pose proof (sorted_track_le points k (i - c) Hsorted ltac:(lia) ltac:(lia)). lia.
    - intros Hgt. apply Hall. lia. }
  destruct (Z.ltb_spec c 2) as [Hlt | Hge].
  { exists None. split; [lia |]. split; [exact Hiff |]. split; [reflexivity |]. split.
    - split; [intros _; left; exact Hlt | reflexivity].
    - discriminate. }
  rewrite (getitem_fix points (i - c + 1)) by lia. cbn [bind ret].
  set (tf := ts (fix_at points (i - c + 1))) in *.
  set (ti := ts (fix_at points i)) in *.
  assert (Hle : (tf <= ti)%Z)
    by (apply sorted_track_le; [exact Hsorted | lia | lia]).
  assert (Hwin : (ti - timedelta duration_seconds <= tf)%Z) by (apply Hall; lia).
  destruct (Z.eq_dec tf ti) as [Heq | Hneq].
  - rewrite Heq, Z.sub_diag, total_seconds_zero.
    rewrite (feqb_true 0 0) by reflexivity.
    exists None. split; [lia |]. split; [exact Hiff |]. split; [reflexivity |]. split.
    + split; [intros _; right; reflexivity | reflexivity].
    + discriminate.
  - assert (Hpos : 0 < total_seconds (ti - tf)) by (apply total_seconds_pos; lia).
    assert (Hbound : total_seconds (ti - tf) <= IZR duration_seconds).
    { apply total_seconds_le. unfold timedelta in Hwin. lia. }
    rewrite feqb_false by lra. unfold truediv. rewrite feqb_false by lra.
    cbn [bind ret]. eexists. split; [lia |]. split; [exact Hiff |].
    split; [reflexivity |]. split.
    + split; [discriminate |]. intros [H | H]; [lia | contradiction].
    + intros v Hv. injection Hv as <-.
      assert (Hcr : 2 <= IZR c) by (apply IZR_le in Hge; exact Hge).
      set (e := total_seconds (ti - tf)) in *.
      assert (Hq : 0 < / e) by (apply Rinv_0_lt_compat; exact Hpos).
      assert (Hone : / e * e = 1) by (field; lra).
      unfold Rdiv. split; [nra |].
      assert (H1 : 1 <= / e * IZR duration_seconds) by nra.
      nra.
Qed.

Lemma density_on_sorted_track_witness :
  let points := [mkFix 0 0 0; mkFix 0 0 1000000] in
  let bound := (ts (fix_at points 1) - timedelta 30)%Z in
  exists (count : Z) (r : option R),
    (1 <= count <= 1 + 1)%Z /\
    (forall k, (0 <= k <= 1)%Z ->
       ((bound <= ts (fix_at points k))%Z <-> (1 - count < k)%Z)) /\
    calculate_point_density_last_seconds points 1 30 = ret r /\
    (r = None <->
     (count < 2)%Z \/ ts (fix_at points (1 - count + 1)) = ts (fix_at points 1)) /\
    (forall v, r = Some v -> 0 < v /\ 2 <= v * IZR 30).
Proof.
  apply (density_on_sorted_track [mkFix 0 0 0; mkFix 0 0 1000000] 1 30).
  - reflexivity.
  - vm_compute. split; reflexivity.
  - lia.
Defined.

(** ** What [detect_pauses] records *)

Lemma loop_body_cases (points : list Fix) (cfg : config) (i : Z) (st st' : scan_state) :
  (0 <= i < len points)%Z -> scan_inv points i st ->
  loop_body points cfg (ts (fix_at points 0)) (cumulative points) i st = ret st' ->
  (in_pause st = false /\
   exists (md : R) (ap pd : option R),
     calculate_max_distance_window points i (time_window cfg) = ret md /\
     calculate_average_pace_last_points points i (nb_points_pace cfg) = ret ap /\
     calculate_point_density_last_seconds points i (density_window cfg) = ret pd /\
     st' = if start_criteria cfg md ap pd then started_at points i st else st) \/
  (exists (si : Z) (md : R) (ap : option R),
     (chain_end (-1) (pauses st) < si < i)%Z /\
     paused_since points si st /\
     calculate_max_distance_window points i (time_window_end cfg) = ret md /\
     calculate_average_pace_last_points points i (nb_points_pace_end cfg) = ret ap /\
     st' = if end_criteria cfg md ap then closed_at points si i st else st).
Proof.
  intros Hi Hinv Hrun.
  destruct (in_pause st) eqn:Hp.
  - right. destruct (inv_open _ _ _ Hinv Hp) as [si [Hsi Hps]].
    pose proof (chain_end_ge _ _ (inv_chain _ _ _ Hinv)) as Hge.
    destruct (max_distance_window_returns points i (time_window_end cfg) Hi) as [md Hmd].
    destruct (average_pace_returns points i (nb_points_pace_end cfg) (proj2 Hi))
      as [ap Hap].
    rewrite (loop_body_paused points cfg i si st md ap) in Hrun by (try assumption; lia).
    injection Hrun as <-.
    exists si, md, ap.
    split; [lia |]. split; [exact Hps |]. split; [exact Hmd |].
    split; [exact Hap | reflexivity].
  - left. split; [reflexivity |].
    destruct (max_distance_window_returns points i (time_window cfg) Hi) as [md Hmd].
    destruct (average_pace_returns points i (nb_points_pace cfg) (proj2 Hi)) as [ap Hap].
    destruct (density_returns points i (density_window cfg) Hi) as [pd Hpd].
    rewrite (loop_body_idle points cfg _ i st md ap pd Hi Hp Hmd Hap Hpd) in Hrun.
    injection Hrun as <-.
    exists md, ap, pd. repeat split; assumption.
Qed.

Lemma scan_with_invariant (points : list Fix) (cfg : config)
    (P : Z -> scan_state -> Prop) :
  (forall i st st',
     (0 <= i < len points)%Z -> scan_inv points i st -> P i st ->
     loop_body points cfg (ts (fix_at points 0)) (cumulative points) i st = ret st' ->
     P (i + 1)%Z st') ->
  P 0%Z initial_state -> (1 <= len points)%Z ->
  exists st,
    run_scan points cfg = ret st /\ scan_inv points (len points) st /\ P (len points) st.
Proof.
  intros Hstep Hinit Hlen.
  assert (Hgen : forall (m : nat) (i : Z) (st : scan_state),
             (0 <= i)%Z -> (i + Z.of_nat m = len points)%Z ->
             scan_inv points i st -> P i st ->
             exists st',
               scan points cfg (ts (fix_at points 0)) (cumulative points)
                 (range i (len points)) st = ret st' /\
               scan_inv points (len points) st' /\ P (len points) st').
  { induction m as [| m IH]; intros i st Hi Hm Hinv HP.
    - rewrite range_nil by lia. cbn [scan]. exists st. split; [reflexivity |].
      replace (len points) with i by lia. split; assumption.
    - rewrite range_cons by lia. cbn [scan].
      destruct (loop_body_inv points cfg i st) as [st1 [Hrun Hinv1]]; [lia | assumption |].
      rewrite Hrun. cbn [bind ret].
      apply IH; [lia | lia | assumption |].
      apply (Hstep i st st1); [lia | assumption | assumption | exact Hrun]. }
  unfold run_scan.
  rewrite getitem_fix by lia. cbn [bind ret].
  rewrite cumulative_loop_all by assumption. cbn [bind ret].
  apply (Hgen (Z.to_nat (len points)) 0%Z initial_state);
    [lia | lia | apply scan_inv_initial | exact Hinit].
Qed.

Lemma detect_with_invariant (points : list Fix) (cfg : config)
    (P : Z -> scan_state -> Prop) :
  (forall i st st',
     (0 <= i < len points)%Z -> scan_inv points i st -> P i st ->
     loop_body points cfg (ts (fix_at points 0)) (cumulative points) i st = ret st' ->
     P (i + 1)%Z st') ->
  P 0%Z initial_state -> (2 <= len points)%Z ->
  exists st,
    run_scan points cfg = ret st /\ scan_inv points (len points) st /\
    P (len points) st /\
    detect_pauses points cfg = ret (pauses st ++ open_tail points st, points).
Proof.
  intros Hstep Hinit Hlen.
  destruct (scan_with_invariant points cfg P Hstep Hinit) as [st [Hrun [Hinv HP]]]; [lia |].
  destruct (detect_pauses_value points cfg Hlen) as [st0 [Hrun0 [_ Hdet]]].
  rewrite Hrun in Hrun0. injection Hrun0 as <-.
  exists st. split; [exact Hrun |]. split; [exact Hinv |]. split; [exact HP | exact Hdet].
Qed.

Lemma detect_pauses_records (points : list Fix) (cfg : config) :
  exists ps,
    detect_pauses points cfg = ret (ps, points) /\
    chain (-1) ps /\ Forall (is_record points) ps.
Proof.
  destruct (Z.ltb_spec (len points) 2) as [Hshort | Hlong].
  { exists []. split; [apply detect_pauses_short; assumption |].
    split; [exact I | constructor]. }
  destruct (detect_with_invariant points cfg
              (fun _ st => Forall (is_record points) (pauses st)))
    as [st [_ [Hinv [HP Hdet]]]]; [| constructor | assumption |].
  { intros i st st' Hi Hinv HP Hrun.
    destruct (loop_body_cases points cfg i st st' Hi Hinv Hrun)
      as [[_ [md [ap [pd [_ [_ [_ ->]]]]]]] | [si [md [ap [Hsi [_ [_ [_ ->]]]]]]]].
    - destruct (start_criteria cfg md ap pd); exact HP.
    - destruct (end_criteria cfg md ap); [| exact HP].
      cbn [closed_at pauses]. apply Forall_app. split; [exact HP |].
      constructor; [| constructor].
      pose proof (chain_end_ge _ _ (inv_chain _ _ _ Hinv)).
      exists si, i. repeat split; lia. }
  eexists. split; [exact Hdet |]. split.
  - destruct (open_tail_cases points st Hinv) as [[_ ->] | [si [Hsi [_ ->]]]].
    + rewrite app_nil_r. apply (inv_chain _ _ _ Hinv).
    + apply chain_app. cbn [closure_info pause_info.start_index pause_info.end_index].
      split; [apply (inv_chain _ _ _ Hinv) | lia].
  - apply Forall_app. split; [exact HP |].
    destruct (open_tail_cases points st Hinv) as [[_ ->] | [si [Hsi [_ ->]]]];
      [constructor |].
    constructor; [| constructor].
    pose proof (chain_end_ge _ _ (inv_chain _ _ _ Hinv)).
    exists si, (len points - 1)%Z. repeat split; lia.
Qed.

Lemma total_meters_split (points : list Fix) (a b : Z) (m : nat) :
  (a <= b)%Z ->
  total_meters points a (b + Z.of_nat m) =
  total_meters points a b + total_meters points b (b + Z.of_nat m).
Proof.
  intros Hab. induction m as [| m IH].
  - rewrite Z.add_0_r. rewrite (total_meters_empty points b b) by lia. lra.
  - replace (b + Z.of_nat (S m))%Z with (b + Z.of_nat m + 1)%Z by lia.
    rewrite !total_meters_snoc by lia. rewrite IH. lra.
Qed.

Lemma total_meters_between (points : list Fix) (a b c : Z) :
  (a <= b <= c)%Z ->
  total_meters points a c = total_meters points a b + total_meters points b c.
Proof.
  intros H. replace c with (b + Z.of_nat (Z.to_nat (c - b)))%Z by lia.
  apply total_meters_split. lia.
Qed.


(** On a sorted track no pause has a negative duration or starts before the
    activity, and the pauses follow each other in time: each one starts no
    earlier than the one before it ends. *)
Theorem pauses_ordered_in_time (points : list Fix) (cfg : config) :
  sorted_track points ->
  exists ps : list pause_info.t,
    detect_pauses points cfg = ret (ps, points) /\
    Forall (fun p =>
      0 <= pause_info.duration_seconds p /\
      0 <= pause_info.time_from_start_seconds p) ps /\
    forall (j k : nat) (pj pk : pause_info.t),
      nth_error ps j = Some pj -> nth_error ps k = Some pk -> (j < k)%nat ->
      (pause_info.end_ pj <= pause_info.start pk)%Z.
Proof.
  intros Hsorted.
  destruct (detect_pauses_records points cfg) as [ps [Hdet [Hchain Hrec]]].
  exists ps. split; [exact Hdet |]. split.
  - eapply Forall_impl; [| exact Hrec].
    intros p [si [ei [Hsi [Hei ->]]]].
    cbn [closure_info pause_info.duration_seconds pause_info.time_from_start_seconds].
    split; apply total_seconds_nonneg.
    + pose proof (sorted_track_le points si ei Hsorted ltac:(lia) ltac:(lia)). lia.
    + pose proof (sorted_track_le points 0 si Hsorted ltac:(lia) ltac:(lia)). lia.
  - intros j k pj pk Hj Hk Hjk.
    destruct (chain_pairs ps (-1) j k pj pk Hchain Hj Hk Hjk) as [_ Hlt].
    rewrite Forall_forall in Hrec.
    destruct (Hrec pj (nth_error_In _ _ Hj)) as [sj [ej [Hsj [Hej ->]]]].
    destruct (Hrec pk (nth_error_In _ _ Hk)) as [sk [ek [Hsk [Hek ->]]]].
    cbn [closure_info pause_info.start pause_info.end_ pause_info.start_index
         pause_info.end_index] in *.
    apply sorted_track_le; [exact Hsorted | lia | lia].
Qed.

Lemma pauses_ordered_in_time_witness :
  exists ps : list pause_info.t,
    detect_pauses [mkFix 0 0 0; mkFix 0 0 1000000] default_config =
      ret (ps, [mkFix 0 0 0; mkFix 0 0 1000000]) /\
    Forall (fun p =>
      0 <= pause_info.duration_seconds p /\
      0 <= pause_info.time_from_start_seconds p) ps /\
    forall (j k : nat) (pj pk : pause_info.t),
      nth_error ps j = Some pj -> nth_error ps k = Some pk -> (j < k)%nat ->
      (pause_info.end_ pj <= pause_info.start pk)%Z.
Proof.
  apply (pauses_ordered_in_time [mkFix 0 0 0; mkFix 0 0 1000000] default_config).
  reflexivity.
Defined.

(** ** Thresholds that switch the detection off *)

Lemma max_distance_window_nonneg (points : list Fix) (i w : Z) (md : R) :
  calculate_max_distance_window points i w = ret md -> 0 <= md.
Proof.
  unfold calculate_max_distance_window.
  destruct (getitem points i) as [e | p]; [discriminate |]. cbn [bind ret].
  destruct (window_scan points _ _ _) as [e | win]; [discriminate |]. cbn [bind ret].
  destruct (max_pairs_spec win 0) as [m [Hm [Hge _]]].
  rewrite Hm. intros H. injection H as <-. exact Hge.
Qed.

Lemma max_window_at_last (points : list Fix) (w : Z) :
  (1 <= len points)%Z ->
  calculate_max_distance_window points (len points - 1) w = ret 0.
Proof.
  intros H. unfold calculate_max_distance_window.
  rewrite getitem_fix by lia. cbn [bind ret].
  rewrite range_nil by lia. reflexivity.
Qed.

(** With a start threshold of 0 or less no pause ever starts: the result is
    empty whatever the track. *)
Theorem no_pause_without_start_threshold (points : list Fix) (cfg : config) :
  threshold_start cfg <= 0 ->
  detect_pauses points cfg = ret ([], points).
Proof.
  intros Hthr.
  destruct (Z.ltb_spec (len points) 2) as [Hshort | Hlong];
    [apply detect_pauses_short; assumption |].
  destruct (detect_with_invariant points cfg (fun _ st => st = initial_state))
    as [st [_ [_ [-> Hdet]]]]; [| reflexivity | assumption | exact Hdet].
  intros i st st' Hi Hinv -> Hrun.
  destruct (loop_body_cases points cfg i initial_state st' Hi Hinv Hrun)
    as [[_ [md [ap [pd [Hmd [_ [_ ->]]]]]]] | [si [md [ap [_ [[Hp _] _]]]]]].
  - pose proof (max_distance_window_nonneg _ _ _ _ Hmd) as Hge.
    unfold start_criteria. cbv zeta. rewrite (fltb_false md) by lra. reflexivity.
  - discriminate.
Qed.

Lemma no_pause_without_start_threshold_witness :
  detect_pauses [mkFix 0 0 0; mkFix 0 0 1000000]
    (mkConfig 0 30 45 15 10 1 30 30 20 7) =
  ret ([], [mkFix 0 0 0; mkFix 0 0 1000000]).
Proof.
  apply (no_pause_without_start_threshold [mkFix 0 0 0; mkFix 0 0 1000000]
           (mkConfig 0 30 45 15 10 1 30 30 20 7)).
  cbn [threshold_start]. lra.
Defined.

(** With an end threshold of 0 or more the loop never closes a pause at the
    last fix, where the window holds a single point: every pause closed inside
    the loop ends before the last fix, so a pause that ends at the last fix is
    the one added after the loop. *)
Theorem loop_never_closes_at_last_fix (points : list Fix) (cfg : config) :
  0 <= threshold_end cfg -> (2 <= len points)%Z ->
  exists st : scan_state,
    run_scan points cfg = ret st /\
    Forall (fun p => (pause_info.end_index p < len points - 1)%Z) (pauses st) /\
    detect_pauses points cfg = ret (pauses st ++ open_tail points st, points) /\
    (in_pause st = true ->
     exists p, open_tail points st = [p] /\
               pause_info.end_index p = (len points - 1)%Z).
Proof.
  intros Hthr Hlen.
  destruct (detect_with_invariant points cfg
              (fun _ st =>
                 Forall (fun p => (pause_info.end_index p < len points - 1)%Z) (pauses st)))
    as [st [Hrun [Hinv [HP Hdet]]]]; [| constructor | assumption |].
  { intros i st st' Hi Hinv HP Hstep.
    destruct (loop_body_cases points cfg i st st' Hi Hinv Hstep)
      as [[_ [md [ap [pd [_ [_ [_ ->]]]]]]] | [si [md [ap [Hsi [_ [Hmd [_ ->]]]]]]]].
    - destruct (start_criteria cfg md ap pd); exact HP.
    - destruct (end_criteria cfg md ap) eqn:E; [| exact HP].
      cbn [closed_at pauses]. apply Forall_app. split; [exact HP |].
      constructor; [| constructor]. cbn [closure_info pause_info.end_index].
      destruct (Z.eq_dec i (len points - 1)) as [-> | Hne]; [| lia].
      rewrite max_window_at_last in Hmd by lia. injection Hmd as <-.
      apply end_criteria_iff in E. destruct E as [E _]. lra. }
  exists st. split; [exact Hrun |]. split; [exact HP |]. split; [exact Hdet |].
  intros Hp.
  destruct (open_tail_cases points st Hinv) as [[Hf _] | [si [_ [_ ->]]]]; [congruence |].
  eexists. split; reflexivity.
Qed.

Lemma loop_never_closes_at_last_fix_witness :
  exists st : scan_state,
    run_scan [mkFix 0 0 0; mkFix 0 0 1000000] default_config = ret st /\
    Forall (fun p => (pause_info.end_index p <
                      len [mkFix 0 0 0; mkFix 0 0 1000000] - 1)%Z) (pauses st) /\
    detect_pauses [mkFix 0 0 0; mkFix 0 0 1000000] default_config =
      ret (pauses st ++ open_tail [mkFix 0 0 0; mkFix 0 0 1000000] st,
           [mkFix 0 0 0; mkFix 0 0 1000000]) /\
    (in_pause st = true ->
     exists p, open_tail [mkFix 0 0 0; mkFix 0 0 1000000] st = [p] /\
               pause_info.end_index p = (len [mkFix 0 0 0; mkFix 0 0 1000000] - 1)%Z).
Proof.
  apply (loop_never_closes_at_last_fix [mkFix 0 0 0; mkFix 0 0 1000000] default_config).
  - cbn [threshold_end default_config]. lra.
  - vm_compute. discriminate.
Defined.

(** ** How many pauses, and where the first one starts *)

Lemma len_app {A : Type} (l1 l2 : list A) : len (l1 ++ l2) = (len l1 + len l2)%Z.
Proof. unfold len. rewrite length_app. lia. Qed.

Lemma chain_end_growth (ps : list pause_info.t) :
  forall lo : Z,
    chain lo ps ->
    Forall (fun p => (pause_info.start_index p < pause_info.end_index p)%Z) ps ->
    (lo + 2 * len ps <= chain_end lo ps)%Z.
Proof.
  induction ps as [| p rest IH]; intros lo Hc Hf; cbn [chain chain_end] in *.
  - unfold len. cbn [length]. lia.
  - destruct Hc as [H1 [H2 H3]]. inversion Hf as [| ? ? Hp Hrest]; subst.
    specialize (IH _ H3 Hrest). unfold len in *. cbn [length]. lia.
Qed.

(** A track of [n] fixes yields at most [(n + 1) / 2] pauses. *)
Theorem pause_count_bound (points : list Fix) (cfg : config) :
  exists ps : list pause_info.t,
    detect_pauses points cfg = ret (ps, points) /\
    (2 * len ps <= len points + 1)%Z.
Proof.
  destruct (Z.ltb_spec (len points) 2) as [Hshort | Hlong].
  { exists []. split; [apply detect_pauses_short; assumption |].
    unfold len. cbn [length]. lia. }
  destruct (detect_pauses_value points cfg Hlong) as [st [_ [Hinv Hdet]]].
  eexists. split; [exact Hdet |].
  assert (Hgrow : (-1 + 2 * len (pauses st) <= chain_end (-1) (pauses st))%Z).
  { apply chain_end_growth; [apply (inv_chain _ _ _ Hinv) |].
    eapply Forall_impl; [| apply (inv_closed _ _ _ Hinv)].
    intros p [H _]. exact H. }
  pose proof (inv_end _ _ _ Hinv) as Hend.
  rewrite len_app.
  destruct (open_tail_cases points st Hinv) as [[_ ->] | [si [Hsi [_ ->]]]];
    unfold len at 2; cbn [length]; lia.
Qed.

(** When the fixes of the first start window stay within the start threshold,
    the first pause returned starts at the first fix, at time 0 of the
    activity: at index 0 the pace and density queries have no data. *)
Theorem pause_from_first_fix (points : list Fix) (cfg : config) (md : R) :
  (2 <= len points)%Z ->
  calculate_max_distance_window points 0 (time_window cfg) = ret md ->
  md < threshold_start cfg ->
  exists (ei : Z) (rest : list pause_info.t),
    detect_pauses points cfg = ret (closure_info points 0 ei :: rest, points) /\
    pause_info.start_index (closure_info points 0 ei) = 0%Z /\
    pause_info.time_from_start_seconds (closure_info points 0 ei) = 0.
Proof.
  intros Hlen Hmd Hthr.
  destruct (detect_with_invariant points cfg
              (fun i st =>
                 (i = 0%Z /\ st = initial_state) \/
                 ((1 <= i)%Z /\
                  ((pauses st = [] /\ paused_since points 0 st) \/
                   exists ei rest, pauses st = closure_info points 0 ei :: rest))))
    as [st [_ [Hinv [HP Hdet]]]]; [| left; split; reflexivity | assumption |].
  { intros i st st' Hi Hinv HP Hrun. right.
    destruct HP as [[-> ->] | [Hi1 HP]].
    - split; [lia |]. left.
      destruct (loop_body_cases points cfg 0 initial_state st' Hi Hinv Hrun)
        as [[_ [md' [ap [pd [Hmd' [Hap [Hpd ->]]]]]]] | [si [m [ap [_ [[Hp _] _]]]]]];
        [| discriminate].
      rewrite Hmd in Hmd'. injection Hmd' as <-.
      rewrite pace_first in Hap. injection Hap as <-.
      rewrite density_first in Hpd. injection Hpd as <-.
      assert (Hc : start_criteria cfg md None None = true).
      { unfold start_criteria. cbv zeta. rewrite (fltb_true _ _ Hthr). reflexivity. }
      rewrite Hc. split; [reflexivity |]. repeat split; reflexivity.
    - split; [lia |].
      destruct (loop_body_cases points cfg i st st' Hi Hinv Hrun)
        as [[Hf [m [ap [pd [_ [_ [_ ->]]]]]]] | [si [m [ap [_ [Hps [_ [_ ->]]]]]]]].
      + destruct HP as [[_ [Hp _]] | [ei [rest Hhead]]]; [congruence |].
        right. exists ei, rest.
        destruct (start_criteria cfg m ap pd); [cbn [started_at pauses] |]; exact Hhead.
      + destruct HP as [[Hnil Hps0] | [ei [rest Hhead]]].
        * destruct Hps as [_ [_ [Hsi _]]]. destruct Hps0 as [Hp0 [Hf0 [Hsi0 Hd0]]].
          rewrite Hsi0 in Hsi. injection Hsi as <-.
          destruct (end_criteria cfg m ap).
          -- right. exists i, []. cbn [closed_at pauses]. rewrite Hnil. reflexivity.
          -- left. split; [exact Hnil |]. repeat split; assumption.
        * right. destruct (end_criteria cfg m ap).
          -- exists ei, (rest ++ [closure_info points si i]).
             cbn [closed_at pauses]. rewrite Hhead. reflexivity.
          -- exists ei, rest. exact Hhead. }
  assert (Hzero : forall ei, pause_info.time_from_start_seconds (closure_info points 0 ei) = 0).
  { intros ei. cbn [closure_info pause_info.time_from_start_seconds].
    rewrite Z.sub_diag. apply total_seconds_zero. }
  destruct HP as [[H0 _] | [_ [[Hnil Hps0] | [ei [rest Hhead]]]]]; [lia | |].
  - exists (len points - 1)%Z, [].
    split; [| split; [reflexivity | apply Hzero]].
    rewrite Hdet, Hnil. unfold open_tail.
    destruct Hps0 as [-> [_ [-> _]]]. reflexivity.
  - exists ei, (rest ++ open_tail points st).
    split; [| split; [reflexivity | apply Hzero]].
    rewrite Hdet, Hhead. reflexivity.
Qed.

Lemma pause_from_first_fix_witness :
  exists (ei : Z) (rest : list pause_info.t),
    detect_pauses [mkFix 0 0 0; mkFix 0 0 1000000] default_config =
      ret (closure_info [mkFix 0 0 0; mkFix 0 0 1000000] 0 ei :: rest,
           [mkFix 0 0 0; mkFix 0 0 1000000]) /\
    pause_info.start_index (closure_info [mkFix 0 0 0; mkFix 0 0 1000000] 0 ei) = 0%Z /\
    pause_info.time_from_start_seconds
      (closure_info [mkFix 0 0 0; mkFix 0 0 1000000] 0 ei) = 0.
Proof.
  apply (pause_from_first_fix [mkFix 0 0 0; mkFix 0 0 1000000] default_config
           (geodesic (mkFix 0 0 0) (mkFix 0 0 1000000))).
  - vm_compute. discriminate.
  - rewrite (max_window_first (mkFix 0 0 0) (mkFix 0 0 1000000)). reflexivity.
  - rewrite geodesic_same_place. cbn [threshold_start default_config]. lra.
Defined.

(** ** [calculate_total_distance] and the distances of the pauses *)

Lemma calculate_total_distance_value (points : list Fix) :
  calculate_total_distance points = ret (total_meters points 0 (len points - 1)).
Proof.
  unfold calculate_total_distance.
  destruct (Z.ltb_spec (len points) 2) as [Hshort | Hlong].
  - rewrite total_meters_empty; [reflexivity |]. unfold len in *. lia.
  - apply distance_during_pause_value; lia.
Qed.

(** The total distance is the last entry of the cumulative distances that
    [detect_pauses] computes, and these never decrease along the track. *)
Theorem total_distance_is_last_cumulative (points : list Fix) :
  (1 <= len points)%Z ->
  exists (total : R) (cumulative_distances : list R),
    calculate_total_distance points = ret total /\
    cumulative_loop points (range 0 (len points - 1)) [0] = ret cumulative_distances /\
    len cumulative_distances = len points /\
    getitem cumulative_distances (-1) = ret total /\
    (forall j k, (0 <= j <= k)%Z -> (k < len points)%Z ->
       exists cj ck,
         getitem cumulative_distances j = ret cj /\
         getitem cumulative_distances k = ret ck /\
         0 <= cj <= ck /\ ck <= total).
Proof.
  intros Hlen.
  exists (total_meters points 0 (len points - 1)), (cumulative points).
  split; [apply calculate_total_distance_value |].
  split; [apply cumulative_loop_all; assumption |].
  assert (Hcl : len (cumulative points) = len points).
  { unfold cumulative. rewrite len_map_range by lia. lia. }
  split; [exact Hcl |]. split.
  - rewrite (getitem_minus_one _ 0) by lia. rewrite Hcl.
    unfold cumulative. rewrite nth_map_range by lia. reflexivity.
  - intros j k Hj Hk.
    exists (total_meters points 0 j), (total_meters points 0 k).
    split; [apply getitem_cumulative; lia |].
    split; [apply getitem_cumulative; lia |].
    rewrite (total_meters_between points 0 j k) by lia.
    rewrite (total_meters_between points 0 k (len points - 1)) by lia.
    rewrite (total_meters_between points 0 j k) by lia.
    pose proof (total_meters_nonneg points 0 j).
    pose proof (total_meters_nonneg points j k).
    pose proof (total_meters_nonneg points k (len points - 1)).
    lra.
Qed.

Lemma total_distance_is_last_cumulative_witness :
  exists (total : R) (cumulative_distances : list R),
    calculate_total_distance [mkFix 0 0 0; mkFix 0 0 1000000] = ret total /\
    cumulative_loop [mkFix 0 0 0; mkFix 0 0 1000000]
      (range 0 (len [mkFix 0 0 0; mkFix 0 0 1000000] - 1)) [0] =
      ret cumulative_distances /\
    len cumulative_distances = len [mkFix 0 0 0; mkFix 0 0 1000000] /\
    getitem cumulative_distances (-1) = ret total /\
    (forall j k, (0 <= j <= k)%Z -> (k < len [mkFix 0 0 0; mkFix 0 0 1000000])%Z ->
       exists cj ck,
         getitem cumulative_distances j = ret cj /\
         getitem cumulative_distances k = ret ck /\
         0 <= cj <= ck /\ ck <= total).
Proof.
  apply (total_distance_is_last_cumulative [mkFix 0 0 0; mkFix 0 0 1000000]).
  vm_compute. discriminate.
Defined.

Lemma fold_left_Rplus_acc (l : list R) (a : R) :
  fold_left Rplus l a = a + fold_left Rplus l 0.
Proof.
  revert a. induction l as [| x l IH]; intros a; cbn [fold_left].
  - lra.
  - rewrite IH. rewrite (IH (0 + x)). lra.
Qed.

Lemma sum_cons (x : R) (l : list R) : sum (x :: l) = x + sum l.
Proof.
  unfold sum. cbn [fold_left]. rewrite fold_left_Rplus_acc. lra.
Qed.

(** No pause reports more distance than [calculate_total_distance] gives for
    the whole track. *)
Theorem pause_distance_within_total (points : list Fix) (cfg : config) :
  exists (ps : list pause_info.t) (total : R),
    detect_pauses points cfg = ret (ps, points) /\
    calculate_total_distance points = ret total /\
    Forall (fun p => pause_info.distance_meters p <= total) ps.
Proof.
  destruct (detect_pauses_records points cfg) as [ps [Hdet [_ Hrec]]].
  exists ps, (total_meters points 0 (len points - 1)).
  split; [exact Hdet |]. split; [apply calculate_total_distance_value |].
  eapply Forall_impl; [| exact Hrec].
  intros p [si [ei [Hsi [Hei ->]]]].
  cbn [closure_info pause_info.distance_meters].
  rewrite (total_meters_between points 0 si (len points - 1)) by lia.
  rewrite (total_meters_between points si ei (len points - 1)) by lia.
  pose proof (total_meters_nonneg points 0 si).
  pose proof (total_meters_nonneg points ei (len points - 1)).
  lra.
Qed.

(** ** [calculate_average_pace_during_pause]: the mean of the segment paces *)

Lemma instantaneous_loop_value (points : list Fix) (idxs : list Z) :
  forall acc : list R,
    (forall k, In k idxs -> (0 <= k /\ k + 1 < len points)%Z) ->
    instantaneous_loop points idxs acc =
    ret (acc ++ map (segment_pace points) (moving_segments points idxs)).
Proof.
  induction idxs as [| i rest IH]; intros acc H.
  - cbn [instantaneous_loop moving_segments filter map]. rewrite app_nil_r. reflexivity.
  - cbn [instantaneous_loop].
    assert (Hi : (0 <= i /\ i + 1 < len points)%Z) by (apply H; left; reflexivity).
    rewrite (getitem_fix points i) by lia. cbn [bind ret].
    rewrite (getitem_fix points (i + 1)) by lia. cbn [bind ret].
    rewrite haversine_returns. cbn [bind ret].
    fold (geodesic (fix_at points i) (fix_at points (i + 1))).
    fold (segment_meters points i). fold (segment_seconds points i).
    assert (Hrest : forall k, In k rest -> (0 <= k /\ k + 1 < len points)%Z)
      by (intros k Hk; apply H; right; exact Hk).
    unfold moving_segments. cbn [filter]. fold (moving_segments points rest).
    destruct (fltb 0 (segment_meters points i) && fltb 0 (segment_seconds points i)) eqn:E.
    + apply andb_true_iff in E. destruct E as [Ed _]. apply fltb_iff in Ed.
      unfold truediv. rewrite feqb_false by lra. cbn [bind ret].
      rewrite IH by assumption. cbn [map]. rewrite <- app_assoc. reflexivity.
    + apply IH. assumption.
Qed.

Lemma pause_pace_value (points : list Fix) (s e : Z) :
  (0 <= s < e)%Z -> (e < len points)%Z ->
  calculate_average_pace_during_pause points s e =
  ret (match moving_segments points (range s e) with
       | [] => None
       | _ :: _ =>
           Some (sum (map (segment_pace points) (moving_segments points (range s e))) /
                 IZR (len (moving_segments points (range s e))))
       end).
Proof.
  intros Hs He. unfold calculate_average_pace_during_pause.
  destruct (Z.eqb_spec (len points) 0); [lia |].
  destruct (Z.leb_spec e s); [lia |]. cbn [orb].
  rewrite instantaneous_loop_value by (intros k Hk; apply range_In in Hk; lia).
  cbn [app bind ret].
  destruct (moving_segments points (range s e)) as [| k ks]; [reflexivity |].
  cbn [map]. unfold len at 1. cbn [length Z.of_nat Z.eqb].
  unfold truediv. rewrite feqb_false.
  - cbn [bind ret]. unfold len. cbn [length]. rewrite !length_map. reflexivity.
  - unfold len. cbn [length]. apply not_0_IZR. lia.
Qed.

Lemma pause_pace_empty_range (points : list Fix) (s e : Z) :
  (e <= s)%Z -> calculate_average_pace_during_pause points s e = ret None.
Proof.
  intros H. unfold calculate_average_pace_during_pause.
  destruct (Z.leb_spec e s); [| lia]. rewrite orb_true_r. reflexivity.
Qed.

Lemma sum_positive (l : list R) :
  Forall (fun x => 0 < x) l -> l <> [] -> 0 < sum l.
Proof.
  induction l as [| x l IH]; intros Hf Hne; [congruence |].
  inversion Hf as [| ? ? Hx Hl]; subst. rewrite sum_cons.
  destruct l as [| y l'].
  - unfold sum. cbn [fold_left]. lra.
  - assert (0 < sum (y :: l')) by (apply IH; [assumption | discriminate]). lra.
Qed.

(** For a valid range the pause pace is the arithmetic mean of the paces of
    the segments that have a positive length and a positive elapsed time, and
    is therefore positive when it is a number. *)
Theorem pause_pace_is_mean (points : list Fix) (start_index end_index : Z) :
  (0 <= start_index < end_index)%Z -> (end_index < len points)%Z ->
  let moving := moving_segments points (range start_index end_index) in
  exists r : option R,
    calculate_average_pace_during_pause points start_index end_index = ret r /\
    (moving = [] -> r = None) /\
    (moving <> [] ->
     r = Some (sum (map (segment_pace points) moving) / IZR (len moving)) /\
     0 < sum (map (segment_pace points) moving) / IZR (len moving)) /\
    (forall k, In k moving <->
       (start_index <= k < end_index)%Z /\
       0 < segment_meters points k /\ 0 < segment_seconds points k).
Proof.
  intros Hs He. cbv zeta.
  rewrite pause_pace_value by assumption.
  eexists. split; [reflexivity |].
  assert (Hin : forall k, In k (moving_segments points (range start_index end_index)) <->
             (start_index <= k < end_index)%Z /\
             0 < segment_meters points k /\ 0 < segment_seconds points k).
  { intros k. unfold moving_segments. rewrite filter_In, range_In, andb_true_iff, !fltb_iff.
    reflexivity. }
  split; [| split; [| exact Hin]].
  - intros ->. reflexivity.
  - intros Hne.
    destruct (moving_segments points (range start_index end_index)) as [| k ks] eqn:E;
      [congruence |].
    split; [reflexivity |].
    apply Rdiv_lt_0_compat.
    + apply sum_positive; [| discriminate].
      apply Forall_forall. intros x Hx. apply in_map_iff in Hx.
      destruct Hx as [j [<- Hj]]. apply Hin in Hj. destruct Hj as [_ [Hd Ht]].
      unfold segment_pace.
      assert (0 < segment_seconds points j / segment_meters points j)
        by (apply Rdiv_lt_0_compat; assumption).
      lra.
    + apply IZR_lt. unfold len. cbn [length]. lia.
Qed.

Lemma pause_pace_is_mean_witness :
  let points := [mkFix 0 0 0; mkFix 0 0 1000000] in
  let moving := moving_segments points (range 0 1) in
  exists r : option R,
    calculate_average_pace_during_pause points 0 1 = ret r /\
    (moving = [] -> r = None) /\
    (moving <> [] ->
     r = Some (sum (map (segment_pace points) moving) / IZR (len moving)) /\
     0 < sum (map (segment_pace points) moving) / IZR (len moving)) /\
    (forall k, In k moving <->
       (0 <= k < 1)%Z /\
       0 < segment_meters points k /\ 0 < segment_seconds points k).
Proof.
  apply (pause_pace_is_mean [mkFix 0 0 0; mkFix 0 0 1000000] 0 1).
  - lia.
  - vm_compute. reflexivity.
Defined.

(** On one segment whose timestamps do not decrease, the pause pace and the
    pace query over the last point agree. *)
Theorem pause_pace_one_segment (points : list Fix) (i : Z) :
  (0 <= i)%Z -> (i + 1 < len points)%Z ->
  (ts (fix_at points i) <= ts (fix_at points (i + 1)))%Z ->
  calculate_average_pace_during_pause points i (i + 1) =
  calculate_average_pace_last_points points (i + 1) 1.
Proof.
  intros Hi Hlen Hts.
  rewrite pause_pace_value by lia.
  rewrite average_pace_value by lia. cbv zeta.
  destruct (Z.ltb_spec (i + 1) 1); [lia |].
  replace (i + 1 - 1)%Z with i by lia.
  destruct (Z.leb_spec (i + 1) i); [lia |].
  assert (Hm : total_meters points i (i + 1) = segment_meters points i).
  { rewrite total_meters_snoc by lia. rewrite total_meters_empty by lia. lra. }
  assert (He : total_elapsed points i (i + 1) = segment_seconds points i).
  { rewrite total_elapsed_snoc by lia. unfold total_elapsed.
    rewrite range_nil by lia. cbn [sum_over fold_right]. lra. }
  rewrite Hm, He.
  rewrite (range_cons i (i + 1)) by lia. rewrite range_nil by lia.
  unfold moving_segments. cbn [filter].
  pose proof (geodesic_nonneg (fix_at points i) (fix_at points (i + 1))) as Hd.
  fold (segment_meters points i) in Hd.
  assert (Ht : 0 <= segment_seconds points i)
    by (unfold segment_seconds; apply total_seconds_nonneg; lia).
  destruct (Rlt_dec 0 (segment_meters points i)) as [Hdp | Hdz].
  - rewrite (fltb_true _ _ Hdp). rewrite (feqb_false (segment_meters points i) 0) by lra.
    destruct (Rlt_dec 0 (segment_seconds points i)) as [Htp | Htz].
    + rewrite (fltb_true _ _ Htp). rewrite (feqb_false (segment_seconds points i) 0) by lra.
      cbn [andb orb map]. unfold ret. do 2 f_equal.
      rewrite sum_cons. unfold sum. cbn [fold_left]. unfold len. cbn [length Z.of_nat].
      unfold segment_pace. field. lra.
    + rewrite (fltb_false 0 (segment_seconds points i)) by lra.
      rewrite (feqb_true (segment_seconds points i) 0) by lra.
      cbn [andb orb]. reflexivity.
  - rewrite (fltb_false 0 (segment_meters points i)) by lra.
    rewrite (feqb_true (segment_meters points i) 0) by lra.
    cbn [andb orb]. reflexivity.
Qed.

Lemma pause_pace_one_segment_witness :
  calculate_average_pace_during_pause [mkFix 0 0 0; mkFix 0 0 1000000] 0 (0 + 1) =
  calculate_average_pace_last_points [mkFix 0 0 0; mkFix 0 0 1000000] (0 + 1) 1.
Proof.
  apply (pause_pace_one_segment [mkFix 0 0 0; mkFix 0 0 1000000] 0).
  - lia.
  - vm_compute. reflexivity.
  - vm_compute. discriminate.
Defined.

(** The call the report makes for each pause returned by [detect_pauses],
    with the pause's own indices, never raises; it gives "no data" for a pause
    of a single point. *)
Theorem pause_pace_of_detected_pauses (points : list Fix) (cfg : config) :
  exists ps : list pause_info.t,
    detect_pauses points cfg = ret (ps, points) /\
    Forall (fun p =>
      exists r : option R,
        calculate_average_pace_during_pause points
          (pause_info.start_index p) (pause_info.end_index p) = ret r /\
        (pause_info.start_index p = pause_info.end_index p -> r = None)) ps.
Proof.
  destruct (detect_pauses_records points cfg) as [ps [Hdet [_ Hrec]]].
  exists ps. split; [exact Hdet |].
  eapply Forall_impl; [| exact Hrec].
  intros p [si [ei [Hsi [Hei ->]]]].
  cbn [closure_info pause_info.start_index pause_info.end_index].
  destruct (Z.eq_dec si ei) as [-> | Hne].
  - exists None. split; [apply pause_pace_empty_range; lia | reflexivity].
  - rewrite pause_pace_value by lia. eexists. split; [reflexivity |]. intros H. lia.
Qed.

(** ** [format_pace] and [format_time] *)

Lemma Int_part_bounds (x : R) : IZR (Int_part x) <= x < IZR (Int_part x) + 1.
Proof. pose proof (base_Int_part x) as [H1 H2]. lra. Qed.

Lemma Int_part_unique (x : R) (z : Z) : IZR z <= x < IZR z + 1 -> Int_part x = z.
Proof. intros H. symmetry. apply Int_part_spec. lra. Qed.

Lemma Int_part_IZR (z : Z) : Int_part (IZR z) = z.
Proof. apply Int_part_unique. lra. Qed.

Lemma Int_part_minus_Z (x : R) (z : Z) : Int_part (x - IZR z) = (Int_part x - z)%Z.
Proof.
  apply Int_part_unique. rewrite minus_IZR.
  pose proof (Int_part_bounds x). lra.
Qed.

Lemma Int_part_div (x : R) (n : Z) :
  (0 < n)%Z -> Int_part (x / IZR n) = (Int_part x / n)%Z.
Proof.
  intros Hn. apply Int_part_unique.
  pose proof (Int_part_bounds x) as [Hlo Hhi].
  assert (Hnr : 0 < IZR n) by (apply IZR_lt in Hn; exact Hn).
  assert (Hq1 : IZR n * IZR (Int_part x / n) <= IZR (Int_part x)).
  { rewrite <- mult_IZR. apply IZR_le. Z.div_mod_to_equations. nia. }
  assert (Hq2 : IZR (Int_part x) + 1 <= IZR n * IZR (Int_part x / n) + IZR n).
  { rewrite <- mult_IZR, <- !plus_IZR. apply IZR_le. Z.div_mod_to_equations. nia. }
  split.
  - apply (Rmult_le_reg_l (IZR n)); [exact Hnr |].
    replace (IZR n * (x / IZR n)) with x by (field; lra). lra.
  - apply (Rmult_lt_reg_l (IZR n)); [exact Hnr |].
    replace (IZR n * (x / IZR n)) with x by (field; lra). lra.
Qed.

Lemma py_int_IZR (z : Z) : py_int (IZR z) = z.
Proof.
  unfold py_int. destruct (fltb (IZR z) 0).
  - rewrite <- opp_IZR, Int_part_IZR. lia.
  - apply Int_part_IZR.
Qed.

Lemma py_int_nonneg (x : R) : 0 <= x -> py_int x = Int_part x.
Proof. intros H. unfold py_int. rewrite fltb_false by lra. reflexivity. Qed.

Lemma format_time_value (seconds : R) :
  0 <= seconds < 9007199254740992 ->
  let F := Int_part seconds in
  format_time seconds =
    ret (clock_text (F / 3600) ((F mod 3600) / 60) (F mod 60)).
Proof.
  intros _. cbv zeta. set (F := Int_part seconds).
  pose proof (Int_part_bounds seconds) as [Hlo Hhi]. fold F in Hlo, Hhi.
  unfold format_time, floordiv, pymod.
  rewrite (feqb_false 3600 0) by lra. rewrite (feqb_false 60 0) by lra.
  cbn [bind ret].
  rewrite (Int_part_div seconds 3600) by lia. fold F.
  rewrite (Int_part_div seconds 60) by lia. fold F.
  rewrite !py_int_IZR.
  rewrite <- !mult_IZR.
  rewrite (Int_part_div _ 60) by lia.
  rewrite Int_part_minus_Z. fold F.
  assert (Hs : py_int (seconds - IZR (60 * (F / 60))) = (F mod 60)%Z).
  { rewrite py_int_nonneg.
    - rewrite Int_part_minus_Z. fold F. Z.div_mod_to_equations. lia.
    - assert (H : IZR (60 * (F / 60)) <= IZR F)
        by (apply IZR_le; Z.div_mod_to_equations; lia).
      lra. }
  rewrite Hs.
  replace (F - 3600 * (F / 3600))%Z with (F mod 3600)%Z
    by (Z.div_mod_to_equations; lia).
  unfold clock_text. destruct (0 <? F / 3600)%Z; reflexivity.
Qed.

Example format_time_hours : format_time (7451 / 2) = ret "1h02:05"%string.
Proof.
  rewrite format_time_value by lra. cbv zeta.
  rewrite (Int_part_unique (7451 / 2) 3725) by lra. reflexivity.
Qed.

Example format_time_minutes : format_time 75 = ret "1:15"%string.
Proof.
  rewrite format_time_value by lra. cbv zeta. rewrite (Int_part_IZR 75). reflexivity.
Qed.

(** For an argument that is not negative, [format_time] prints its whole
    seconds [F] as hours [F / 3600], minutes [(F mod 3600) / 60] and seconds
    [F mod 60]: minutes and seconds stay below 60, the three add up to [F],
    and the hours are printed exactly when the argument is at least 3600.
    The argument is taken below 2^53, where a float holds every whole
    second. *)
Theorem format_time_clock (seconds : R) :
  0 <= seconds < 9007199254740992 ->
  let F := Int_part seconds in
  format_time seconds =
    ret (clock_text (F / 3600) ((F mod 3600) / 60) (F mod 60)) /\
  (0 <= F / 3600)%Z /\
  (0 <= (F mod 3600) / 60 < 60)%Z /\
  (0 <= F mod 60 < 60)%Z /\
  F = ((F / 3600) * 3600 + ((F mod 3600) / 60) * 60 + F mod 60)%Z /\
  ((0 < F / 3600)%Z <-> 3600 <= seconds).
Proof.
  intros [Hpos Hmax]. cbv zeta. split; [apply format_time_value; lra |].
  set (F := Int_part seconds).
  pose proof (Int_part_bounds seconds) as [Hlo Hhi]. fold F in Hlo, Hhi.
  assert (HF : (0 <= F)%Z).
  { destruct (Z_le_gt_dec 0 F) as [Hle | Hgt]; [exact Hle |].
    assert (Hc : (F + 1 <= 0)%Z) by lia. apply IZR_le in Hc. rewrite plus_IZR in Hc. lra. }
  split; [| split; [| split; [| split]]].
  - Z.div_mod_to_equations. lia.
  - Z.div_mod_to_equations. lia.
  - Z.div_mod_to_equations. lia.
  - Z.div_mod_to_equations. lia.
  - split.
    + intros Hh. assert (H : (3600 <= F)%Z) by (Z.div_mod_to_equations; lia).
      apply IZR_le in H. lra.
    + intros Hs. assert (H : (3600 <= F)%Z).
      { apply le_IZR. destruct (Z_le_gt_dec 3600 F) as [Hle | Hgt].
        - apply IZR_le. exact Hle.
        - assert (Hc : (F + 1 <= 3600)%Z) by lia.
          apply IZR_le in Hc. rewrite plus_IZR in Hc. lra. }
      Z.div_mod_to_equations. lia.
Qed.

Lemma format_time_clock_witness :
  let F := Int_part 75 in
  format_time 75 =
    ret (clock_text (F / 3600) ((F mod 3600) / 60) (F mod 60)) /\
  (0 <= F / 3600)%Z /\
  (0 <= (F mod 3600) / 60 < 60)%Z /\
  (0 <= F mod 60 < 60)%Z /\
  F = ((F / 3600) * 3600 + ((F mod 3600) / 60) * 60 + F mod 60)%Z /\
  ((0 < F / 3600)%Z <-> 3600 <= 75).
Proof.
  apply (format_time_clock 75). lra.
Defined.

(** For a pace that is not negative, [format_pace] prints the integer part of
    the pace as minutes, a colon, and two digits of seconds between 00 and
    59, within one second of the fractional part of the pace times 60. *)
Theorem format_pace_minutes_seconds (pace_min_per_km : R) :
  0 <= pace_min_per_km ->
  let minutes := Int_part pace_min_per_km in
  exists seconds : Z,
    format_pace pace_min_per_km =
      String.append (str minutes) (String.append ":" (format_02d seconds)) /\
    (0 <= minutes)%Z /\
    (0 <= seconds <= 59)%Z /\
    IZR seconds - 1 < (pace_min_per_km - IZR minutes) * 60 < IZR seconds + 1.
Proof.
  intros Hp. cbv zeta.
  pose proof (Int_part_bounds pace_min_per_km) as [Hlo Hhi].
  set (m := Int_part pace_min_per_km) in *.
  set (x := (pace_min_per_km - IZR m) * 60).
  assert (Hx : 0 <= x < 60) by (unfold x; lra).
  pose proof (Int_part_bounds x) as [Hxlo Hxhi].
  exists (Int_part x). split; [| split; [| split]].
  - unfold format_pace. cbv zeta.
    rewrite (py_int_nonneg pace_min_per_km Hp). fold m. fold x.
    rewrite (py_int_nonneg x) by lra. reflexivity.
  - destruct (Z_le_gt_dec 0 m) as [Hle | Hgt]; [exact Hle |].
    assert (Hc : (m + 1 <= 0)%Z) by lia. apply IZR_le in Hc. rewrite plus_IZR in Hc. lra.
  - split.
    + destruct (Z_le_gt_dec 0 (Int_part x)) as [Hle | Hgt]; [exact Hle |].
      assert (Hc : (Int_part x + 1 <= 0)%Z) by lia.
      apply IZR_le in Hc. rewrite plus_IZR in Hc. lra.
    + destruct (Z_le_gt_dec (Int_part x) 59) as [Hle | Hgt]; [exact Hle |].
      assert (Hc : (60 <= Int_part x)%Z) by lia. apply IZR_le in Hc. lra.
  - lra.
Qed.

Lemma format_pace_minutes_seconds_witness :
  let minutes := Int_part 0 in
  exists seconds : Z,
    format_pace 0 =
      String.append (str minutes) (String.append ":" (format_02d seconds)) /\
    (0 <= minutes)%Z /\
    (0 <= seconds <= 59)%Z /\
    IZR seconds - 1 < (0 - IZR minutes) * 60 < IZR seconds + 1.
Proof.
  apply (format_pace_minutes_seconds 0). lra.
Defined.

Example format_pace_half_minute : format_pace (11 / 2) = "5:30"%string.
Proof.
  unfold format_pace. cbv zeta.
  rewrite (py_int_nonneg (11 / 2)) by lra.
  rewrite (Int_part_unique (11 / 2) 5) by lra.
  replace ((11 / 2 - 5) * 60) with 30 by lra.
  rewrite py_int_IZR. reflexivity.
Qed.

(** ** Longer windows, and why a pause was reported *)

(** A longer window never gives a smaller maximum displacement. *)
Theorem max_distance_window_monotone (points : list Fix) (i w w' : Z) :
  (0 <= i < len points)%Z -> (w <= w')%Z ->
  exists m m' : R,
    calculate_max_distance_window points i w = ret m /\
    calculate_max_distance_window points i w' = ret m' /\
    m <= m'.
Proof.
  intros Hi Hw.
  destruct (max_distance_window_value points i w Hi)
    as [k [m [Hk [Hin [Hstop [Hrun [Hge [Hall Hatt]]]]]]]].
  destruct (max_distance_window_value points i w' Hi)
    as [k' [m' [Hk' [Hin' [Hstop' [Hrun' [Hge' [Hall' Hatt']]]]]]]].
  exists m, m'. split; [exact Hrun |]. split; [exact Hrun' |].
  assert (Hkk : (k <= k')%Z).
  { destruct (Z.le_gt_cases k k') as [H | H]; [exact H |].
    specialize (Hstop' ltac:(lia)). specialize (Hin (i + k')%Z ltac:(lia)).
    unfold timedelta in *. lia. }
  destruct Hatt as [-> | [a [b [Hab [Hb ->]]]]]; [exact Hge' |].
  apply Hall'; lia.
Qed.

Lemma max_distance_window_monotone_witness :
  exists m m' : R,
    calculate_max_distance_window [mkFix 0 0 0; mkFix 0 0 1000000] 0 30 = ret m /\
    calculate_max_distance_window [mkFix 0 0 0; mkFix 0 0 1000000] 0 45 = ret m' /\
    m <= m'.
Proof.
  apply (max_distance_window_monotone [mkFix 0 0 0; mkFix 0 0 1000000] 0 30 45).
  - vm_compute. split; [discriminate | reflexivity].
  - lia.
Defined.

(** Every pause returned was opened by the start criteria at its first fix,
    and every pause that ends before the last fix was closed by the end
    criteria at its last fix. *)
Theorem pauses_justified (points : list Fix) (cfg : config) :
  exists ps : list pause_info.t,
    detect_pauses points cfg = ret (ps, points) /\
    Forall (fun p =>
      (exists (md : R) (ap pd : option R),
         calculate_max_distance_window points (pause_info.start_index p)
           (time_window cfg) = ret md /\
         calculate_average_pace_last_points points (pause_info.start_index p)
           (nb_points_pace cfg) = ret ap /\
         calculate_point_density_last_seconds points (pause_info.start_index p)
           (density_window cfg) = ret pd /\
         md < threshold_start cfg /\
         (ap = None \/ exists v, ap = Some v /\ v > pace_threshold cfg) /\
         (pd = None \/ exists v, pd = Some v /\ v < density_threshold cfg)) /\
      ((pause_info.end_index p < len points - 1)%Z ->
       exists (md : R) (ap : option R),
         calculate_max_distance_window points (pause_info.end_index p)
           (time_window_end cfg) = ret md /\
         calculate_average_pace_last_points points (pause_info.end_index p)
           (nb_points_pace_end cfg) = ret ap /\
         md > threshold_end cfg /\
         exists v, ap = Some v /\ v < pace_threshold_end cfg)) ps.
Proof.
  destruct (Z.ltb_spec (len points) 2) as [Hshort | Hlong].
  { exists []. split; [apply detect_pauses_short; assumption | constructor]. }
  set (opened := fun si : Z =>
    exists (md : R) (ap pd : option R),
      calculate_max_distance_window points si (time_window cfg) = ret md /\
      calculate_average_pace_last_points points si (nb_points_pace cfg) = ret ap /\
      calculate_point_density_last_seconds points si (density_window cfg) = ret pd /\
      md < threshold_start cfg /\
      (ap = None \/ exists v, ap = Some v /\ v > pace_threshold cfg) /\
      (pd = None \/ exists v, pd = Some v /\ v < density_threshold cfg)).
  set (closed := fun ei : Z =>
    exists (md : R) (ap : option R),
      calculate_max_distance_window points ei (time_window_end cfg) = ret md /\
      calculate_average_pace_last_points points ei (nb_points_pace_end cfg) = ret ap /\
      md > threshold_end cfg /\
      exists v, ap = Some v /\ v < pace_threshold_end cfg).
  destruct (detect_with_invariant points cfg
              (fun _ st =>
                 Forall (fun p => opened (pause_info.start_index p) /\
                                  closed (pause_info.end_index p)) (pauses st) /\
                 (forall si, in_pause st = true -> pause_start_index st = Some si ->
                    opened si)))
    as [st [_ [Hinv [[HP Hopen] Hdet]]]]; [| | assumption |].
  { intros i st st' Hi Hinv [HP Hopen] Hrun.
    destruct (loop_body_cases points cfg i st st' Hi Hinv Hrun)
      as [[Hf [md [ap [pd [Hmd [Hap [Hpd ->]]]]]]] |
          [si [md [ap [_ [Hps [Hmd [Hap ->]]]]]]]].
    - destruct (start_criteria cfg md ap pd) eqn:E.
      + split; [exact HP |]. cbn [started_at in_pause pause_start_index].
        intros si _ Hsi. injection Hsi as <-.
        apply start_criteria_iff in E.
        exists md, ap, pd. repeat split; try assumption; apply E.
      + split; [exact HP |]. intros si Hp. congruence.
    - destruct (end_criteria cfg md ap) eqn:E.
      + split; [| cbn [closed_at in_pause]; discriminate].
        cbn [closed_at pauses]. apply Forall_app. split; [exact HP |].
        constructor; [| constructor].
        cbn [closure_info pause_info.start_index pause_info.end_index].
        destruct Hps as [Hp [_ [Hsi _]]]. split; [apply Hopen; assumption |].
        apply end_criteria_iff in E. exists md, ap. repeat split; try assumption; apply E.
      + split; assumption. }
  { split; [constructor |]. cbn [initial_state in_pause]. discriminate. }
  eexists. split; [exact Hdet |].
  apply Forall_app. split.
  - eapply Forall_impl; [| exact HP]. intros p [H1 H2]. split; [exact H1 | intros _; exact H2].
  - destruct (open_tail_cases points st Hinv) as [[_ ->] | [si [_ [[Hp [_ [Hsi _]]] ->]]]];
      [constructor |].
    constructor; [| constructor].
    cbn [closure_info pause_info.start_index pause_info.end_index].
    split; [apply Hopen; assumption | lia].
Qed.
